(** * preprocess/get_antenna_flags.py: averaging, capture flags, antenna flags

    A shallow embedding of [flag] and [main].  Python lists are lists,
    exceptions are the [Raise] outcomes of [result], the two text files
    [main] touches live in a finite map from file names to contents.

    numpy arrays carry float64.  The code is written once over a class of
    arithmetic operations and used at two carriers:
    - [float], Rocq's binary64: [+], [-], [*], [/], [abs], [sqrt] and the
      comparisons are the IEEE operations numpy applies element by element;
    - [xreal], exact real arithmetic with the IEEE special values (infinities
      and NaN) and their rules: the reading under which statements about
      least squares and standard deviations are made.
    The numpy routines that are not element-wise arithmetic ([np.log10],
    [np.polyfit], [np.median]) are parameters of the program, and so are
    the plots; [np.polyfit] and the plots can raise. *)

From Stdlib Require Import ZArith QArith Reals Lra Lia Ascii.
From Stdlib Require Import Floats.
From stdpp Require Import base list strings gmap pretty sorting.

Local Open Scope Z_scope.

(** ** Outcomes of Python code *)

Inductive exn : Set :=
| ValueError   (* numpy: operands could not be broadcast together *)
| IndexError   (* index out of range *)
| NameError    (* name is not defined *)
| TypeError    (* numpy: a routine called on operands it does not take *)
| LinAlgError. (* numpy.linalg: the least-squares solver did not converge *)

Inductive result (A : Type) : Type :=
| Ok (a : A)
| Raise (e : exn).
Arguments Ok {A} a.
Arguments Raise {A} e.

#[global] Instance result_ret : MRet result := λ A, Ok.
#[global] Instance result_bind : MBind result :=
  λ A B f r, match r with Ok a => f a | Raise e => Raise e end.

(** ** The arithmetic of an array element *)

Class NumOps (num : Type) : Type := {
  np_add  : num → num → num;
  np_sub  : num → num → num;
  np_mul  : num → num → num;
  np_div  : num → num → num;
  np_abs  : num → num;
  np_sqrt : num → num;
  np_gt   : num → num → bool;      (* [a > b] *)
  of_int  : Z → num;               (* Python int to float64 *)
}.

(** *** binary64 *)

(** Exact for [|z| < 2^53]; the counts and lengths converted here are far
    below that. *)
Definition float_of_int (z : Z) : float :=
  match z with
  | Z0 => 0%float
  | Zpos _ => PrimFloat.of_uint63 (Uint63.of_Z z)
  | Zneg p => PrimFloat.opp (PrimFloat.of_uint63 (Uint63.of_Z (Zpos p)))
  end.

#[global] Instance float_ops : NumOps float := {
  np_add := PrimFloat.add;
  np_sub := PrimFloat.sub;
  np_mul := PrimFloat.mul;
  np_div := PrimFloat.div;
  np_abs := PrimFloat.abs;
  np_sqrt := PrimFloat.sqrt;
  np_gt a b := PrimFloat.ltb b a;
  of_int := float_of_int;
}.

(** *** Exact reals with the IEEE special values *)

Inductive xreal : Type :=
| Fin (r : R)
| PInf
| NInf
| NaN.

#[global] Instance Rlt_decision : RelDecision Rlt := Rlt_dec.
#[global] Instance Req_decision : EqDecision R := Req_dec_T.

Definition xneg (a : xreal) : xreal :=
  match a with
  | Fin r => Fin (- r)
  | PInf => NInf
  | NInf => PInf
  | NaN => NaN
  end.

Definition xadd (a b : xreal) : xreal :=
  match a, b with
  | NaN, _ | _, NaN => NaN
  | Fin r, Fin s => Fin (r + s)
  | PInf, NInf | NInf, PInf => NaN
  | PInf, _ | _, PInf => PInf
  | NInf, _ | _, NInf => NInf
  end.

(** The sign of a product or quotient with an infinite factor: [s] is the
    finite factor, zero counts as [+0]. *)
Definition xsigned (positive : bool) (s : R) : xreal :=
  if bool_decide (s < 0)%R
  then (if positive then NInf else PInf)
  else (if positive then PInf else NInf).

Definition xmul (a b : xreal) : xreal :=
  match a, b with
  | NaN, _ | _, NaN => NaN
  | Fin r, Fin s => Fin (r * s)
  | Fin r, PInf | PInf, Fin r => if decide (r = 0%R) then NaN else xsigned true r
  | Fin r, NInf | NInf, Fin r => if decide (r = 0%R) then NaN else xsigned false r
  | PInf, PInf | NInf, NInf => PInf
  | PInf, NInf | NInf, PInf => NInf
  end.

Definition xdiv (a b : xreal) : xreal :=
  match a, b with
  | NaN, _ | _, NaN => NaN
  | Fin r, Fin s =>
      if decide (s = 0%R)
      then (if decide (r = 0%R) then NaN          (* 0/0 *)
            else xsigned true r)                  (* r/0 = +-inf *)
      else Fin (r / s)
  | Fin _, (PInf | NInf) => Fin 0
  | (PInf | NInf), (PInf | NInf) => NaN
  | PInf, Fin s => xsigned true s
  | NInf, Fin s => xsigned false s
  end.

Definition xabs (a : xreal) : xreal :=
  match a with
  | Fin r => Fin (Rabs r)
  | PInf | NInf => PInf
  | NaN => NaN
  end.

Definition xsqrt (a : xreal) : xreal :=
  match a with
  | Fin r => if bool_decide (r < 0)%R then NaN else Fin (R_sqrt.sqrt r)
  | PInf => PInf
  | NInf | NaN => NaN
  end.

Definition xgt (a b : xreal) : bool :=
  match a, b with
  | NaN, _ | _, NaN => false
  | Fin r, Fin s => bool_decide (s < r)%R
  | PInf, (Fin _ | NInf) => true
  | Fin _, NInf => true
  | _, _ => false
  end.

#[global] Instance xreal_ops : NumOps xreal := {
  np_add := xadd;
  np_sub a b := xadd a (xneg b);
  np_mul := xmul;
  np_div := xdiv;
  np_abs := xabs;
  np_sqrt := xsqrt;
  np_gt := xgt;
  of_int z := Fin (IZR z);
}.

(** ** Status codes of an antenna channel (the numeric encoding of [flag]) *)

Definition GOOD : Z := 3.
Definition SUSPECT : Z := 2.
Definition BAD : Z := 1.

(** ** Indexing helpers *)

(** [l[lo:hi]] for non-negative bounds: the slice is clipped to the list. *)
Definition py_slice {A} (lo hi : nat) (l : list A) : list A :=
  take (hi - lo) (drop lo l).

(** [np.where(c)[0]]: the positions where [c] holds, ascending. *)
Fixpoint np_where_from (i : nat) (c : list bool) : list nat :=
  match c with
  | [] => []
  | b :: c' => if b then i :: np_where_from (S i) c' else np_where_from (S i) c'
  end.
Definition np_where (c : list bool) : list nat := np_where_from 0 c.

(** Broadcasting of a dimension of size one to size [n]; any other list is
    left as it is. *)
Definition stretch {A} (n : nat) (l : list A) : list A :=
  match l with
  | [x] => replicate n x
  | _ => l
  end.

(** [l[i]] on a Python list or a one-dimensional array. *)
Definition getitem {A} (l : list A) (i : nat) : result A :=
  match l !! i with
  | Some x => Ok x
  | None => Raise IndexError
  end.

(** [a[idx]] with an index array (numpy fancy indexing). *)
Definition fancy {A} (l : list A) (idx : list nat) : result (list A) :=
  mapM (getitem l) idx.

(** numpy's pairing of two one-dimensional operands of an element-wise
    operation: equal lengths, or one of them of length one. *)
Definition broadcast {A} (a b : list A) : result (list (A * A)) :=
  if decide (length a = length b) then Ok (zip a b)
  else match a, b with
       | [x], _ => Ok (zip (replicate (length b) x) b)
       | _, [y] => Ok (zip a (replicate (length a) y))
       | _, _ => Raise ValueError
       end.

(** [range(0, n, 2)] *)
Definition range_step2 (n : nat) : list nat :=
  map (λ k, 2 * k)%nat (seq 0 (Nat.div2 (n + 1))).

(** [np.unique] of the day column: the distinct values, ascending.  Day-ids
    are kept as integers: their conversion to float64 in [np.array(med_power)]
    is exact and one-to-one below [2^53]. *)
Fixpoint insert_unique (x : Z) (l : list Z) : list Z :=
  match l with
  | [] => [x]
  | y :: l' =>
      if decide (x < y) then x :: l
      else if decide (x = y) then l
      else y :: insert_unique x l'
  end.
Definition np_unique (l : list Z) : list Z := foldr insert_unique [] l.

(** ** Files *)

Abbreviation files := (gmap string string).

(** A computation of [main]: it reads and updates the files and returns or
    raises. *)
Definition io (A : Type) : Type := files → files * result A.

#[global] Instance io_ret : MRet io := λ A a fs, (fs, Ok a).
#[global] Instance io_bind : MBind io :=
  λ A B f m fs,
    match m fs with
    | (fs', Ok a) => f a fs'
    | (fs', Raise e) => (fs', Raise e)
    end.

Definition lift {A} (r : result A) : io A := λ fs, (fs, r).

(** [try: os.remove(f) except OSError: pass] *)
Definition os_remove (f : string) : io unit := λ fs, (delete f fs, Ok ()).
(** [open(f, 'a')]: the file is created when missing. *)
Definition open_append (f : string) : io unit :=
  λ fs, (<[f := default "" (fs !! f)]> fs, Ok ()).
(** [open(f, 'w')]: the file is created or truncated. *)
Definition open_write (f : string) : io unit := λ fs, (<[f := ""]> fs, Ok ()).
(** [fh.write(text)] on the open file [f]. *)
Definition fh_write (f : string) (text : string) : io unit :=
  λ fs, (alter (λ old, old +:+ text) f fs, Ok ()).

Definition newline : string := String "010"%char "".
Definition bad_captures_txt : string := "bad_captures.txt".
Definition antenna_flags_txt : string := "antenna_flags.txt".

(** ** The program *)

Section Program.
Context {num : Type} `{NumOps num}.

(** [np.log10], element-wise. *)
Variable np_log10 : num → num.
(** [np.polyfit(x, y, 1)]: the coefficients, highest power first, when it
    returns; numpy raises on points it cannot fit (a single point among
    them). *)
Variable np_polyfit : list num → list num → result (list num).
(** [np.median] of the values of an array. *)
Variable np_median : list num → num.
(** The plots of lines 141-156, of the median spectrum and of the spectra of
    each status against [freq], the frequencies read from the last file:
    they write no file, and matplotlib raises when [freq] is not as long as
    the spectra.  The arguments are [spec], [med] and [status]. *)
Variable plots : list (list num) → list num → list Z → result unit.

(** A two-dimensional array as the list of its rows, all of one length; an
    array without rows has shape (0, 0) here. *)
Definition shape (m : list (list num)) : nat * nat :=
  (length m, length (default [] (head m))).

(** *** flag (lines 18-46) *)

Definition dB (x : num) : num := np_mul (of_int 10) (np_log10 x).

(** [np.where(np.abs(row - median_spec) > 3)[0]] *)
Definition off_median (row median_spec : list num) : result (list nat) :=
  ps ← broadcast row median_spec;
  mret (np_where (map (λ p, np_gt (np_abs (np_sub p.1 p.2)) (of_int 3)) ps)).

(** [n > 0.25*nchan], an integer against a float: compared exactly. *)
Definition exceeds_quarter (n : nat) (nchan : Z) : bool :=
  negb (Qle_bool (inject_Z (Z.of_nat n)) ((1 # 4) * inject_Z nchan)).

Fixpoint flag_loop (nchan : Z) (median_spec : list num) (i : nat)
    (rows : list (list num)) (status : list Z) : result (list Z) :=
  match rows with
  | [] => Ok status
  | row :: rows' =>
      bad ← off_median row median_spec;
      let status :=
        if exceeds_quarter (length bad) nchan then <[i := BAD]> status
        else status in
      (* spec[i,bad] = np.nan: the row is not read again *)
      if forallb (λ b, b <? length row)%nat bad
      then flag_loop nchan median_spec (S i) rows' status
      else Raise IndexError
  end.

Definition flag (spec : list (list num)) (median_spec : list num)
    (chans : nat * nat) : result (list Z) :=
  let nchan := Z.of_nat chans.2 - Z.of_nat chans.1 in
  let spec := map (λ row, map dB (py_slice chans.1 chans.2 row)) spec in
  let median_spec := map dB (py_slice chans.1 chans.2 median_spec) in
  flag_loop nchan median_spec 0 spec (replicate (length spec) GOOD).

Definition default_chans : nat * nat := (1066, 3552)%nat.

(** *** Loading and averaging (lines 64-83 and 121) *)

(** A capture file as [np.load] and the file name give it:
    [data['masterSpectra'][0,...]] and the day-id
    [int(basename.split('_', 1)[0], 10)], taken as readable. *)
Record capture : Type := {
  path : string;
  day : Z;
  spectra : list (list num);
}.

Definition broadcastable (sb sa : nat * nat) : bool :=
  ((sb.1 =? sa.1) || (sb.1 =? 1))%nat && ((sb.2 =? sa.2) || (sb.2 =? 1))%nat.

(** [a += b]: [b] is broadcast to the shape of [a], which does not change. *)
Definition np_iadd (a b : list (list num)) : result (list (list num)) :=
  if broadcastable (shape b) (shape a)
  then Ok (zip_with (λ ra rb, zip_with np_add ra (stretch (length ra) rb))
             a (stretch (length a) b))
  else Raise ValueError.

(** [try: mean_spec += spec except NameError: mean_spec = spec*1.0];
    [None] is the unbound name. *)
Definition accumulate (mean_spec : option (list (list num)))
    (spec : list (list num)) : result (list (list num)) :=
  match mean_spec with
  | Some m => np_iadd m spec
  | None => Ok (map (map (λ x, np_mul x (of_int 1))) spec)
  end.

Fixpoint load (args : list capture) (mean_spec : option (list (list num)))
    (med_power : list (Z * num))
    : result (option (list (list num)) * list (Z * num)) :=
  match args with
  | [] => Ok (mean_spec, med_power)
  | c :: args' =>
      m ← accumulate mean_spec (spectra c);
      load args' (Some m)
        (med_power ++ [(day c, np_median (concat (spectra c)))])
  end.

(** [spec = mean_spec / len(args)] *)
Definition average (mean_spec : option (list (list num))) (n : nat)
    : result (list (list num)) :=
  match mean_spec with
  | Some m => Ok (map (map (λ x, np_div x (of_int (Z.of_nat n)))) m)
  | None => Raise NameError
  end.

Definition spectrum_averager (args : list capture)
    : result (list (list num)) :=
  st ← load args None [];
  average st.1 (length args).

(** *** Outliers of a day (lines 101-109) *)

Definition arange (k : nat) : list num :=
  map (λ i, of_int (Z.of_nat i)) (seq 0 k).

(** [np.polyval]: Horner's scheme from zero. *)
Definition np_polyval (p : list num) (x : num) : num :=
  fold_left (λ y c, np_add (np_mul y x) c) p (of_int 0).

Definition np_sum (l : list num) : num := fold_left np_add l (of_int 0).

Definition np_mean (l : list num) : num :=
  np_div (np_sum l) (of_int (Z.of_nat (length l))).

(** [np.std]: the population standard deviation. *)
Definition np_std (l : list num) : num :=
  let m := np_mean l in
  np_sqrt (np_mean (map (λ x, let d := np_sub x m in np_mul d d) l)).

(** [med_power[valid,1] - np.polyval(run_fit, np.arange(len(valid)))], for
    the powers [y] of the day. *)
Definition detrend (run_fit y : list num) : list num :=
  zip_with np_sub y (map (np_polyval run_fit) (arange (length y))).

Definition run_mean (run_fit y : list num) : num := np_mean (detrend run_fit y).
Definition run_std (run_fit y : list num) : num := np_std (detrend run_fit y).

(** [np.abs(med_power_detrened - run_mean)/run_std] *)
Definition trend_quotients (run_fit y : list num) : list num :=
  map (λ r, np_div (np_abs (np_sub r (run_mean run_fit y))) (run_std run_fit y))
      (detrend run_fit y).

(** The outlier test of lines 104-109 for the fitted line [run_fit]. *)
Definition trend_bad (run_fit y : list num) : list nat :=
  np_where (map (λ q, np_gt q (of_int 3)) (trend_quotients run_fit y)).

(** The fit and the outlier test (lines 101-109) on the powers [y] of a
    day; [len(valid)] is the number of these powers. *)
Definition day_outliers (y : list num) : result (list nat) :=
  run_fit ← np_polyfit (arange (length y)) y;
  Ok (trend_bad run_fit y).

(** *** Bad captures of every day (lines 90-116) *)

(** [valid = np.where(med_power[:,0] == mjd)[0]] *)
Definition day_valid (med_power : list (Z * num)) (mjd : Z) : list nat :=
  np_where (map (λ p, bool_decide (p.1 = mjd)) med_power).

(** The indices [valid[b]] of the captures flagged on day [mjd], in the
    order of [bad]. *)
Definition day_bad (med_power : list (Z * num)) (mjd : Z)
    : result (list nat) :=
  let valid := day_valid med_power mjd in
  y ← fancy (map snd med_power) valid;
  bad ← day_outliers y;
  fancy valid bad.

Fixpoint write_lines (f : string) (args : list capture) (idx : list nat)
    : io unit :=
  match idx with
  | [] => mret ()
  | i :: idx' =>
      c ← lift (getitem args i);
      fh_write f (path c +:+ newline);;
      write_lines f args idx'
  end.

Fixpoint trend_loop (days : list Z) (args : list capture)
    (med_power : list (Z * num)) : io unit :=
  match days with
  | [] => mret ()
  | mjd :: days' =>
      bad ← lift (day_bad med_power mjd);
      open_append bad_captures_txt;;
      write_lines bad_captures_txt args bad;;
      trend_loop days' args med_power
  end.

Definition capture_trend_flagger (args : list capture)
    (med_power : list (Z * num)) : io unit :=
  os_remove bad_captures_txt;;
  (* med_power[:,0] of np.array([]) has too many indices *)
  (if med_power is [] then lift (Raise IndexError) else mret ());;
  trend_loop (np_unique (map fst med_power)) args med_power.

(** *** Median spectrum (line 122) *)

Definition column (b : nat) (m : list (list num)) : list num :=
  omap (λ row, row !! b) m.

(** [np.median(spec, axis=0)] *)
Definition median_axis0 (m : list (list num)) : list num :=
  map (λ b, np_median (column b m)) (seq 0 (shape m).2).

(** *** Pairs of polarisations (lines 128-133) *)

Fixpoint pair_loop (idx : list nat) (status : list Z)
    : result (list Z) :=
  match idx with
  | [] => Ok status
  | i :: idx' =>
      sx ← getitem status (i + 0);
      sy ← getitem status (i + 1);
      if bool_decide (sx ≠ 3 ∨ sy ≠ 3) then
        a ← getitem status (i + 0);
        let status := <[(i + 0)%nat := Z.min a 2]> status in
        b ← getitem status (i + 1);
        let status := <[(i + 1)%nat := Z.min b 2]> status in
        pair_loop idx' status
      else pair_loop idx' status
  end.

Definition pair_rule (status : list Z) : result (list Z) :=
  pair_loop (range_step2 (length status)) status.

(** *** The flag file (lines 159-162) *)

Fixpoint flags_loop (i : nat) (status : list Z) : io unit :=
  match status with
  | [] => mret ()
  | l :: status' =>
      (if bool_decide (l ≠ 3) then fh_write antenna_flags_txt (pretty i +:+ ",")
       else mret ());;
      flags_loop (S i) status'
  end.

Definition write_flags (status : list Z) : io unit :=
  open_write antenna_flags_txt;;
  flags_loop 0 status.

(** *** main (lines 49-162)

    [args] is the list of captures after the expansion of a [.txt] file list
    (lines 51-57), each as it was read: a file that [np.load] cannot read or
    a name without a day-id raises in the loading loop, before any file is
    touched, and is no input of this model.  The progress bar, the figures
    of the trend phase (whose arrays always match) and the counts printed to
    the terminal write no file and are left out. *)

Definition main (args : list capture) : io unit :=
  st ← lift (load args None []);
  capture_trend_flagger args st.2;;
  spec ← lift (average st.1 (length args));
  let med := median_axis0 spec in
  status ← lift (flag spec med default_chans);
  status ← lift (pair_rule status);
  lift (plots spec med status);;
  write_flags status.

End Program.

Arguments capture : clear implicits.
Arguments Build_capture {num} path day spectra.

(** ** The least-squares line

    [np.polyfit] is numpy's; it is documented to return the coefficients that
    minimise the squared error.  For degree one these solve the normal
    equations, written here over the arithmetic of the carrier: in exact
    arithmetic this is the line numpy computes; in float64 numpy's solver
    (a scaled singular value decomposition) rounds differently, so the two
    agree up to rounding only.  numpy refuses vectors that are empty or of
    different lengths, and on a single point its solver does not converge:
    the column of [x] has norm zero and the scaling divides by it. *)

Section LeastSquares.
Context {num : Type} `{NumOps num}.

Definition normal_equations (x y : list num) : list num :=
  let n := of_int (Z.of_nat (length x)) in
  let sx := np_sum x in
  let sy := np_sum y in
  let sxx := np_sum (zip_with np_mul x x) in
  let sxy := np_sum (zip_with np_mul x y) in
  let slope :=
    np_div (np_sub (np_mul n sxy) (np_mul sx sy))
           (np_sub (np_mul n sxx) (np_mul sx sx)) in
  let intercept := np_div (np_sub sy (np_mul slope sx)) n in
  [slope; intercept].

Definition lstsq_line (x y : list num) : result (list num) :=
  if (length x =? 0)%nat || negb (length x =? length y)%nat
  then Raise TypeError
  else if (length x =? 1)%nat then Raise LinAlgError
  else Ok (normal_equations x y).

(** The squared error of the line with coefficients [p] on the points
    [(x, y)]. *)
Definition squared_error (p x y : list num) : num :=
  np_sum (zip_with (λ xi yi, let d := np_sub yi (np_polyval p xi) in
                             np_mul d d) x y).
End LeastSquares.

(** ** Stand-ins for the numpy routines

    Concrete choices for the parameters of the program, used where a
    statement is made on a concrete input. *)

(** [np.log10] on [xreal]: minus infinity at zero, NaN below. *)
Definition xlog10 (a : xreal) : xreal :=
  match a with
  | Fin r =>
      if bool_decide (0 < r)%R then Fin (ln r / ln 10)
      else if decide (r = 0%R) then NInf else NaN
  | PInf => PInf
  | NInf | NaN => NaN
  end.

(** Plots that are drawn: [freq] is as long as the spectra. *)
Definition plots_drawn {num : Type} (spec : list (list num)) (med : list num)
    (status : list Z) : result unit := Ok ().

Section Median.
Context {num : Type} `{NumOps num}.

Fixpoint insert_sorted (x : num) (l : list num) : list num :=
  match l with
  | [] => [x]
  | y :: l' => if np_gt x y then y :: insert_sorted x l' else x :: l
  end.

(** [np.median] of NaN-free values: the middle element of the sorted values,
    or the mean of the two middle elements. *)
Definition median_of (l : list num) : num :=
  let s := foldr insert_sorted [] l in
  let n := length s in
  if Nat.even n
  then np_mean (take 2 (drop (n / 2 - 1) s))
  else np_mean (take 1 (drop (n / 2) s)).
End Median.

(** * The vocabulary of the statements *)

(** What the loop does to the pair standing at [2k], [2k+1]. *)
Definition paired (x y : Z) : Z * Z :=
  if bool_decide (x ≠ 3 ∨ y ≠ 3) then (Z.min x 2, Z.min y 2) else (x, y).

(** The text of the flag file for the indices [idx]: each index in decimal,
    followed by a comma. *)
Definition flag_text (idx : list nat) : string :=
  foldr (λ i text, pretty i +:+ "," +:+ text) "" idx.

(** A text without a comma: what a printed index is. *)
Fixpoint comma_free (s : string) : Prop :=
  match s with
  | EmptyString => True
  | String a s' => a ≠ ","%char ∧ comma_free s'
  end.

Section Vocabulary.
Context {num : Type} `{NumOps num}.
Variable np_log10 : num → num.

(** The test of one bin, in the words of the specification:
    [|10*log10(s) - 10*log10(m)| > 3.0] dB. *)
Definition deviates (s m : num) : bool :=
  np_gt (np_abs (np_sub (np_mul (of_int 10) (np_log10 s))
                        (np_mul (of_int 10) (np_log10 m))))
        (of_int 3).

(** Bin [b] of the row deviates from bin [b] of the median spectrum; a bin
    the arrays do not have does not. *)
Definition bin_deviates (row median_spec : list num) (b : nat) : bool :=
  match row !! b, median_spec !! b with
  | Some s, Some m => deviates s m
  | _, _ => false
  end.

(** The number of bins [b] in [lo, hi) that deviate. *)
Definition count_deviating (row median_spec : list num) (lo hi : nat) : nat :=
  length (List.filter (bin_deviates row median_spec) (seq lo (hi - lo))).

(** The running sum after the first capture and [k] more copies of it. *)
Definition running (k : nat) (x : num) : num :=
  Nat.iter k (λ a, np_add a x) (np_mul x (of_int 1)).

(** The text written for the captures [caps]: one path per line. *)
Definition lines (caps : list (capture num)) : string :=
  foldr (λ c text, (path c +:+ newline) +:+ text) "" caps.

(** The median power of each capture, in input order. *)
Definition median_powers (np_median : list num → num)
    (args : list (capture num)) : list num :=
  map (λ c, np_median (concat (spectra c))) args.

(** The powers [y] of the captures at the positions [group]. *)
Definition powers_at (powers : list num) (group : list nat) (y : list num)
    : Prop :=
  Forall2 (λ i p, powers !! i = Some p) group y.
End Vocabulary.

(** The day-group of [mjd]: the positions in the input of the captures of
    that day, in input order. *)
Definition day_group (days : list Z) (mjd : Z) : list nat :=
  List.filter (λ i, match days !! i with
                    | Some d => bool_decide (d = mjd)
                    | None => false
                    end)
              (seq 0 (length days)).

Section TrendVocabulary.
Context {num : Type} `{NumOps num}.
Variable np_polyfit : list num → list num → result (list num).
Variable days : list Z.
Variable powers : list num.

(** [np.polyfit] returns a line for the day-group of every day of the
    batch. *)
Definition fits_every_day : Prop :=
  ∀ mjd y, mjd ∈ days → powers_at powers (day_group days mjd) y →
           ∃ run_fit, np_polyfit (arange (length y)) y = Ok run_fit.

(** The capture at position [i] of the input is an outlier of the day
    [mjd]: it stands at some position [k] of the day-group, and the outlier
    test on the powers of the group, for the line fitted to them, flags
    [k]. *)
Definition outlier_of_day (mjd : Z) (i : nat) : Prop :=
  ∃ y run_fit k,
    powers_at powers (day_group days mjd) y
    ∧ np_polyfit (arange (length y)) y = Ok run_fit
    ∧ k ∈ trend_bad run_fit y
    ∧ day_group days mjd !! k = Some i.

Definition outlier_of_its_day (i : nat) : Prop := ∃ mjd, outlier_of_day mjd i.

End TrendVocabulary.

(** Order by day-id first and by position in the input second. *)
Definition day_then_index (days : list Z) (i j : nat) : Prop :=
  ∃ di dj, days !! i = Some di ∧ days !! j = Some dj
           ∧ (di < dj ∨ (di = dj ∧ (i < j)%nat)).

Definition is_fin (a : xreal) : Prop :=
  match a with Fin _ => True | _ => False end.


(** ** Concrete inputs *)

(** The day-group of C4. *)
Definition y_example : list xreal := map Fin [10; 10; 10; 10; 100]%R.

(** A day-group of three zero powers: the fitted line is zero, and so are
    the residuals. *)
Definition y_zero : list xreal := [Fin 0; Fin 0; Fin 0].


Definition capture_tenth : capture xreal :=
  Build_capture "60000_000000_tbw.npz" 60000 [[Fin (1 / 10); Fin 2]; [Fin 3; Fin 4]].

(** 0.1 in binary64 and its successor, printed 0.10000000000000002. *)
Definition tenth : float := 0x1.999999999999ap-4%float.
Definition tenth_up : float := 0x1.999999999999bp-4%float.

Definition capture_tenth_f64 : capture float :=
  Build_capture "60000_000000_tbw.npz" 60000 [[tenth]].

Definition capture_2x2 : capture xreal :=
  Build_capture "60000_000000_tbw.npz" 60000 [[Fin 1; Fin 2]; [Fin 3; Fin 4]].
Definition capture_1x3 : capture xreal :=
  Build_capture "60000_000100_tbw.npz" 60000 [[Fin 1; Fin 2; Fin 3]].

Definition capture_2x2_f64 : capture float :=
  Build_capture "60000_000000_tbw.npz" 60000 [[1; 2]; [3; 4]]%float.
Definition capture_1x2_f64 : capture float :=
  Build_capture "60000_000100_tbw.npz" 60000 [[5; 6]]%float.

(** Spectra of four channels over 3552 bins, the third channel 20 dB above
    the others in every bin, and two captures of one day that hold them. *)
Definition quiet_row : list xreal := replicate 3552 (Fin 1).
Definition loud_row : list xreal := replicate 3552 (Fin 100).
Definition loud_spectra : list (list xreal) :=
  [quiet_row; quiet_row; loud_row; quiet_row].
Definition capture_loud_a : capture xreal :=
  Build_capture "60000_000000_tbw.npz" 60000 loud_spectra.
Definition capture_loud_b : capture xreal :=
  Build_capture "60000_000100_tbw.npz" 60000 loud_spectra.

(** Two captures of one day with a single channel. *)
Definition capture_1x3_a : capture xreal :=
  Build_capture "60000_000000_tbw.npz" 60000 [[Fin 1; Fin 2; Fin 3]].
Definition capture_1x3_b : capture xreal :=
  Build_capture "60000_000100_tbw.npz" 60000 [[Fin 1; Fin 2; Fin 3]].

(** Two captures, the later day first in the file list. *)
Definition capture_day_1 : capture xreal :=
  Build_capture "60001_000000_tbw.npz" 60001 [[Fin 1; Fin 2]; [Fin 3; Fin 4]].
Definition capture_day_0 : capture xreal :=
  Build_capture "60000_000000_tbw.npz" 60000 [[Fin 1; Fin 2]; [Fin 3; Fin 4]].

(** A run in float64: twelve captures of day 60001 come first in the file
    list, then twelve of day 60000; on each day the sixth capture is far off
    the trend.  The file names the outlier of day 60000 first. *)
Definition flat_capture (p : string) (d : Z) (power : float) : capture float :=
  Build_capture p d [[power]].

Definition example_args : list (capture float) :=
  (replicate 5 (flat_capture "60001_xx.npz" 60001 10)
   ++ flat_capture "60001_05.npz" 60001 500
   :: replicate 6 (flat_capture "60001_xx.npz" 60001 10))
  ++ (replicate 5 (flat_capture "60000_xx.npz" 60000 10)
      ++ flat_capture "60000_05.npz" 60000 500
      :: replicate 6 (flat_capture "60000_xx.npz" 60000 10)).

(** * The rest of main *)

(** ** The list of files (lines 51-57) *)

(** [s[-4:]] *)
Definition last4 (s : string) : string :=
  String.substring (String.length s - 4) 4 s.

(** [s.split('\n')]: the pieces between the newlines, at least one. *)
Fixpoint split_newline (s : string) : list string :=
  match s with
  | EmptyString => [""]
  | String c s' =>
      if Ascii.eqb c "010"%char then "" :: split_newline s'
      else match split_newline s' with
           | piece :: pieces => String c piece :: pieces
           | [] => [String c ""]
           end
  end.

(** The arguments [main] works on: those of the command line, or the lines
    of the file the first one names when it ends in [.txt]; [read] is
    [open(args[0], 'r').read()]. *)
Definition expand_args (read : string → string) (args : list string)
    : result (list string) :=
  arg0 ← getitem args 0;
  if bool_decide (last4 arg0 = ".txt") then
    let args := split_newline (read arg0) in
    match last args with
    | None => Raise IndexError
    | Some l => if bool_decide (l = "") then Ok (removelast args) else Ok args
    end
  else Ok args.

Section MainArgv.
Context {num : Type} `{NumOps num}.
Variable np_log10 : num → num.
Variable np_polyfit : list num → list num → result (list num).
Variable np_median : list num → num.
Variable plots : list (list num) → list num → list Z → result unit.
(** [open(args[0], 'r').read()] *)
Variable read : string → string.
(** What [np.load] and the file name give for a path, taken as readable. *)
Variable np_load : string → capture num.

(** [main] from its arguments on (lines 49-162). *)
Definition main_argv (argv : list string) : io unit :=
  paths ← lift (expand_args read argv);
  main np_log10 np_polyfit np_median plots (map np_load paths).

End MainArgv.

(** ** The counts printed (lines 136-138) *)

(** [len(list(filter(lambda x: x == s, status)))] *)
Definition count_status (s : Z) (status : list Z) : nat :=
  length (List.filter (λ x, bool_decide (x = s)) status).

(** * More vocabulary *)

(** [pair_rule] as a function on the list, pair by pair; a last element
    without a partner is where the loop raises. *)
Fixpoint pairwise (status : list Z) : list Z :=
  match status with
  | x :: y :: rest => (paired x y).1 :: (paired x y).2 :: pairwise rest
  | _ => status
  end.

(** The other polarisation of the antenna of channel [i]. *)
Definition partner (i : nat) : nat :=
  if Nat.even i then (i + 1)%nat else (i - 1)%nat.

(** An array of [n_rows] rows of [n_cols] values. *)
Definition has_shape {A} (n_rows n_cols : nat) (m : list (list A)) : Prop :=
  length m = n_rows ∧ Forall (λ row, length row = n_cols) m.

(** A text without a newline: what a path in a list of files is. *)
Fixpoint newline_free (s : string) : Prop :=
  match s with
  | EmptyString => True
  | String c s' => c ≠ "010"%char ∧ newline_free s'
  end.

(** The sum of a list of reals. *)
Definition Rsum (l : list R) : R := foldr Rplus 0%R l.

(** * Properties *)

(** ** Lists and indices *)

Lemma getitem_Some {A} (l : list A) i x : l !! i = Some x → getitem l i = Ok x.
Proof. unfold getitem. by intros ->. Qed.

Lemma getitem_None {A} (l : list A) i :
  (length l ≤ i)%nat → getitem l i = Raise IndexError.
Proof. intros Hi. unfold getitem. by rewrite lookup_ge_None_2. Qed.

Lemma range_step2_even m :
  range_step2 (2 * m) = map (λ k, 2 * k)%nat (seq 0 m).
Proof.
  unfold range_step2. replace (2 * m + 1)%nat with (S (2 * m)) by lia.
  by rewrite Nat.div2_succ_double.
Qed.

Lemma range_step2_odd m :
  range_step2 (2 * m + 1) = map (λ k, 2 * k)%nat (seq 0 m) ++ [(2 * m)%nat].
Proof.
  unfold range_step2. replace (2 * m + 1 + 1)%nat with (2 * S m)%nat by lia.
  rewrite Nat.div2_double, seq_S, map_app. reflexivity.
Qed.

(** ** PairRule *)

Lemma pair_loop_app idx1 idx2 status :
  pair_loop (idx1 ++ idx2) status =
  pair_loop idx1 status ≫= pair_loop idx2.
Proof.
  revert status. induction idx1 as [|i idx1 IH]; intros status; simpl; [done|].
  destruct (getitem status (i + 0)) as [sx|]; simpl; [|done].
  destruct (getitem status (i + 1)) as [sy|]; simpl; [|done].
  case_bool_decide; [|apply IH].
  destruct (getitem (<[_ := _]> status) (i + 1)); simpl; [apply IH|done].
Qed.

Lemma pair_loop_spec n : ∀ a (status : list Z),
  (2 * (a + n) ≤ length status)%nat →
  ∃ final,
    pair_loop (map (λ k, 2 * k)%nat (seq a n)) status = Ok final
    ∧ length final = length status
    ∧ (∀ j, (j < 2 * a ∨ 2 * (a + n) ≤ j)%nat → final !! j = status !! j)
    ∧ (∀ k x y, (a ≤ k < a + n)%nat →
         status !! (2 * k)%nat = Some x → status !! (2 * k + 1)%nat = Some y →
         final !! (2 * k)%nat = Some (paired x y).1
         ∧ final !! (2 * k + 1)%nat = Some (paired x y).2).
Proof.
  induction n as [|n IH]; intros a status Hlen.
  { exists status. simpl. split; [done|]. split; [done|]. split; [done|].
    intros; lia. }
  destruct (lookup_lt_is_Some_2 status (2 * a)%nat) as [x Hx]; [lia|].
  destruct (lookup_lt_is_Some_2 status (2 * a + 1)%nat) as [y Hy]; [lia|].
  set (status1 :=
         if bool_decide (x ≠ 3 ∨ y ≠ 3)
         then <[(2 * a + 1)%nat := Z.min y 2]> (<[(2 * a)%nat := Z.min x 2]> status)
         else status).
  assert (Hlen1 : length status1 = length status).
  { unfold status1. case_bool_decide; [|done]. by rewrite !length_insert. }
  assert (Hout : ∀ j, (j < 2 * a ∨ 2 * (a + 1) ≤ j)%nat →
                      status1 !! j = status !! j).
  { intros j Hj. unfold status1. case_bool_decide; [|done].
    rewrite !list_lookup_insert_ne by lia. done. }
  assert (Hin : status1 !! (2 * a)%nat = Some (paired x y).1
                ∧ status1 !! (2 * a + 1)%nat = Some (paired x y).2).
  { unfold status1, paired. case_bool_decide; simpl; [|done]. split.
    - rewrite list_lookup_insert_ne by lia.
      apply list_lookup_insert_eq. lia.
    - apply list_lookup_insert_eq. rewrite length_insert. lia. }
  destruct (IH (S a) status1) as (final & Hrun & Hlenf & Hfout & Hfin); [lia|].
  exists final. split; [|split; [|split]].
  - cbn [seq map pair_loop].
    replace (2 * a + 0)%nat with (2 * a)%nat by lia.
    rewrite (getitem_Some _ _ _ Hx), (getitem_Some _ _ _ Hy). cbn [mbind result_bind].
    unfold status1 in Hrun. case_bool_decide.
    + rewrite (getitem_Some _ _ y)
        by (rewrite list_lookup_insert_ne by lia; done).
      cbn [mbind result_bind]. exact Hrun.
    + exact Hrun.
  - lia.
  - intros j Hj. rewrite Hfout by lia. apply Hout. lia.
  - intros k x' y' Hk Hx' Hy'.
    destruct (decide (k = a)) as [->|Hne].
    + rewrite Hx in Hx'. rewrite Hy in Hy'. simplify_eq.
      rewrite !Hfout by lia. exact Hin.
    + apply Hfin; [lia| |]; rewrite Hout by lia; done.
Qed.

(** A list of even length: every pair is rewritten by [paired], nothing
    else changes. *)
Lemma pair_rule_even (status : list Z) m :
  length status = (2 * m)%nat →
  ∃ final,
    pair_rule status = Ok final
    ∧ length final = length status
    ∧ (∀ k x y,
         status !! (2 * k)%nat = Some x → status !! (2 * k + 1)%nat = Some y →
         final !! (2 * k)%nat = Some (paired x y).1
         ∧ final !! (2 * k + 1)%nat = Some (paired x y).2).
Proof.
  intros Hm. unfold pair_rule. rewrite Hm, range_step2_even.
  destruct (pair_loop_spec m 0 status) as (final & Hrun & Hlen & _ & Hin); [lia|].
  exists final. split; [done|]. split; [lia|].
  intros k x y Hx Hy. apply Hin; [|done|done].
  apply lookup_lt_Some in Hy. lia.
Qed.

(** C2: on a status list of even length, [pair_rule] returns a list of the
    same length in which every adjacent pair (2k, 2k+1) with an element that
    is not GOOD has each element replaced by the minimum of its own status
    and SUSPECT (so GOOD becomes SUSPECT, SUSPECT stays SUSPECT and BAD stays
    BAD), and every pair with both elements GOOD is unchanged. *)
Theorem pair_rule_downgrades_pairs (status : list Z) :
  Nat.Even (length status) →
  ∃ final,
    pair_rule status = Ok final
    ∧ length final = length status
    ∧ ∀ k x y,
        status !! (2 * k)%nat = Some x → status !! (2 * k + 1)%nat = Some y →
        (x ≠ GOOD ∨ y ≠ GOOD →
           final !! (2 * k)%nat = Some (Z.min x SUSPECT)
           ∧ final !! (2 * k + 1)%nat = Some (Z.min y SUSPECT)
           ∧ (x = GOOD → final !! (2 * k)%nat = Some SUSPECT)
           ∧ (y = GOOD → final !! (2 * k + 1)%nat = Some SUSPECT)
           ∧ (x = SUSPECT → final !! (2 * k)%nat = Some SUSPECT)
           ∧ (y = SUSPECT → final !! (2 * k + 1)%nat = Some SUSPECT)
           ∧ (x = BAD → final !! (2 * k)%nat = Some BAD)
           ∧ (y = BAD → final !! (2 * k + 1)%nat = Some BAD))
        ∧ (x = GOOD ∧ y = GOOD →
           final !! (2 * k)%nat = Some GOOD
           ∧ final !! (2 * k + 1)%nat = Some GOOD).
Proof.
  intros [m Hm].
  destruct (pair_rule_even status m Hm) as (final & Hrun & Hlen & Hpairs).
  exists final. split; [done|]. split; [done|].
  intros k x y Hx Hy. destruct (Hpairs k x y Hx Hy) as [Hfx Hfy].
  unfold paired, GOOD, SUSPECT, BAD in *. split.
  - intros Hbad. rewrite bool_decide_eq_true_2 in Hfx, Hfy by done.
    cbn [fst snd] in Hfx, Hfy. rewrite Hfx, Hfy.
    repeat split; intros ->; reflexivity.
  - intros [-> ->]. rewrite bool_decide_eq_false_2 in Hfx, Hfy by lia.
    done.
Qed.

Lemma pair_rule_downgrades_pairs_witness :
  Nat.Even (length [3; 1; 3; 3])
  ∧ ∃ final, pair_rule [3; 1; 3; 3] = Ok final
             ∧ final !! 0%nat = Some SUSPECT ∧ final !! 1%nat = Some BAD
             ∧ final !! 2%nat = Some GOOD ∧ final !! 3%nat = Some GOOD.
Proof.
  assert (Heven : Nat.Even (length [3; 1; 3; 3])) by (exists 2%nat; reflexivity).
  split; [exact Heven|].
  destruct (pair_rule_downgrades_pairs [3; 1; 3; 3] Heven)
    as (final & Hrun & _ & Hpairs).
  exists final. split; [exact Hrun|].
  destruct (Hpairs 0%nat 3 1 eq_refl eq_refl) as [H0 _].
  destruct (Hpairs 1%nat 3 3 eq_refl eq_refl) as [_ H1].
  destruct H0 as (_ & _ & Ha & _ & _ & _ & _ & Hb); [right; discriminate|].
  destruct H1 as [Hc Hd]; [split; reflexivity|].
  repeat split; [apply Ha|apply Hb|exact Hc|exact Hd]; reflexivity.
Defined.

(** C3, as the code has it: for the pair (GOOD, BAD), [pair_rule] returns
    (SUSPECT, BAD): the GOOD element becomes SUSPECT and the BAD element
    stays BAD, being the minimum of BAD and SUSPECT.  The result is not
    (BAD, BAD) and neither element remains GOOD. *)
Theorem pair_rule_good_bad :
  pair_rule [GOOD; BAD] = Ok [SUSPECT; BAD]
  ∧ pair_rule [GOOD; BAD] ≠ Ok [BAD; BAD]
  ∧ ∀ final, pair_rule [GOOD; BAD] = Ok final →
      final !! 0%nat ≠ Some GOOD ∧ final !! 1%nat ≠ Some GOOD.
Proof.
  assert (Hrun : pair_rule [GOOD; BAD] = Ok [SUSPECT; BAD])
    by (vm_compute; reflexivity).
  split; [exact Hrun|]. rewrite Hrun. split; [discriminate|].
  intros final [= <-]. split; discriminate.
Qed.

(** C3 as stated fails: the pair (GOOD, BAD) does not become
    (SUSPECT, SUSPECT). *)
Lemma pair_rule_good_bad_not_both_suspect :
  pair_rule [GOOD; BAD] = Ok [SUSPECT; BAD]
  ∧ pair_rule [GOOD; BAD] ≠ Ok [SUSPECT; SUSPECT].
Proof.
  assert (Hrun : pair_rule [GOOD; BAD] = Ok [SUSPECT; BAD])
    by (vm_compute; reflexivity).
  split; [exact Hrun|]. rewrite Hrun. discriminate.
Qed.

(** C9: on a status list of odd length, [pair_rule] raises (the read of
    [status[i+1]] past the end, Python's IndexError) and returns no list. *)
Theorem pair_rule_odd_fails (status : list Z) :
  Nat.Odd (length status) → pair_rule status = Raise IndexError.
Proof.
  intros [m Hm]. unfold pair_rule. rewrite Hm, range_step2_odd, pair_loop_app.
  destruct (pair_loop_spec m 0 status) as (final & -> & Hlen & _); [lia|].
  cbn [mbind result_bind pair_loop].
  destruct (lookup_lt_is_Some_2 final (2 * m + 0)%nat) as [x Hx]; [lia|].
  rewrite (getitem_Some _ _ _ Hx). cbn [mbind result_bind].
  rewrite (getitem_None final) by lia. reflexivity.
Qed.

Lemma pair_rule_odd_fails_witness :
  Nat.Odd (length [3; 1; 3]) ∧ pair_rule [3; 1; 3] = Raise IndexError.
Proof.
  assert (Hodd : Nat.Odd (length [3; 1; 3])) by (exists 1%nat; reflexivity).
  split; [exact Hodd|]. exact (pair_rule_odd_fails [3; 1; 3] Hodd).
Defined.

(** ** np.where *)

Lemma elem_of_np_where_from c : ∀ i j,
  j ∈ np_where_from i c ↔ ∃ k, j = (i + k)%nat ∧ c !! k = Some true.
Proof.
  induction c as [|b c IH]; intros i j; simpl.
  { split; [intros Hj; by apply elem_of_nil in Hj|intros (k & _ & Hk); done]. }
  assert (Htail : j ∈ np_where_from (S i) c
                  ↔ ∃ k, j = (i + S k)%nat ∧ c !! k = Some true).
  { rewrite IH. split; intros (k & -> & Hk); exists k; split; [lia|done|lia|done]. }
  destruct b.
  - rewrite elem_of_cons, Htail. split.
    + intros [->|(k & -> & Hk)]; [exists 0%nat|exists (S k)]; split; try done; lia.
    + intros ([|k] & -> & Hk); [left; lia|right; eauto].
  - rewrite Htail. split.
    + intros (k & -> & Hk). exists (S k). done.
    + intros ([|k] & -> & Hk); [done|eauto].
Qed.

Lemma elem_of_np_where c j : j ∈ np_where c ↔ c !! j = Some true.
Proof.
  unfold np_where. rewrite elem_of_np_where_from. split.
  - by intros (k & -> & Hk).
  - intros Hj. by exists j.
Qed.

Lemma np_where_from_sorted c : ∀ i, StronglySorted lt (np_where_from i c).
Proof.
  induction c as [|b c IH]; intros i; simpl; [constructor|].
  destruct b; [|apply IH]. constructor; [apply IH|].
  apply Forall_forall. intros j Hj.
  apply elem_of_np_where_from in Hj as (k & -> & _). lia.
Qed.

Lemma np_where_sorted c : StronglySorted lt (np_where c).
Proof. apply np_where_from_sorted. Qed.

Lemma np_where_from_length c : ∀ i j,
  length (np_where_from i c) = length (np_where_from j c).
Proof.
  induction c as [|b c IH]; intros i j; simpl; [done|].
  destruct b; simpl; auto.
Qed.

Lemma np_where_bound c j : j ∈ np_where c → (j < length c)%nat.
Proof. rewrite elem_of_np_where. apply lookup_lt_Some. Qed.

(** ** The flag file *)

Lemma string_app_assoc (s1 s2 s3 : string) :
  (s1 +:+ s2) +:+ s3 = s1 +:+ (s2 +:+ s3).
Proof.
  induction s1 as [|a s1 IH]; [reflexivity|].
  change (String a ((s1 +:+ s2) +:+ s3) = String a (s1 +:+ (s2 +:+ s3))).
  by rewrite IH.
Qed.

Lemma string_app_empty_r (s : string) : s +:+ "" = s.
Proof.
  induction s as [|a s IH]; [reflexivity|].
  change (String a (s +:+ "") = String a s). by rewrite IH.
Qed.

Lemma flag_text_cons i idx :
  flag_text (i :: idx) = (pretty i +:+ ",") +:+ flag_text idx.
Proof. unfold flag_text. cbn [foldr]. by rewrite string_app_assoc. Qed.

Lemma flags_loop_spec status : ∀ i (fs : files) old,
  flags_loop i status (<[antenna_flags_txt := old]> fs) =
  (<[antenna_flags_txt :=
       old +:+ flag_text (np_where_from i (map (λ l, bool_decide (l ≠ 3)) status))]> fs,
   Ok ()).
Proof.
  induction status as [|l status IH]; intros i fs old;
    cbn [flags_loop map fmap list_fmap np_where_from].
  { unfold flag_text. cbn [foldr]. by rewrite string_app_empty_r. }
  unfold mbind, io_bind. case_bool_decide.
  - unfold fh_write. cbn beta iota.
    rewrite alter_insert_eq, IH, flag_text_cons.
    by rewrite string_app_assoc.
  - unfold mret, io_ret. cbn beta iota. apply IH.
Qed.

(** The text of the flag file determines the indices it lists. *)

Lemma pretty_N_char_not_comma (x : N) : pretty_N_char x ≠ ","%char.
Proof. unfold pretty_N_char. by repeat case_match. Qed.

Lemma pretty_N_go_comma_free (x : N) : ∀ s,
  comma_free s → comma_free (pretty_N_go x s).
Proof.
  induction (N.lt_wf_0 x) as [x _ IH]; intros s Hs.
  assert (x = 0 ∨ 0 < x)%N as [->|Hx] by lia.
  - by rewrite pretty_N_go_0.
  - rewrite pretty_N_go_step by done. apply IH.
    + by apply N.div_lt.
    + split; [apply pretty_N_char_not_comma|done].
Qed.

Lemma pretty_nat_comma_free (n : nat) : comma_free (pretty n).
Proof.
  unfold pretty, pretty_nat, pretty, pretty_N.
  case_decide; [by repeat split|]. by apply pretty_N_go_comma_free.
Qed.

Lemma comma_split_unique (p1 : string) : ∀ p2 t1 t2,
  comma_free p1 → comma_free p2 →
  p1 +:+ "," +:+ t1 = p2 +:+ "," +:+ t2 → p1 = p2 ∧ t1 = t2.
Proof.
  induction p1 as [|a p1 IH]; intros [|b p2] t1 t2 H1 H2 Heq.
  - change (String "," t1 = String "," t2) in Heq. by injection Heq as ->.
  - change (String "," t1 = String b (p2 +:+ "," +:+ t2)) in Heq.
    injection Heq as <- _. by destruct H2 as [[] _].
  - change (String a (p1 +:+ "," +:+ t1) = String "," t2) in Heq.
    injection Heq as -> _. by destruct H1 as [[] _].
  - change (String a (p1 +:+ "," +:+ t1) = String b (p2 +:+ "," +:+ t2)) in Heq.
    injection Heq as -> Heq. destruct H1 as [_ H1], H2 as [_ H2].
    destruct (IH p2 t1 t2 H1 H2 Heq) as [-> ->]. done.
Qed.

Lemma flag_text_nonempty (i : nat) (idx : list nat) : flag_text (i :: idx) ≠ "".
Proof.
  unfold flag_text. cbn [foldr]. destruct (pretty i) as [|a s]; [|discriminate].
  change (String "," (foldr (λ i text, pretty i +:+ "," +:+ text) "" idx) ≠ "").
  discriminate.
Qed.

Lemma flag_text_inj (idx1 : list nat) : ∀ idx2,
  flag_text idx1 = flag_text idx2 → idx1 = idx2.
Proof.
  induction idx1 as [|i idx1 IH]; intros [|j idx2] Heq.
  - done.
  - exfalso. by eapply flag_text_nonempty.
  - exfalso. by eapply flag_text_nonempty.
  - unfold flag_text in Heq. cbn [foldr] in Heq.
    apply comma_split_unique in Heq as [Hij Heq];
      [|apply pretty_nat_comma_free..].
    apply (inj pretty) in Hij as ->. f_equal. by apply IH.
Qed.

(** C8: whatever the files were, after [write_flags] the file
    antenna_flags.txt holds exactly the 0-based indices whose status is not
    GOOD, each in decimal followed by a comma, in ascending order; no other
    list of indices has that text. *)
Theorem antenna_flags_lists_non_good (status : list Z) (fs : files) :
  ∃ idx : list nat,
    write_flags status fs = (<[antenna_flags_txt := flag_text idx]> fs, Ok ())
    ∧ StronglySorted lt idx
    ∧ (∀ i, i ∈ idx ↔ ∃ s, status !! i = Some s ∧ s ≠ GOOD)
    ∧ (∀ idx', flag_text idx' = flag_text idx → idx' = idx).
Proof.
  exists (np_where (map (λ l, bool_decide (l ≠ 3)) status)).
  split; [|split; [|split]].
  - unfold write_flags, mbind, io_bind, open_write. cbn beta iota.
    rewrite flags_loop_spec. reflexivity.
  - apply np_where_sorted.
  - intros i. rewrite elem_of_np_where, list_lookup_fmap. unfold GOOD.
    destruct (status !! i) as [s|]; simpl.
    + split.
      * intros [= Hs]. exists s. split; [done|]. by apply bool_decide_eq_true in Hs.
      * intros (s' & [= <-] & Hs). f_equal. by apply bool_decide_eq_true.
    + split; [done|]. by intros (s & ? & _).
  - intros idx'. apply flag_text_inj.
Qed.

(** ** ChannelClassifier *)

Section FlagProperties.
Context {num : Type} `{NumOps num}.
Variable np_log10 : num → num.

Lemma filter_none {A} (f : A → bool) (l : list A) :
  (∀ x, x ∈ l → f x = false) → List.filter f l = [].
Proof.
  induction l as [|x l IH]; intros Hf; simpl; [done|].
  rewrite (Hf x) by left. apply IH. intros y Hy. apply Hf. by right.
Qed.

Lemma deviating_zip n : ∀ o (r m row median_spec : list num),
  (∀ k, row !! (o + k)%nat = r !! k) →
  (∀ k, median_spec !! (o + k)%nat = m !! k) →
  length (np_where
            (map (λ p, np_gt (np_abs (np_sub p.1 p.2)) (of_int 3))
                 (zip (map (dB np_log10) (take n r))
                      (map (dB np_log10) (take n m)))))
  = length (List.filter (bin_deviates np_log10 row median_spec) (seq o n)).
Proof.
  unfold np_where.
  induction n as [|n IH]; intros o r m row median_spec Hr Hm; [done|].
  destruct r as [|x r].
  { rewrite filter_none; [done|]. intros b Hb.
    apply elem_of_seq in Hb. unfold bin_deviates.
    replace b with (o + (b - o))%nat by lia. by rewrite Hr. }
  destruct m as [|y m].
  { rewrite filter_none; [done|]. intros b Hb.
    apply elem_of_seq in Hb. unfold bin_deviates.
    replace b with (o + (b - o))%nat by lia. rewrite Hm.
    by destruct (row !! _). }
  cbn [take map fmap list_fmap zip zip_with np_where_from seq List.filter fst snd].
  assert (Hhead : bin_deviates np_log10 row median_spec o = deviates np_log10 x y).
  { unfold bin_deviates. specialize (Hr 0%nat). specialize (Hm 0%nat).
    rewrite Nat.add_0_r in Hr, Hm. by rewrite Hr, Hm. }
  rewrite Hhead.
  (* the program's dB is the 10*log10 of the statement *)
  change (np_gt (np_abs (np_sub (dB np_log10 x) (dB np_log10 y))) (of_int 3))
    with (deviates np_log10 x y).
  assert (Htail : length (np_where_from 1
            (map (λ p, np_gt (np_abs (np_sub p.1 p.2)) (of_int 3))
                 (zip (map (dB np_log10) (take n r))
                      (map (dB np_log10) (take n m)))))
          = length (List.filter (bin_deviates np_log10 row median_spec) (seq (S o) n))).
  { rewrite (np_where_from_length _ 1 0). apply IH.
    - intros k. etrans; [|exact (Hr (S k))]. f_equal. lia.
    - intros k. etrans; [|exact (Hm (S k))]. f_equal. lia. }
  destruct (deviates np_log10 x y); simpl; by rewrite Htail.
Qed.

Lemma count_deviating_slices (row median_spec : list num) lo hi :
  length (np_where
            (map (λ p, np_gt (np_abs (np_sub p.1 p.2)) (of_int 3))
                 (zip (map (dB np_log10) (py_slice lo hi row))
                      (map (dB np_log10) (py_slice lo hi median_spec)))))
  = count_deviating np_log10 row median_spec lo hi.
Proof.
  unfold py_slice, count_deviating. apply deviating_zip.
  - intros k. by rewrite lookup_drop.
  - intros k. by rewrite lookup_drop.
Qed.

Lemma exceeds_quarter_iff (n : nat) (nchan : Z) :
  exceeds_quarter n nchan = true
  ↔ ((1 # 4) * inject_Z nchan < inject_Z (Z.of_nat n))%Q.
Proof.
  unfold exceeds_quarter. rewrite negb_true_iff, <- not_true_iff_false.
  rewrite Qle_bool_iff. split.
  - apply Qnot_le_lt.
  - apply Qlt_not_le.
Qed.

Lemma off_median_same_length (row median_spec : list num) :
  length row = length median_spec →
  off_median row median_spec =
  Ok (np_where (map (λ p, np_gt (np_abs (np_sub p.1 p.2)) (of_int 3))
                    (zip row median_spec))).
Proof.
  intros Hlen. unfold off_median, broadcast.
  by rewrite decide_True by done.
Qed.

Lemma flag_loop_spec nchan (median_spec : list num) rows : ∀ i (status : list Z),
  Forall (λ row, length row = length median_spec) rows →
  (i + length rows ≤ length status)%nat →
  ∃ final,
    flag_loop nchan median_spec i rows status = Ok final
    ∧ length final = length status
    ∧ (∀ j, (j < i ∨ i + length rows ≤ j)%nat → final !! j = status !! j)
    ∧ (∀ k row, rows !! k = Some row →
         final !! (i + k)%nat =
         if exceeds_quarter
              (length (np_where
                 (map (λ p, np_gt (np_abs (np_sub p.1 p.2)) (of_int 3))
                      (zip row median_spec)))) nchan
         then Some BAD else status !! (i + k)%nat).
Proof.
  induction rows as [|row rows IH]; intros i status Hrows Hlen.
  { exists status. split; [done|]. split; [done|]. split; [done|].
    intros k row Hk. done. }
  apply Forall_cons in Hrows as [Hrow Hrows]. cbn [length] in Hlen.
  set (bad := np_where (map (λ p, np_gt (np_abs (np_sub p.1 p.2)) (of_int 3))
                            (zip row median_spec))).
  set (status1 := if exceeds_quarter (length bad) nchan
                  then <[i := BAD]> status else status).
  assert (Hlen1 : length status1 = length status).
  { unfold status1. destruct (exceeds_quarter _ _); [|done].
    by rewrite length_insert. }
  assert (Hbound : forallb (λ b, b <? length row)%nat bad = true).
  { apply forallb_forall. intros b Hb. apply Nat.ltb_lt.
    apply list_elem_of_In, np_where_bound in Hb.
    rewrite length_map, length_zip in Hb. lia. }
  destruct (IH (S i) status1 Hrows) as (final & Hrun & Hlenf & Hout & Hin); [lia|].
  exists final. split; [|split; [|split]].
  - cbn [flag_loop]. rewrite off_median_same_length by done.
    cbn [mbind result_bind]. fold bad. rewrite Hbound. exact Hrun.
  - lia.
  - intros j Hj. cbn [length] in Hj. rewrite Hout by lia.
    unfold status1. destruct (exceeds_quarter _ _); [|done].
    apply list_lookup_insert_ne. lia.
  - intros [|k] row' Hk.
    + injection Hk as <-. rewrite Nat.add_0_r, Hout by lia. fold bad.
      unfold status1. destruct (exceeds_quarter _ _); [|done].
      apply list_lookup_insert_eq. lia.
    + replace (i + S k)%nat with (S i + k)%nat by lia.
      rewrite (Hin k row' Hk).
      destruct (exceeds_quarter
                  (length (np_where (map _ (zip row' median_spec)))) nchan);
        [done|].
      unfold status1. destruct (exceeds_quarter _ _); [|done].
      apply list_lookup_insert_ne. lia.
Qed.

(** [flag] on a spectrum whose rows are as long as the median spectrum, for
    any window: channel [i] is BAD when the count of deviating window bins
    exceeds a quarter of [hi - lo], and GOOD otherwise. *)
Lemma flag_spec (spec : list (list num)) (median_spec : list num) lo hi :
  Forall (λ row, length row = length median_spec) spec →
  ∃ status,
    flag np_log10 spec median_spec (lo, hi) = Ok status
    ∧ length status = length spec
    ∧ ∀ i row, spec !! i = Some row →
        status !! i =
        Some (if exceeds_quarter (count_deviating np_log10 row median_spec lo hi)
                   (Z.of_nat hi - Z.of_nat lo)
              then BAD else GOOD).
Proof.
  intros Hshape. unfold flag. cbn [fst snd].
  set (rows := map (λ row, map (dB np_log10) (py_slice lo hi row)) spec).
  set (med := map (dB np_log10) (py_slice lo hi median_spec)).
  destruct (flag_loop_spec (Z.of_nat hi - Z.of_nat lo) med rows 0
              (replicate (length rows) GOOD))
    as (status & Hrun & Hlen & _ & Hin).
  { unfold rows. apply Forall_map. eapply Forall_impl; [exact Hshape|].
    intros row Hrow. unfold med, py_slice. cbn beta.
    rewrite !length_map, !length_take, !length_drop. cbn beta in Hrow.
    by rewrite Hrow. }
  { rewrite length_replicate. lia. }
  exists status. split; [exact Hrun|].
  rewrite length_replicate in Hlen. split.
  { rewrite Hlen. unfold rows. by rewrite length_map. }
  intros i row Hrow.
  assert (Hrows : rows !! i = Some (map (dB np_log10) (py_slice lo hi row))).
  { unfold rows. by rewrite list_lookup_fmap, Hrow. }
  specialize (Hin i _ Hrows). cbn [Nat.add] in Hin. rewrite Hin.
  unfold med. rewrite count_deviating_slices.
  destruct (exceeds_quarter (count_deviating np_log10 _ _ _ _) _); [done|].
  apply lookup_replicate_2. apply lookup_lt_Some in Hrows. lia.
Qed.

(** C1: with the default window, channel [i] is BAD exactly when the number
    of bins [b] in [1066, 3552) with [|10*log10(spec[i,b]) -
    10*log10(median[b])| > 3] exceeds 0.25 times the window width, it is GOOD
    otherwise, and it is never SUSPECT. *)
Theorem flag_bad_iff_quarter_of_window_deviates
    (spec : list (list num)) (median_spec : list num) :
  Forall (λ row, length row = length median_spec) spec →
  ∃ status,
    flag np_log10 spec median_spec default_chans = Ok status
    ∧ length status = length spec
    ∧ ∀ i row, spec !! i = Some row →
        let n := count_deviating np_log10 row median_spec 1066 3552 in
        (status !! i = Some BAD
         ↔ ((1 # 4) * inject_Z (3552 - 1066) < inject_Z (Z.of_nat n))%Q)
        ∧ (status !! i = Some GOOD
           ↔ ¬ ((1 # 4) * inject_Z (3552 - 1066) < inject_Z (Z.of_nat n))%Q)
        ∧ status !! i ≠ Some SUSPECT.
Proof.
  intros Hshape.
  destruct (flag_spec spec median_spec 1066 3552 Hshape)
    as (status & Hrun & Hlen & Hst).
  exists status. split; [exact Hrun|]. split; [exact Hlen|].
  intros i row Hrow n. specialize (Hst i row Hrow). fold n in Hst.
  change (Z.of_nat 3552 - Z.of_nat 1066) with (3552 - 1066) in Hst.
  rewrite Hst. pose proof (exceeds_quarter_iff n (3552 - 1066)) as Hq.
  destruct (exceeds_quarter n (3552 - 1066)).
  - split; [|split]; [| |discriminate].
    + split; [intros _; by apply Hq|done].
    + split; [discriminate|]. intros Hn. destruct Hn. by apply Hq.
  - split; [|split]; [| |discriminate].
    + split; [discriminate|]. intros Hn. apply Hq in Hn. discriminate.
    + split; [|done]. intros _ Hn. apply Hq in Hn. discriminate.
Qed.

End FlagProperties.

(** ** SpectrumAverager *)

Section AveragerProperties.
Context {num : Type} `{NumOps num}.
Variable np_median : list num → num.

Lemma stretch_same {A} (l : list A) : stretch (length l) l = l.
Proof. by destruct l as [|x [|y l]]. Qed.

Lemma broadcastable_refl s : broadcastable s s = true.
Proof. unfold broadcastable. by rewrite !Nat.eqb_refl. Qed.

(** The shape of the running sum never changes. *)
Lemma np_iadd_shape (a b m : list (list num)) :
  np_iadd a b = Ok m → shape m = shape a.
Proof.
  unfold np_iadd. destruct (broadcastable (shape b) (shape a)) eqn:Hb; [|done].
  intros [= <-]. unfold broadcastable, shape in *. cbn [fst snd] in Hb.
  apply andb_prop in Hb as [Hrows Hcols].
  apply orb_prop in Hrows. apply orb_prop in Hcols.
  rewrite !Nat.eqb_eq in Hrows, Hcols.
  destruct a as [|ra a]; [done|].
  destruct b as [|rb b]; [cbn in Hrows; lia|].
  assert (Hstretch : ∃ b', stretch (length (ra :: a)) (rb :: b) = rb :: b'
                           ∧ length b' = length a).
  { destruct b as [|rb' b]; cbn [stretch length replicate].
    - exists (replicate (length a) rb). by rewrite length_replicate.
    - exists (rb' :: b). split; [done|]. cbn [length] in *. lia. }
  destruct Hstretch as (b' & -> & Hlen).
  cbn [zip_with length head] in *.
  unfold default, from_option, Datatypes.id in *. f_equal.
  - rewrite length_zip_with. lia.
  - rewrite length_zip_with.
    destruct rb as [|x [|y rb]]; cbn [stretch length] in *;
      rewrite ?length_replicate; lia.
Qed.

Lemma np_iadd_fails (a b : list (list num)) :
  broadcastable (shape b) (shape a) = false → np_iadd a b = Raise ValueError.
Proof. unfold np_iadd. by intros ->. Qed.

Lemma np_iadd_succeeds (a b : list (list num)) :
  broadcastable (shape b) (shape a) = true → ∃ m, np_iadd a b = Ok m.
Proof. unfold np_iadd. intros ->. eauto. Qed.

Lemma accumulate_first_shape (spec : list (list num)) :
  shape (map (map (λ x, np_mul x (of_int 1))) spec) = shape spec.
Proof.
  destruct spec as [|row spec]; [done|].
  unfold shape, default, from_option, Datatypes.id. cbn [map head length].
  by rewrite !length_map.
Qed.

(** Once a sum is running, the loop raises as soon as a capture does not
    broadcast to its shape. *)
Lemma load_running_mismatch (args : list (capture num)) :
  ∀ (m : list (list num)) med_power,
  Exists (λ c, broadcastable (shape (spectra c)) (shape m) = false) args →
  load np_median args (Some m) med_power = Raise ValueError.
Proof.
  induction args as [|c args IH]; intros m med_power Hex.
  { by apply Exists_nil in Hex. }
  cbn [load accumulate].
  destruct (broadcastable (shape (spectra c)) (shape m)) eqn:Hc.
  - destruct (np_iadd_succeeds _ _ Hc) as [m' Hm']. rewrite Hm'.
    cbn [mbind result_bind]. apply IH.
    apply Exists_cons in Hex as [Hex|Hex]; [congruence|].
    by rewrite (np_iadd_shape _ _ _ Hm').
  - by rewrite np_iadd_fails.
Qed.

Lemma load_mismatch (first : capture num) (rest : list (capture num)) :
  Exists (λ c, broadcastable (shape (spectra c)) (shape (spectra first)) = false)
         rest →
  load np_median (first :: rest) None [] = Raise ValueError.
Proof.
  intros Hex. cbn [load accumulate mbind result_bind].
  apply load_running_mismatch. by rewrite accumulate_first_shape.
Qed.

End AveragerProperties.

Section AveragerIdentical.
Context {num : Type} `{NumOps num}.

Lemma shape_map (f : num → num) (m : list (list num)) :
  shape (map (map f) m) = shape m.
Proof.
  destruct m as [|row m]; [done|].
  unfold shape, default, from_option, Datatypes.id. cbn [map head length].
  by rewrite !length_map.
Qed.

Lemma zip_with_add_map (f : num → num) (row : list num) :
  zip_with np_add (map f row) (stretch (length (map f row)) row)
  = map (λ x, np_add (f x) x) row.
Proof.
  rewrite length_map, stretch_same.
  induction row as [|x row IH]; [done|]. cbn [map zip_with]. by rewrite IH.
Qed.

(** Adding a matrix to an entry-wise image of itself. *)
Lemma np_iadd_map (f : num → num) (m : list (list num)) :
  np_iadd (map (map f) m) m = Ok (map (map (λ x, np_add (f x) x)) m).
Proof.
  unfold np_iadd. rewrite shape_map, broadcastable_refl. f_equal.
  rewrite length_map, stretch_same.
  induction m as [|row m IH]; [done|].
  cbn [map zip_with]. by rewrite zip_with_add_map, IH.
Qed.

Lemma running_S (k : nat) (x : num) :
  running (S k) x = np_add (running k x) x.
Proof. reflexivity. Qed.

Lemma load_identical np_median (m : list (list num)) (args : list (capture num)) :
  ∀ k med_power,
  Forall (λ c, spectra c = m) args →
  ∃ med_power',
    load np_median args (Some (map (map (running k)) m)) med_power
    = Ok (Some (map (map (running (k + length args))) m), med_power').
Proof.
  induction args as [|c args IH]; intros k med_power Hall.
  { exists med_power. cbn [load length]. by rewrite Nat.add_0_r. }
  apply Forall_cons in Hall as [Hc Hall]. cbn [load accumulate].
  rewrite Hc, np_iadd_map. cbn [mbind result_bind].
  destruct (IH (S k) (med_power ++ [(day c, np_median (concat m))])
              Hall) as [med_power' Hrun].
  exists med_power'. cbn [length].
  replace (k + S (length args))%nat with (S k + length args)%nat by lia.
  exact Hrun.
Qed.

(** The average of a non-empty batch of captures with one and the same
    matrix [m], entry by entry. *)
Lemma spectrum_averager_identical np_median (m : list (list num))
    (args : list (capture num)) :
  args ≠ [] → Forall (λ c, spectra c = m) args →
  spectrum_averager np_median args
  = Ok (map (map (λ x, np_div (running (length args - 1) x)
                               (of_int (Z.of_nat (length args))))) m).
Proof.
  intros Hne Hall. destruct args as [|c args]; [done|].
  apply Forall_cons in Hall as [Hc Hall].
  unfold spectrum_averager. cbn [load accumulate mbind result_bind].
  rewrite Hc.
  destruct (load_identical np_median m args 0
              ([] ++ [(day c, np_median (concat m))]) Hall)
    as [med_power' Hrun].
  change (map (map (λ x, np_mul x (of_int 1))) m)
    with (map (map (running 0)) m).
  rewrite Hrun. cbn [mbind result_bind fst average length]. f_equal.
  rewrite map_map. apply map_ext. intros row. rewrite map_map.
  apply map_ext. intros x. do 2 f_equal. lia.
Qed.

End AveragerIdentical.

(** *** Exact arithmetic *)

Lemma xsigned_pos (positive : bool) (s : R) :
  (0 < s)%R → xsigned positive s = if positive then PInf else NInf.
Proof.
  intros Hs. unfold xsigned. rewrite bool_decide_eq_false_2 by lra. done.
Qed.

Lemma running_fin (k : nat) (r : R) :
  running k (Fin r) = Fin (INR (S k) * r).
Proof.
  induction k as [|k IH].
  - cbn. f_equal. lra.
  - rewrite running_S, IH.
    cbn [np_add xreal_ops xadd]. f_equal. rewrite (S_INR (S k)). lra.
Qed.

Lemma running_pinf (k : nat) : running k PInf = PInf.
Proof.
  induction k as [|k IH].
  - cbn. rewrite decide_False by lra. apply (xsigned_pos true). lra.
  - by rewrite running_S, IH.
Qed.

Lemma running_ninf (k : nat) : running k NInf = NInf.
Proof.
  induction k as [|k IH].
  - cbn. rewrite decide_False by lra. apply (xsigned_pos false). lra.
  - by rewrite running_S, IH.
Qed.

Lemma running_nan (k : nat) : running k NaN = NaN.
Proof.
  induction k as [|k IH]; [done|]. by rewrite running_S, IH.
Qed.

(** In exact arithmetic the mean of [k+1] copies of a value is the value. *)
Lemma xreal_mean_of_copies (k : nat) (x : xreal) :
  np_div (running k x) (of_int (Z.of_nat (S k))) = x.
Proof.
  assert (Hpos : (0 < INR (S k))%R) by (apply lt_0_INR; lia).
  cbn [of_int xreal_ops np_div]. rewrite <- INR_IZR_INZ.
  destruct x as [r| | |].
  - rewrite running_fin. cbn [xdiv]. rewrite decide_False by lra.
    f_equal. field. lra.
  - rewrite running_pinf. cbn [xdiv]. by apply (xsigned_pos true).
  - rewrite running_ninf. cbn [xdiv]. by apply (xsigned_pos false).
  - by rewrite running_nan.
Qed.

Lemma xreal_mean_of_copies_matrix (k : nat) (m : list (list xreal)) :
  map (map (λ x, np_div (running k x) (of_int (Z.of_nat (S k))))) m = m.
Proof.
  induction m as [|row m IH]; [done|]. cbn [map]. f_equal; [|exact IH].
  induction row as [|x row IHrow]; [done|]. cbn [map].
  by rewrite xreal_mean_of_copies, IHrow.
Qed.

(** C6, in exact arithmetic: for every non-empty batch of captures that all
    have the same power matrix [m], the averaged spectrum (running sum
    divided by the number of captures) is [m]. *)
Theorem averaging_identical_captures_exact (np_median : list xreal → xreal)
    (m : list (list xreal)) (args : list (capture xreal)) :
  args ≠ [] → Forall (λ c, spectra c = m) args →
  spectrum_averager np_median args = Ok m.
Proof.
  intros Hne Hall. rewrite (spectrum_averager_identical np_median m) by done.
  f_equal. destruct args as [|c args]; [done|]. cbn [length].
  replace (S (length args) - 1)%nat with (length args) by lia.
  apply xreal_mean_of_copies_matrix.
Qed.

Lemma averaging_identical_captures_exact_witness :
  replicate 3 capture_tenth ≠ []
  ∧ Forall (λ c, spectra c = spectra capture_tenth) (replicate 3 capture_tenth)
  ∧ spectrum_averager median_of (replicate 3 capture_tenth)
    = Ok (spectra capture_tenth).
Proof.
  assert (Hne : replicate 3 capture_tenth ≠ []) by discriminate.
  assert (Hall : Forall (λ c, spectra c = spectra capture_tenth)
                        (replicate 3 capture_tenth))
    by (repeat constructor).
  split; [exact Hne|]. split; [exact Hall|].
  exact (averaging_identical_captures_exact median_of _ _ Hne Hall).
Defined.

(** C6 as stated fails in float64: three identical captures holding 0.1
    average to 0.10000000000000002, the sum 0.1 + 0.1 + 0.1 being rounded
    before it is divided by 3. *)
Lemma averaging_identical_captures_rounds :
  spectrum_averager median_of (replicate 3 capture_tenth_f64) = Ok [[tenth_up]]
  ∧ spectrum_averager median_of (replicate 3 capture_tenth_f64)
    ≠ Ok (spectra capture_tenth_f64).
Proof.
  assert (Hrun : spectrum_averager median_of (replicate 3 capture_tenth_f64)
                 = Ok [[tenth_up]]) by (vm_compute; reflexivity).
  split; [exact Hrun|]. rewrite Hrun. discriminate.
Qed.

(** C7, as the code has it: when some capture after the first has a shape
    that does not broadcast to the shape of the first (a dimension that
    differs from it and is not 1), [main] raises numpy's ValueError in the
    loading loop and leaves the files as they were: neither
    bad_captures.txt nor antenna_flags.txt is produced. *)
Theorem shape_mismatch_aborts_before_any_file {num : Type} `{NumOps num}
    (np_log10 : num → num)
    (np_polyfit : list num → list num → result (list num))
    (np_median : list num → num)
    (plots : list (list num) → list num → list Z → result unit)
    (first : capture num) (rest : list (capture num)) (fs : files) :
  Exists (λ c, broadcastable (shape (spectra c)) (shape (spectra first)) = false)
         rest →
  main np_log10 np_polyfit np_median plots (first :: rest) fs
  = (fs, Raise ValueError).
Proof.
  intros Hex. unfold main, mbind, io_bind, lift.
  by rewrite load_mismatch.
Qed.

Lemma shape_mismatch_aborts_before_any_file_witness :
  Exists (λ c, broadcastable (shape (spectra c)) (shape (spectra capture_2x2))
               = false) [capture_1x3]
  ∧ main xlog10 lstsq_line median_of plots_drawn [capture_2x2; capture_1x3] ∅
    = (∅, Raise ValueError).
Proof.
  assert (Hex : Exists (λ c, broadcastable (shape (spectra c))
                               (shape (spectra capture_2x2)) = false)
                       [capture_1x3])
    by (apply Exists_cons_hd; reflexivity).
  split; [exact Hex|].
  exact (shape_mismatch_aborts_before_any_file
           xlog10 lstsq_line median_of plots_drawn capture_2x2 [capture_1x3] ∅
           Hex).
Defined.

(** C7 as stated fails: a 1-by-2 capture after a 2-by-2 capture has another
    shape, and it is broadcast over both rows and averaged in; nothing is
    raised. *)
Lemma differing_shape_is_broadcast :
  shape (spectra capture_1x2_f64) = (1, 2)%nat
  ∧ shape (spectra capture_2x2_f64) = (2, 2)%nat
  ∧ spectrum_averager median_of [capture_2x2_f64; capture_1x2_f64]
    = Ok [[3; 4]; [4; 5]]%float.
Proof. repeat split; vm_compute; reflexivity. Qed.

(** ** CaptureTrendFlagger in exact arithmetic *)

(** Evaluation of [xreal] expressions on concrete data: unfold the
    operations and settle every test on the reals by linear arithmetic. *)
Ltac xdecide :=
  match goal with
  | |- context [decide (?a = ?b)] =>
      first [ rewrite (decide_True (P := a = b)) by lra
            | rewrite (decide_False (P := a = b)) by lra ]
  | |- context [bool_decide (?a < ?b)%R] =>
      first [ rewrite (bool_decide_eq_true_2 (a < b)%R) by lra
            | rewrite (bool_decide_eq_false_2 (a < b)%R) by lra ]
  end.

Ltac xnumerals :=
  repeat match goal with
         | |- context [Z.of_nat ?n] =>
             let z := eval vm_compute in (Z.of_nat n) in
             change (Z.of_nat n) with z
         end.

Ltac xunfold :=
  unfold lstsq_line, normal_equations, np_mean, np_std, np_sum, np_polyval, arange;
  cbn -[IZR INR Rdiv Rminus Rabs R_sqrt.sqrt decide bool_decide Z.of_nat];
  unfold xsigned;
  xnumerals.

Ltac xeval := xunfold; repeat (xdecide; xunfold).

(** Equality of lists of finite values, entry by entry. *)
Ltac xfin :=
  repeat match goal with
         | |- _ :: _ = _ :: _ => f_equal
         | |- Fin _ = Fin _ => f_equal
         end;
  try first [ reflexivity | lra | field | (field_simplify; lra) ].

Lemma lstsq_line_example :
  lstsq_line (arange 5) y_example = Ok [Fin 18; Fin (-8)].
Proof. unfold y_example. xeval. f_equal. xfin. Qed.

Lemma detrend_example :
  detrend [Fin 18; Fin (-8)] y_example
  = [Fin 18; Fin 0; Fin (-18); Fin (-36); Fin 36].
Proof.
  unfold detrend. change (length y_example) with 5%nat.
  unfold y_example. xeval. xfin.
Qed.

Lemma run_mean_example : run_mean [Fin 18; Fin (-8)] y_example = Fin 0.
Proof.
  unfold run_mean. rewrite detrend_example. xeval. xfin.
Qed.

Lemma sqrt_648_lower : (12 <= R_sqrt.sqrt 648)%R.
Proof.
  replace 12%R with (R_sqrt.sqrt (12 * 12)) by (apply sqrt_square; lra).
  apply sqrt_le_1; lra.
Qed.

Lemma run_std_example :
  run_std [Fin 18; Fin (-8)] y_example = Fin (R_sqrt.sqrt 648).
Proof.
  unfold run_std. rewrite detrend_example. xeval. do 2 f_equal. field.
Qed.

Lemma quotient_below_3 (e s : R) :
  (0 <= e <= 36)%R → (12 <= s)%R → ¬ (3 < e / s)%R.
Proof.
  intros He Hs Hgt. apply (Rmult_lt_compat_r s) in Hgt; [|lra].
  unfold Rdiv in Hgt. rewrite Rmult_assoc, Rinv_l, Rmult_1_r in Hgt by lra.
  lra.
Qed.

Ltac xabs_numerals :=
  repeat match goal with
         | |- context [Rabs ?e] =>
             first [ rewrite (Rabs_pos_eq e) by lra
                   | rewrite (Rabs_left e) by lra ]
         end.

Lemma trend_quotients_example :
  trend_quotients [Fin 18; Fin (-8)] y_example
  = [Fin (18 / R_sqrt.sqrt 648); Fin (0 / R_sqrt.sqrt 648);
     Fin (18 / R_sqrt.sqrt 648); Fin (36 / R_sqrt.sqrt 648);
     Fin (36 / R_sqrt.sqrt 648)].
Proof.
  pose proof sqrt_648_lower as Hsqrt.
  unfold trend_quotients.
  rewrite run_mean_example, run_std_example, detrend_example.
  xeval. xabs_numerals. xfin.
Qed.

(** The line through the example that [lstsq_line] returns has the least
    squared error among all lines. *)
Lemma lstsq_line_example_minimal (a b : R) :
  ∃ e e0 : R,
    squared_error [Fin a; Fin b] (arange 5) y_example = Fin e
    ∧ squared_error [Fin 18; Fin (-8)] (arange 5) y_example = Fin e0
    ∧ (e0 <= e)%R.
Proof.
  unfold squared_error, y_example. xeval.
  eexists _, _. split; [reflexivity|]. split; [reflexivity|].
  match goal with
  | |- (?e0 <= ?e)%R =>
      replace e with
        (e0 + (Rsqr ((a - 18) * 0 + (b + 8)) + Rsqr ((a - 18) * 1 + (b + 8))
               + Rsqr ((a - 18) * 2 + (b + 8)) + Rsqr ((a - 18) * 3 + (b + 8))
               + Rsqr ((a - 18) * 4 + (b + 8))))%R
        by (unfold Rsqr; ring)
  end.
  pose proof (Rle_0_sqr ((a - 18) * 0 + (b + 8))).
  pose proof (Rle_0_sqr ((a - 18) * 1 + (b + 8))).
  pose proof (Rle_0_sqr ((a - 18) * 2 + (b + 8))).
  pose proof (Rle_0_sqr ((a - 18) * 3 + (b + 8))).
  pose proof (Rle_0_sqr ((a - 18) * 4 + (b + 8))).
  lra.
Qed.

Lemma trend_bad_example : trend_bad [Fin 18; Fin (-8)] y_example = [].
Proof.
  pose proof sqrt_648_lower as Hsqrt.
  unfold trend_bad. rewrite trend_quotients_example.
  cbn [map np_gt xreal_ops xgt of_int].
  rewrite !bool_decide_eq_false_2 by (apply quotient_below_3; lra).
  reflexivity.
Qed.

Lemma day_outliers_example : day_outliers lstsq_line y_example = Ok [].
Proof.
  unfold day_outliers. change (length y_example) with 5%nat.
  rewrite lstsq_line_example. cbn [mbind result_bind].
  by rewrite trend_bad_example.
Qed.

(** C4, as the code has it: on the day-group y = [10, 10, 10, 10, 100] the
    least-squares line is 18 x - 8, the residuals are 18, 0, -18, -36, 36
    with mean 0 and population standard deviation sqrt 648 (about 25.5), so
    every |residual - mean| / std is at most 36 / sqrt 648 < 3 and no capture
    is flagged, the one at index 4 included. *)
Theorem example_group_has_no_outlier :
  lstsq_line (arange 5) y_example = Ok [Fin 18; Fin (-8)]
  ∧ detrend [Fin 18; Fin (-8)] y_example
    = [Fin 18; Fin 0; Fin (-18); Fin (-36); Fin 36]
  ∧ run_mean [Fin 18; Fin (-8)] y_example = Fin 0
  ∧ run_std [Fin 18; Fin (-8)] y_example = Fin (R_sqrt.sqrt 648)
  ∧ trend_bad [Fin 18; Fin (-8)] y_example = []
  ∧ day_outliers lstsq_line y_example = Ok [].
Proof.
  split; [exact lstsq_line_example|].
  split; [exact detrend_example|]. split; [exact run_mean_example|].
  split; [exact run_std_example|]. split; [exact trend_bad_example|].
  exact day_outliers_example.
Qed.

(** C4 as stated fails: index 4 is not flagged. *)
Lemma example_group_index_4_not_flagged :
  day_outliers lstsq_line y_example = Ok []
  ∧ day_outliers lstsq_line y_example ≠ Ok [4%nat].
Proof.
  split; [exact day_outliers_example|].
  rewrite day_outliers_example. discriminate.
Qed.

(** *** Degenerate groups *)




Lemma xadd_not_fin (z x : xreal) : ¬ is_fin z → ¬ is_fin (xadd z x).
Proof. by destruct z, x. Qed.

Lemma fold_xadd_not_fin (l : list xreal) : ∀ z,
  ¬ is_fin z → ¬ is_fin (fold_left xadd l z).
Proof.
  induction l as [|x l IH]; intros z Hz; [done|].
  cbn [fold_left]. apply IH. by apply xadd_not_fin.
Qed.





Lemma np_where_none (c : list bool) :
  Forall (λ b, b = false) c → np_where c = [].
Proof.
  unfold np_where. generalize 0%nat.
  induction c as [|b c IH]; intros i Hc; [done|].
  apply Forall_cons in Hc as [-> Hc]. cbn. by apply IH.
Qed.






(** On the group of zeros the least-squares line is zero and passes through
    the points. *)
Lemma lstsq_line_zero_exact :
  lstsq_line (arange 3) y_zero = Ok [Fin 0; Fin 0]
  ∧ squared_error [Fin 0; Fin 0] (arange 3) y_zero = Fin 0.
Proof.
  unfold y_zero, squared_error. split; xeval; [f_equal|]; xfin.
Qed.




(** ** The order of bad_captures.txt *)

Lemma elem_of_insert_unique (x y : Z) (l : list Z) :
  y ∈ insert_unique x l ↔ y = x ∨ y ∈ l.
Proof.
  induction l as [|z l IH]; cbn.
  { rewrite list_elem_of_singleton, elem_of_nil. tauto. }
  destruct (decide (x < z)); [by rewrite elem_of_cons|].
  destruct (decide (x = z)) as [->|].
  { rewrite elem_of_cons. tauto. }
  rewrite !elem_of_cons, IH. tauto.
Qed.

Lemma insert_unique_sorted (x : Z) (l : list Z) :
  StronglySorted Z.lt l → StronglySorted Z.lt (insert_unique x l).
Proof.
  induction 1 as [|z l Hl IH Hz]; cbn.
  { repeat constructor. }
  destruct (decide (x < z)).
  { constructor; [by constructor|]. constructor; [done|].
    eapply Forall_impl; [exact Hz|]. intros; cbn in *; lia. }
  destruct (decide (x = z)); [by constructor|].
  constructor; [done|]. apply Forall_forall. intros y Hy.
  apply elem_of_insert_unique in Hy as [->|Hy]; [lia|].
  by eapply Forall_forall in Hz.
Qed.

Lemma np_unique_sorted (l : list Z) : StronglySorted Z.lt (np_unique l).
Proof.
  induction l as [|x l IH]; cbn; [constructor|].
  by apply insert_unique_sorted.
Qed.

Lemma elem_of_np_unique (x : Z) (l : list Z) : x ∈ np_unique l ↔ x ∈ l.
Proof.
  induction l as [|y l IH]; cbn; [done|].
  rewrite elem_of_insert_unique, elem_of_cons, IH. done.
Qed.

Lemma fancy_spec {A} (l : list A) (idx : list nat) :
  Forall (λ i, i < length l)%nat idx →
  ∃ r, fancy l idx = Ok r ∧ Forall2 (λ i x, l !! i = Some x) idx r.
Proof.
  unfold fancy. induction 1 as [|i idx Hi Hidx (r & Hr & Hall)]; cbn.
  { exists []. split; [done|constructor]. }
  destruct (lookup_lt_is_Some_2 l i Hi) as [x Hx].
  exists (x :: r). rewrite (getitem_Some _ _ _ Hx). cbn.
  rewrite Hr. cbn. split; [done|]. by constructor.
Qed.

(** Increasing positions of an increasing list select increasing values. *)
Lemma sorted_lookup_lt (l : list nat) (i j x y : nat) :
  StronglySorted lt l → l !! i = Some x → l !! j = Some y →
  (i < j)%nat → (x < y)%nat.
Proof.
  intros Hl. revert i j. induction Hl as [|z l Hl IH Hz]; intros i j Hi Hj Hij.
  { done. }
  destruct i as [|i], j as [|j]; try lia; cbn in Hi, Hj.
  - injection Hi as ->. apply list_elem_of_lookup_2 in Hj.
    by eapply Forall_forall in Hz.
  - eapply IH; [done|done|lia].
Qed.

Lemma fancy_sorted (l idx r : list nat) :
  StronglySorted lt l → StronglySorted lt idx →
  Forall2 (λ i x, l !! i = Some x) idx r →
  StronglySorted lt r.
Proof.
  intros Hl Hidx Hall. induction Hall as [|i x idx r Hix Hall IH].
  { constructor. }
  apply StronglySorted_inv in Hidx as [Hidx Hi].
  constructor; [by apply IH|].
  apply Forall_forall. intros y Hy.
  apply list_elem_of_lookup in Hy as [k Hk].
  destruct (Forall2_lookup_r _ _ _ _ _ Hall Hk) as (j & Hj & Hjy).
  apply list_elem_of_lookup_2 in Hj. eapply Forall_forall in Hi; [|exact Hj].
  exact (sorted_lookup_lt l i j x y Hl Hix Hjy Hi).
Qed.

Section TrendOrder.
Context {num : Type} `{NumOps num}.
Variable np_polyfit : list num → list num → result (list num).

Lemma length_detrend (run_fit y : list num) :
  length (detrend run_fit y) = length y.
Proof.
  unfold detrend, arange.
  rewrite length_zip_with, !length_map, length_seq. lia.
Qed.

Lemma trend_bad_bound (run_fit y : list num) :
  Forall (λ b, b < length y)%nat (trend_bad run_fit y).
Proof.
  apply Forall_forall. intros b Hb. unfold trend_bad in Hb.
  apply np_where_bound in Hb. unfold trend_quotients in Hb.
  by rewrite !length_map, length_detrend in Hb.
Qed.

Lemma trend_bad_sorted (run_fit y : list num) :
  StronglySorted lt (trend_bad run_fit y).
Proof. apply np_where_sorted. Qed.

Lemma elem_of_day_valid (med_power : list (Z * num)) (mjd : Z) (i : nat) :
  i ∈ day_valid med_power mjd ↔ map fst med_power !! i = Some mjd.
Proof.
  unfold day_valid. rewrite elem_of_np_where, !list_lookup_fmap.
  destruct (med_power !! i) as [[d p]|]; cbn; [|done]. split.
  - intros [= Hd]. f_equal. by apply bool_decide_eq_true in Hd.
  - intros [= ->]. f_equal. by apply bool_decide_eq_true.
Qed.

(** [np.where] keeps the positions that hold, in ascending order. *)
Lemma np_where_from_filter (c : list bool) : ∀ o,
  np_where_from o c
  = List.filter (λ i, default false (c !! (i - o)%nat)) (seq o (length c)).
Proof.
  induction c as [|b c IH]; intros o; [done|].
  cbn [np_where_from length seq List.filter].
  rewrite Nat.sub_diag. cbn [lookup list_lookup default from_option].
  assert (Htail : List.filter (λ i, default false ((b :: c) !! (i - o)%nat))
                    (seq (S o) (length c))
                  = List.filter (λ i, default false (c !! (i - S o)%nat))
                      (seq (S o) (length c))).
  { apply filter_ext_in. intros i Hi. apply in_seq in Hi.
    replace (i - o)%nat with (S (i - S o)) by lia. done. }
  rewrite Htail, <- IH. by destruct b.
Qed.

(** [valid] is the day-group of the statements. *)
Lemma day_valid_group (med_power : list (Z * num)) (mjd : Z) :
  day_valid med_power mjd = day_group (map fst med_power) mjd.
Proof.
  unfold day_valid, day_group, np_where.
  rewrite np_where_from_filter, !length_map.
  apply filter_ext. intros i. rewrite Nat.sub_0_r, !list_lookup_fmap.
  by destruct (med_power !! i) as [[d p]|].
Qed.

Lemma powers_at_unique (powers : list num) (group : list nat) (y1 y2 : list num) :
  powers_at powers group y1 → powers_at powers group y2 → y1 = y2.
Proof.
  unfold powers_at. intros H1. revert y2.
  induction H1 as [|i p group y1 Hp _ IH]; intros y2 H2.
  - by apply Forall2_nil_inv_l in H2.
  - apply Forall2_cons_inv_l in H2 as (p' & y2' & Hp' & H2 & ->).
    f_equal; [congruence|by apply IH].
Qed.

(** The captures flagged on one day, when the fit of that day returns:
    ascending indices of captures of that day, those of the outliers. *)
Lemma day_bad_spec (med_power : list (Z * num)) (mjd : Z) :
  (∀ y, powers_at (map snd med_power) (day_group (map fst med_power) mjd) y →
        ∃ run_fit, np_polyfit (arange (length y)) y = Ok run_fit) →
  ∃ idx,
    day_bad np_polyfit med_power mjd = Ok idx
    ∧ StronglySorted lt idx
    ∧ Forall (λ i, map fst med_power !! i = Some mjd) idx
    ∧ ∀ i, i ∈ idx
           ↔ outlier_of_day np_polyfit (map fst med_power) (map snd med_power)
               mjd i.
Proof.
  intros Hfit. unfold day_bad, day_outliers. cbn zeta.
  destruct (fancy_spec (map snd med_power) (day_valid med_power mjd))
    as (y & Hy & Hyall).
  { apply Forall_forall. intros i Hi. apply np_where_bound in Hi.
    by rewrite !length_map in *. }
  rewrite Hy. cbn [mbind result_bind].
  assert (Hpowers : powers_at (map snd med_power)
                      (day_group (map fst med_power) mjd) y).
  { unfold powers_at. by rewrite <- day_valid_group. }
  destruct (Hfit y Hpowers) as [run_fit Hrun]. rewrite Hrun.
  cbn [mbind result_bind].
  destruct (fancy_spec (day_valid med_power mjd) (trend_bad run_fit y))
    as (idx & Hidx & Hall).
  { apply Forall2_length in Hyall. rewrite Hyall. apply trend_bad_bound. }
  exists idx. split; [exact Hidx|]. split; [|split].
  - eapply fancy_sorted; [apply np_where_sorted|apply trend_bad_sorted|done].
  - apply Forall_forall. intros i Hi.
    apply list_elem_of_lookup in Hi as [k Hk].
    destruct (Forall2_lookup_r _ _ _ _ _ Hall Hk) as (b & _ & Hb).
    apply elem_of_day_valid. by eapply list_elem_of_lookup_2.
  - rewrite day_valid_group in Hall. intros i. split.
    + intros Hi. apply list_elem_of_lookup in Hi as [j Hj].
      destruct (Forall2_lookup_r _ _ _ _ _ Hall Hj) as (k & Hk & Hki).
      exists y, run_fit, k. split; [done|]. split; [done|].
      split; [by eapply list_elem_of_lookup_2|done].
    + intros (y' & run_fit' & k & Hy' & Hrun' & Hk & Hki).
      rewrite (powers_at_unique _ _ _ _ Hy' Hpowers) in *.
      rewrite Hrun in Hrun'. injection Hrun' as <-.
      apply list_elem_of_lookup in Hk as [j Hj].
      destruct (Forall2_lookup_l _ _ _ _ _ Hall Hj) as (i' & Hi' & Hki').
      rewrite Hki in Hki'. injection Hki' as <-.
      by eapply list_elem_of_lookup_2.
Qed.

Lemma lines_cons (c : capture num) (caps : list (capture num)) :
  lines (c :: caps) = (path c +:+ newline) +:+ lines caps.
Proof. reflexivity. Qed.

Lemma lines_app (caps1 caps2 : list (capture num)) :
  lines (caps1 ++ caps2) = lines caps1 +:+ lines caps2.
Proof.
  induction caps1 as [|c caps1 IH]; [done|].
  rewrite <- app_comm_cons, !lines_cons, IH.
  symmetry. apply string_app_assoc.
Qed.

Lemma write_lines_spec (f : string) (args : list (capture num))
    (idx : list nat) (caps : list (capture num)) :
  Forall2 (λ i c, args !! i = Some c) idx caps →
  ∀ (fs : files) old,
    write_lines f args idx (<[f := old]> fs)
    = (<[f := old +:+ lines caps]> fs, Ok ()).
Proof.
  induction 1 as [|i c idx caps Hi Hall IH]; intros fs old.
  { cbn [write_lines lines foldr]. unfold mret, io_ret.
    by rewrite string_app_empty_r. }
  cbn [write_lines]. unfold mbind, io_bind, lift, fh_write.
  rewrite (getitem_Some _ _ _ Hi). cbn beta iota.
  rewrite alter_insert_eq, IH, lines_cons.
  by rewrite (string_app_assoc old).
Qed.

Lemma same_day_sorted (days : list Z) (d : Z) (idx : list nat) :
  StronglySorted lt idx → Forall (λ i, days !! i = Some d) idx →
  StronglySorted (day_then_index days) idx.
Proof.
  induction 1 as [|i idx Hidx IH Hi]; intros Hd; [constructor|].
  apply Forall_cons in Hd as [Hdi Hd]. constructor; [by apply IH|].
  apply Forall_forall. intros j Hj. exists d, d.
  split; [done|]. split; [by eapply Forall_forall in Hd|].
  right. split; [done|]. by eapply Forall_forall in Hi.
Qed.

(** The loop over the days, when the fit of every day returns: the lines
    appended are those of the outliers of the days, day after day. *)
Lemma trend_loop_spec (args : list (capture num))
    (med_power : list (Z * num)) (days : list Z) :
  map fst med_power = map day args →
  StronglySorted Z.lt days →
  (∀ mjd y, mjd ∈ days →
     powers_at (map snd med_power) (day_group (map fst med_power) mjd) y →
     ∃ run_fit, np_polyfit (arange (length y)) y = Ok run_fit) →
  ∀ fs : files, ∃ (written : list nat) (caps : list (capture num)),
    trend_loop np_polyfit days args med_power fs
    = (match days with
       | [] => fs
       | _ => <[bad_captures_txt :=
                  default "" (fs !! bad_captures_txt) +:+ lines caps]> fs
       end, Ok ())
    ∧ Forall2 (λ i c, args !! i = Some c) written caps
    ∧ StronglySorted (day_then_index (map day args)) written
    ∧ Forall (λ i, ∃ d, d ∈ days ∧ map day args !! i = Some d) written
    ∧ (days = [] → caps = [])
    ∧ ∀ i, i ∈ written
           ↔ ∃ mjd, mjd ∈ days
                    ∧ outlier_of_day np_polyfit (map fst med_power)
                        (map snd med_power) mjd i.
Proof.
  intros Hcol Hdays.
  induction Hdays as [|mjd days Hdays IH Hmjd]; intros Hfit fs.
  { exists [], []. split; [done|]. split; [constructor|].
    split; [constructor|]. split; [constructor|]. split; [done|].
    intros i. split; [by intros ?%elem_of_nil|].
    by intros (mjd & ?%elem_of_nil & _). }
  destruct (day_bad_spec med_power mjd) as (idx & Hbad & Hsorted & Hday & Hout).
  { intros y. apply Hfit. left. }
  rewrite Hcol in Hday.
  destruct (fancy_spec args idx) as (caps & _ & Hcaps).
  { eapply Forall_impl; [exact Hday|]. intros i Hi. cbn beta in Hi.
    apply lookup_lt_Some in Hi. by rewrite length_map in Hi. }
  set (old := default "" (fs !! bad_captures_txt)).
  destruct (IH (λ d y Hd, Hfit d y (proj2 (elem_of_cons _ _ _) (or_intror Hd)))
              (<[bad_captures_txt := old +:+ lines caps]> fs))
    as (written & caps' & Hrun & Hcaps' & Hsorted' & Hdays' & Hnil & Hout').
  exists (idx ++ written), (caps ++ caps').
  split; [|split; [|split; [|split; [|split; [done|]]]]].
  - cbn [trend_loop]. unfold mbind, io_bind, lift, open_append.
    rewrite Hbad. cbn beta iota. fold old.
    rewrite (write_lines_spec _ _ _ _ Hcaps), Hrun. f_equal.
    destruct days as [|mjd' days].
    + rewrite (Hnil eq_refl). by rewrite app_nil_r.
    + rewrite lookup_insert_eq, insert_insert_eq.
      unfold default, from_option, Datatypes.id.
      by rewrite lines_app, string_app_assoc.
  - by apply Forall2_app.
  - apply StronglySorted_app. split; [|split].
    + intros i j Hi Hj.
      eapply Forall_forall in Hday; [|exact Hi].
      eapply Forall_forall in Hdays'; [|exact Hj].
      destruct Hdays' as (d & Hd & Hjd).
      exists mjd, d. split; [done|]. split; [done|]. left.
      by eapply Forall_forall in Hmjd.
    + by eapply same_day_sorted.
    + done.
  - apply Forall_app. split.
    + eapply Forall_impl; [exact Hday|]. intros i Hi. cbn beta in *.
      exists mjd. split; [left|done].
    + eapply Forall_impl; [exact Hdays'|]. intros i (d & Hd & Hi).
      exists d. split; [by right|done].
  - intros i. rewrite elem_of_app, Hout, Hout'. split.
    + intros [Hi|(d & Hd & Hi)]; [exists mjd|exists d];
        (split; [|done]); [left|by right].
    + intros (d & Hd & Hi). apply elem_of_cons in Hd as [->|Hd];
        [by left|right; by exists d].
Qed.

Lemma load_med_power np_median (args : list (capture num)) :
  ∀ mean_spec med_power st,
  load np_median args mean_spec med_power = Ok st →
  st.2 = med_power ++ map (λ c, (day c, np_median (concat (spectra c)))) args.
Proof.
  induction args as [|c args IH]; intros mean_spec med_power st Hload.
  { cbn in Hload. injection Hload as <-. cbn. by rewrite app_nil_r. }
  cbn [load] in Hload.
  destruct (accumulate mean_spec (spectra c)) as [m|e]; [|done].
  cbn [mbind result_bind] in Hload. apply IH in Hload. rewrite Hload.
  cbn [map]. by rewrite <- app_assoc.
Qed.

Lemma load_days np_median (args : list (capture num)) :
  ∀ mean_spec med_power st,
  load np_median args mean_spec med_power = Ok st →
  map fst st.2 = map fst med_power ++ map day args.
Proof.
  intros mean_spec med_power st Hload. apply load_med_power in Hload.
  by rewrite Hload, map_app, map_map.
Qed.

Lemma load_powers np_median (args : list (capture num)) :
  ∀ st, load np_median args None [] = Ok st →
  map fst st.2 = map day args ∧ map snd st.2 = median_powers np_median args.
Proof.
  intros st Hload. apply load_med_power in Hload.
  rewrite Hload. cbn [app]. unfold median_powers. by rewrite !map_map.
Qed.

(** The trend phase of a batch that loaded, when the fit of every day
    returns: bad_captures.txt is replaced by the lines of the outliers, in
    the order of day and position. *)
Lemma capture_trend_flagger_spec np_median (args : list (capture num))
    (st : option (list (list num)) * list (Z * num)) (fs : files) :
  args ≠ [] →
  load np_median args None [] = Ok st →
  fits_every_day np_polyfit (map day args) (median_powers np_median args) →
  ∃ (written : list nat) (caps : list (capture num)),
    capture_trend_flagger np_polyfit args st.2 fs
    = (<[bad_captures_txt := lines caps]> fs, Ok ())
    ∧ Forall2 (λ i c, args !! i = Some c) written caps
    ∧ StronglySorted (day_then_index (map day args)) written
    ∧ ∀ i, i ∈ written
           ↔ outlier_of_its_day np_polyfit (map day args)
               (median_powers np_median args) i.
Proof.
  intros Hne Hload Hfit. apply load_powers in Hload as [Hdays Hpowers].
  destruct (trend_loop_spec args st.2 (np_unique (map fst st.2)) Hdays
              (np_unique_sorted _)) with (fs := delete bad_captures_txt fs)
    as (written & caps & Hrun & Hcaps & Hsorted & _ & _ & Hout).
  { intros mjd y Hmjd. rewrite Hdays, Hpowers.
    apply Hfit. rewrite elem_of_np_unique in Hmjd. by rewrite <- Hdays. }
  exists written, caps. split; [|split; [done|split; [done|]]].
  - unfold capture_trend_flagger, mbind, io_bind, os_remove, lift, mret, io_ret.
    destruct st as [mean_spec med_power]. cbn [snd] in *.
    destruct med_power as [|[d p] med_power].
    { destruct args; [done|discriminate]. }
    cbn beta iota. rewrite Hrun.
    destruct (np_unique (map fst ((d, p) :: med_power))) as [|mjd days]
      eqn:Hunique.
    { assert (Hd : d ∈ np_unique (map fst ((d, p) :: med_power))).
      { apply elem_of_np_unique. cbn. left. }
      rewrite Hunique in Hd. by apply elem_of_nil in Hd. }
    by rewrite lookup_delete_eq, insert_delete_eq.
  - intros i. rewrite Hout, Hdays, Hpowers. unfold outlier_of_its_day. split.
    + intros (mjd & _ & Hi). by exists mjd.
    + intros (mjd & Hi). exists mjd. split; [|done].
      apply elem_of_np_unique. rewrite <- Hdays.
      destruct Hi as (y & run_fit & k & _ & _ & _ & Hk).
      apply list_elem_of_lookup_2, list_elem_of_In, filter_In in Hk as [_ Hk].
      destruct (map day args !! i) as [d'|] eqn:Hd'; [|done].
      apply bool_decide_eq_true in Hk as ->. rewrite Hdays.
      by eapply list_elem_of_lookup_2.
Qed.

(** C10: the captures are loaded in the order of the file list.  When
    [np.polyfit] returns a line for every day, the lines written to
    bad_captures.txt, which starts empty, are the paths of the outliers of
    each day and no others, ordered by ascending day-id and, within a day,
    by their position in the file list, whatever the order of the days in
    that list. *)
Theorem bad_captures_grouped_by_ascending_day
    (np_median : list num → num) (args : list (capture num))
    (st : option (list (list num)) * list (Z * num)) (fs : files) :
  args ≠ [] →
  load np_median args None [] = Ok st →
  fits_every_day np_polyfit (map day args) (median_powers np_median args) →
  ∃ (written : list nat) (caps : list (capture num)),
    capture_trend_flagger np_polyfit args st.2 fs
    = (<[bad_captures_txt := lines caps]> fs, Ok ())
    ∧ Forall2 (λ i c, args !! i = Some c) written caps
    ∧ StronglySorted (day_then_index (map day args)) written
    ∧ ∀ i, i ∈ written
           ↔ outlier_of_its_day np_polyfit (map day args)
               (median_powers np_median args) i.
Proof.
  intros Hne Hload Hfit.
  destruct (capture_trend_flagger_spec np_median args st fs Hne Hload Hfit)
    as (written & caps & Hrun & Hcaps & Hsorted & Hout).
  exists written, caps. split; [exact Hrun|]. split; [exact Hcaps|].
  split; [exact Hsorted|exact Hout].
Qed.

End TrendOrder.

(** The least-squares line exists for two points or more. *)
Lemma lstsq_line_returns {num : Type} `{NumOps num} (y : list num) :
  (2 ≤ length y)%nat → ∃ run_fit, lstsq_line (arange (length y)) y = Ok run_fit.
Proof.
  intros Hy. unfold lstsq_line, arange. rewrite length_map, length_seq.
  destruct (length y) as [|[|n]] eqn:Hn; [lia|lia|].
  rewrite Nat.eqb_refl. cbn [Nat.eqb orb negb]. eauto.
Qed.

Lemma fits_every_day_lstsq {num : Type} `{NumOps num} (days : list Z)
    (powers : list num) :
  forallb (λ mjd, 2 <=? length (day_group days mjd))%nat days = true →
  fits_every_day lstsq_line days powers.
Proof.
  intros Hall mjd y Hmjd Hy. apply lstsq_line_returns.
  apply Forall2_length in Hy. rewrite <- Hy.
  rewrite forallb_forall in Hall. apply Nat.leb_le, Hall.
  by apply list_elem_of_In.
Qed.

(** A run in float64: the outlier of the earlier day, which comes later in
    the file list, is written first. *)
Lemma example_args_file :
  match load median_of example_args None [] with
  | Ok st =>
      (capture_trend_flagger lstsq_line example_args st.2 ∅).1
        !! bad_captures_txt
  | Raise _ => None
  end
  = Some ("60000_05.npz" +:+ newline +:+ "60001_05.npz" +:+ newline).
Proof. vm_compute. reflexivity. Qed.

Lemma bad_captures_grouped_by_ascending_day_witness :
  example_args ≠ []
  ∧ fits_every_day lstsq_line (map day example_args)
      (median_powers median_of example_args)
  ∧ ∃ st,
      load median_of example_args None [] = Ok st
      ∧ ∃ written caps,
          capture_trend_flagger lstsq_line example_args st.2 ∅
          = (<[bad_captures_txt := lines caps]> ∅, Ok ())
          ∧ Forall2 (λ i c, example_args !! i = Some c) written caps
          ∧ StronglySorted (day_then_index (map day example_args)) written
          ∧ (∀ i, i ∈ written
                  ↔ outlier_of_its_day lstsq_line (map day example_args)
                      (median_powers median_of example_args) i)
          ∧ lines caps
            = "60000_05.npz" +:+ newline +:+ "60001_05.npz" +:+ newline.
Proof.
  assert (Hne : example_args ≠ []) by discriminate.
  assert (Hfit : fits_every_day lstsq_line (map day example_args)
                   (median_powers median_of example_args)).
  { apply fits_every_day_lstsq. vm_compute. reflexivity. }
  split; [exact Hne|]. split; [exact Hfit|].
  pose proof example_args_file as Hfile.
  destruct (load median_of example_args None []) as [st|e] eqn:Hload;
    [|discriminate].
  exists st. split; [reflexivity|].
  destruct (bad_captures_grouped_by_ascending_day lstsq_line median_of
              example_args st ∅ Hne Hload Hfit)
    as (written & caps & Hrun & Hcaps & Hsorted & Hout).
  exists written, caps. split; [exact Hrun|]. split; [exact Hcaps|].
  split; [exact Hsorted|]. split; [exact Hout|].
  rewrite Hrun in Hfile. cbn [fst] in Hfile.
  rewrite lookup_insert_eq in Hfile. by injection Hfile.
Defined.

(** *** A loud channel *)

Lemma deviates_loud : deviates xlog10 (Fin 100) (Fin 1) = true.
Proof.
  assert (Hln10 : (0 < ln 10)%R).
  { rewrite <- ln_1. apply ln_increasing; lra. }
  assert (Hln100 : ln 100 = (2 * ln 10)%R).
  { replace 100%R with (10 * 10)%R by lra. rewrite ln_mult by lra. lra. }
  unfold deviates, xlog10.
  rewrite !bool_decide_eq_true_2 by lra.
  cbn [np_gt np_abs np_sub np_mul of_int xreal_ops xmul xadd xneg xabs xgt].
  apply bool_decide_eq_true_2. rewrite ln_1, Hln100.
  replace (10 * (2 * ln 10 / ln 10) + - (10 * (0 / ln 10)))%R with 20%R
    by (field; lra).
  rewrite Rabs_pos_eq; lra.
Qed.

Lemma deviates_quiet : deviates xlog10 (Fin 1) (Fin 1) = false.
Proof.
  unfold deviates, xlog10.
  rewrite !bool_decide_eq_true_2 by lra.
  cbn [np_gt np_abs np_sub np_mul of_int xreal_ops xmul xadd xneg xabs xgt].
  apply bool_decide_eq_false_2.
  replace (10 * (ln 1 / ln 10) + - (10 * (ln 1 / ln 10)))%R with 0%R by lra.
  rewrite Rabs_R0. lra.
Qed.

(** Rows that hold one value in every bin: all the bins of a window deviate
    or none does. *)
Lemma count_deviating_replicate (n lo hi : nat) (s m : xreal) :
  (hi ≤ n)%nat →
  count_deviating xlog10 (replicate n s) (replicate n m) lo hi
  = if deviates xlog10 s m then (hi - lo)%nat else 0%nat.
Proof.
  intros Hhi. unfold count_deviating.
  assert (Hbins : ∀ b, In b (seq lo (hi - lo)) →
            bin_deviates xlog10 (replicate n s) (replicate n m) b
            = deviates xlog10 s m).
  { intros b Hb. apply in_seq in Hb. unfold bin_deviates.
    by rewrite !lookup_replicate_2 by lia. }
  rewrite (filter_ext_in _ (λ _, deviates xlog10 s m) _ Hbins).
  destruct (deviates xlog10 s m).
  - rewrite forallb_filter_id; [by rewrite length_seq|].
    by apply forallb_forall.
  - rewrite filter_none; [done|]. by intros.
Qed.

Lemma loud_spectra_rows :
  Forall (λ row, length row = length quiet_row) loud_spectra.
Proof.
  unfold loud_spectra, quiet_row, loud_row.
  repeat constructor; by rewrite !length_replicate.
Qed.

(** [flag] on the spectra with the loud channel. *)
Lemma flag_loud_spectra :
  flag xlog10 loud_spectra quiet_row default_chans = Ok [GOOD; GOOD; BAD; GOOD].
Proof.
  destruct (flag_spec xlog10 loud_spectra quiet_row 1066 3552 loud_spectra_rows)
    as (status & Hrun & Hlen & Hst).
  change (flag xlog10 loud_spectra quiet_row default_chans = Ok status) in Hrun.
  rewrite Hrun. f_equal.
  assert (Hquiet : count_deviating xlog10 quiet_row quiet_row 1066 3552 = 0%nat).
  { unfold quiet_row. rewrite count_deviating_replicate by lia.
    by rewrite deviates_quiet. }
  assert (Hloud : count_deviating xlog10 loud_row quiet_row 1066 3552
                  = 2486%nat).
  { unfold quiet_row, loud_row. rewrite count_deviating_replicate by lia.
    rewrite deviates_loud. reflexivity. }
  pose proof (Hst 0%nat quiet_row eq_refl) as H0.
  pose proof (Hst 1%nat quiet_row eq_refl) as H1.
  pose proof (Hst 2%nat loud_row eq_refl) as H2.
  pose proof (Hst 3%nat quiet_row eq_refl) as H3.
  rewrite Hquiet in H0, H1, H3. rewrite Hloud in H2.
  change (length loud_spectra) with 4%nat in Hlen.
  destruct status as [|s0 [|s1 [|s2 [|s3 [|s4 status]]]]];
    cbn [length] in Hlen; try discriminate Hlen.
  cbn [lookup list_lookup] in H0, H1, H2, H3.
  injection H0 as ->. injection H1 as ->. injection H2 as ->.
  injection H3 as ->. reflexivity.
Qed.

Lemma flag_bad_iff_quarter_of_window_deviates_witness :
  Forall (λ row, length row = length quiet_row) loud_spectra
  ∧ ∃ status,
      flag xlog10 loud_spectra quiet_row default_chans = Ok status
      ∧ length status = length loud_spectra
      ∧ status = [GOOD; GOOD; BAD; GOOD]
      ∧ count_deviating xlog10 loud_row quiet_row 1066 3552 = 2486%nat
      ∧ ((1 # 4) * inject_Z (3552 - 1066) < inject_Z (Z.of_nat 2486))%Q
      ∧ (status !! 2%nat = Some BAD
         ↔ ((1 # 4) * inject_Z (3552 - 1066)
            < inject_Z (Z.of_nat
                          (count_deviating xlog10 loud_row quiet_row
                             1066 3552)))%Q).
Proof.
  split; [exact loud_spectra_rows|].
  destruct (flag_bad_iff_quarter_of_window_deviates xlog10
              loud_spectra quiet_row loud_spectra_rows)
    as (status & Hrun & Hlen & Hst).
  exists status. split; [exact Hrun|]. split; [exact Hlen|].
  split; [rewrite flag_loud_spectra in Hrun; by injection Hrun|].
  split.
  { unfold quiet_row, loud_row. rewrite count_deviating_replicate by lia.
    rewrite deviates_loud. reflexivity. }
  split; [reflexivity|].
  exact (proj1 (Hst 2%nat loud_row eq_refl)).
Defined.

(** * Further properties *)

(** ** PairRule as a function *)

Lemma pair_induction (P : list Z → Prop) :
  P [] → (∀ x, P [x]) → (∀ x y l, P l → P (x :: y :: l)) → ∀ l, P l.
Proof.
  intros Hnil Hone Hstep l.
  assert (Hboth : P l ∧ ∀ x, P (x :: l)).
  { induction l as [|y l [IH1 IH2]]; [by split|].
    split; [apply IH2|]. intros x. by apply Hstep. }
  apply Hboth.
Qed.

Lemma pairwise_length (status : list Z) :
  length (pairwise status) = length status.
Proof.
  induction status as [|x|x y l IH] using pair_induction; [done|done|].
  cbn [pairwise length]. by rewrite IH.
Qed.

Lemma pairwise_lookup (k : nat) : ∀ (status : list Z) x y,
  status !! (2 * k)%nat = Some x → status !! (2 * k + 1)%nat = Some y →
  pairwise status !! (2 * k)%nat = Some (paired x y).1
  ∧ pairwise status !! (2 * k + 1)%nat = Some (paired x y).2.
Proof.
  induction k as [|k IH]; intros [|a [|b rest]] x y Hx Hy; try done.
  - cbn in Hx, Hy. by simplify_eq.
  - replace (2 * S k)%nat with (S (S (2 * k))) in * by lia.
    replace (S (S (2 * k)) + 1)%nat with (S (S (2 * k + 1))) in * by lia.
    cbn [pairwise]. cbn [lookup list_lookup] in *. by apply IH.
Qed.

(** On a list of even length the loop computes [pairwise]. *)
Lemma pair_rule_pairwise (status : list Z) :
  Nat.Even (length status) → pair_rule status = Ok (pairwise status).
Proof.
  intros [m Hm].
  destruct (pair_rule_even status m Hm) as (final & -> & Hlen & Hpairs).
  f_equal. apply list_eq_same_length with (length status);
    [by rewrite pairwise_length|done|].
  intros i f p Hi Hf Hp.
  assert (Hk : ∃ k, (i = 2 * k ∨ i = 2 * k + 1)%nat).
  { exists (i / 2)%nat. pose proof (Nat.div_mod_eq i 2).
    pose proof (Nat.mod_upper_bound i 2). lia. }
  destruct Hk as [k Hk].
  destruct (lookup_lt_is_Some_2 status (2 * k)%nat) as [x Hx]; [lia|].
  destruct (lookup_lt_is_Some_2 status (2 * k + 1)%nat) as [y Hy]; [lia|].
  destruct (Hpairs k x y Hx Hy) as [Hf0 Hf1].
  destruct (pairwise_lookup k status x y Hx Hy) as [Hp0 Hp1].
  destruct Hk as [-> | ->]; congruence.
Qed.

Lemma paired_idem (x y : Z) :
  paired (paired x y).1 (paired x y).2 = paired x y.
Proof.
  destruct (decide (x ≠ 3 ∨ y ≠ 3)) as [Hxy|Hxy].
  - assert (Hp : paired x y = (Z.min x 2, Z.min y 2)).
    { unfold paired. by rewrite bool_decide_eq_true_2. }
    rewrite Hp. cbn [fst snd]. unfold paired.
    rewrite bool_decide_eq_true_2 by lia. f_equal; lia.
  - assert (Hp : paired x y = (x, y)).
    { unfold paired. by rewrite bool_decide_eq_false_2. }
    by rewrite Hp.
Qed.

Lemma pairwise_idem (status : list Z) :
  pairwise (pairwise status) = pairwise status.
Proof.
  induction status as [|x|x y l IH] using pair_induction; [done|done|].
  cbn [pairwise]. by rewrite paired_idem, IH.
Qed.

Lemma paired_good_together (x y : Z) :
  (paired x y).1 = GOOD ↔ (paired x y).2 = GOOD.
Proof.
  unfold paired, GOOD. case_bool_decide as Hxy; cbn [fst snd]; lia.
Qed.

Lemma paired_never_better (x y : Z) :
  ((paired x y).1 ≤ x ∧ ((paired x y).1 = BAD ↔ x = BAD))
  ∧ ((paired x y).2 ≤ y ∧ ((paired x y).2 = BAD ↔ y = BAD)).
Proof.
  unfold paired, BAD. case_bool_decide as Hxy; cbn [fst snd]; lia.
Qed.

Lemma pairwise_never_better (status : list Z) :
  Forall2 (λ f s, f ≤ s ∧ (f = BAD ↔ s = BAD)) (pairwise status) status.
Proof.
  induction status as [|x|x y l IH] using pair_induction.
  - constructor.
  - cbn [pairwise]. constructor; [|constructor]. split; [lia|done].
  - cbn [pairwise]. destruct (paired_never_better x y) as [Hx Hy].
    constructor; [exact Hx|]. constructor; [exact Hy|exact IH].
Qed.

(** X1: after [pair_rule], in every pair of polarisations either both
    channels are GOOD or neither is. *)
Theorem pair_rule_good_in_pairs (status : list Z) :
  Nat.Even (length status) →
  ∃ final,
    pair_rule status = Ok final
    ∧ ∀ k x y,
        final !! (2 * k)%nat = Some x → final !! (2 * k + 1)%nat = Some y →
        (x = GOOD ↔ y = GOOD).
Proof.
  intros Heven. exists (pairwise status).
  split; [by apply pair_rule_pairwise|].
  intros k x y Hx Hy.
  assert (Hlen : (2 * k + 1 < length status)%nat).
  { apply lookup_lt_Some in Hy. by rewrite pairwise_length in Hy. }
  destruct (lookup_lt_is_Some_2 status (2 * k)%nat) as [x0 Hx0]; [lia|].
  destruct (lookup_lt_is_Some_2 status (2 * k + 1)%nat) as [y0 Hy0]; [lia|].
  destruct (pairwise_lookup k status x0 y0 Hx0 Hy0) as [Hp0 Hp1].
  assert (x = (paired x0 y0).1) as -> by congruence.
  assert (y = (paired x0 y0).2) as -> by congruence.
  apply paired_good_together.
Qed.

Lemma pair_rule_good_in_pairs_witness :
  Nat.Even (length [3; 1; 2; 3; 3; 3])
  ∧ ∃ final,
      pair_rule [3; 1; 2; 3; 3; 3] = Ok final
      ∧ ∀ k x y,
          final !! (2 * k)%nat = Some x → final !! (2 * k + 1)%nat = Some y →
          (x = GOOD ↔ y = GOOD).
Proof.
  assert (Heven : Nat.Even (length [3; 1; 2; 3; 3; 3]))
    by (exists 3%nat; reflexivity).
  split; [exact Heven|].
  exact (pair_rule_good_in_pairs [3; 1; 2; 3; 3; 3] Heven).
Defined.

(** X2: [pair_rule] is idempotent: run on its own result it changes
    nothing. *)
Theorem pair_rule_idempotent (status : list Z) :
  Nat.Even (length status) →
  ∃ final, pair_rule status = Ok final ∧ pair_rule final = Ok final.
Proof.
  intros Heven. exists (pairwise status).
  split; [by apply pair_rule_pairwise|].
  rewrite pair_rule_pairwise by (by rewrite pairwise_length).
  by rewrite pairwise_idem.
Qed.

Lemma pair_rule_idempotent_witness :
  Nat.Even (length [3; 1; 2; 3; 3; 3])
  ∧ ∃ final,
      pair_rule [3; 1; 2; 3; 3; 3] = Ok final ∧ pair_rule final = Ok final.
Proof.
  assert (Heven : Nat.Even (length [3; 1; 2; 3; 3; 3]))
    by (exists 3%nat; reflexivity).
  split; [exact Heven|].
  exact (pair_rule_idempotent [3; 1; 2; 3; 3; 3] Heven).
Defined.

(** X3: [pair_rule] never raises a status, and a channel is BAD after it
    exactly when it was BAD before: the rule only turns GOOD into SUSPECT. *)
Theorem pair_rule_only_downgrades_good (status : list Z) :
  Nat.Even (length status) →
  ∃ final,
    pair_rule status = Ok final
    ∧ ∀ i s f, status !! i = Some s → final !! i = Some f →
        f ≤ s ∧ (f = BAD ↔ s = BAD) ∧ (s ≠ GOOD → s ≤ SUSPECT → f = s).
Proof.
  intros Heven. exists (pairwise status).
  split; [by apply pair_rule_pairwise|].
  intros i s f Hs Hf.
  destruct (Forall2_lookup_lr _ _ _ _ _ _ (pairwise_never_better status) Hf Hs)
    as [Hle Hbad].
  split; [done|]. split; [done|].
  intros Hne Hsus. revert i s f Hs Hf Hle Hbad Hne Hsus.
  induction status as [|x|x y l IH] using pair_induction;
    intros i s f Hs Hf Hle Hbad Hne Hsus.
  - done.
  - destruct i; cbn in *; congruence.
  - assert (Hl : Nat.Even (length l)).
    { destruct Heven as [m Hm]. exists (m - 1)%nat. cbn [length] in Hm. lia. }
    cbn [pairwise] in Hf. destruct i as [|[|i]]; cbn in Hs, Hf.
    + simplify_eq. unfold paired, GOOD, SUSPECT in *.
      case_bool_decide; cbn [fst]; lia.
    + simplify_eq. unfold paired, GOOD, SUSPECT in *.
      case_bool_decide; cbn [snd]; lia.
    + eapply (IH Hl i); eauto.
Qed.

Lemma pair_rule_only_downgrades_good_witness :
  Nat.Even (length [3; 1; 2; 3; 3; 3])
  ∧ ∃ final,
      pair_rule [3; 1; 2; 3; 3; 3] = Ok final
      ∧ ∀ i s f, [3; 1; 2; 3; 3; 3] !! i = Some s → final !! i = Some f →
          f ≤ s ∧ (f = BAD ↔ s = BAD) ∧ (s ≠ GOOD → s ≤ SUSPECT → f = s).
Proof.
  assert (Heven : Nat.Even (length [3; 1; 2; 3; 3; 3]))
    by (exists 3%nat; reflexivity).
  split; [exact Heven|].
  exact (pair_rule_only_downgrades_good [3; 1; 2; 3; 3; 3] Heven).
Defined.

(** ** What flag returns, and the counts printed *)

Section FlagValues.
Context {num : Type} `{NumOps num}.
Variable np_log10 : num → num.

Lemma flag_loop_values nchan (median_spec : list num) rows :
  ∀ i (status final : list Z),
  flag_loop nchan median_spec i rows status = Ok final →
  length final = length status
  ∧ (Forall (λ x, x = GOOD ∨ x = BAD) status →
     Forall (λ x, x = GOOD ∨ x = BAD) final).
Proof.
  induction rows as [|row rows IH]; intros i status final Hrun.
  { cbn in Hrun. by simplify_eq. }
  cbn [flag_loop] in Hrun.
  destruct (off_median row median_spec) as [bad|e]; [|done].
  cbn [mbind result_bind] in Hrun.
  destruct (forallb _ bad); [|done].
  apply IH in Hrun as [Hlen Hvalues].
  destruct (exceeds_quarter (length bad) nchan).
  - rewrite length_insert in Hlen. split; [done|]. intros Hst.
    apply Hvalues. apply Forall_insert; [done|by right].
  - done.
Qed.

(** Whenever [flag] returns, it returns one status per row, each GOOD or
    BAD. *)
Lemma flag_values (spec : list (list num)) (median_spec : list num)
    (chans : nat * nat) (status : list Z) :
  flag np_log10 spec median_spec chans = Ok status →
  length status = length spec ∧ Forall (λ x, x = GOOD ∨ x = BAD) status.
Proof.
  unfold flag. intros Hrun. apply flag_loop_values in Hrun as [Hlen Hvalues].
  rewrite length_replicate, length_map in Hlen. split; [done|].
  apply Hvalues. apply Forall_replicate. by left.
Qed.

End FlagValues.

Lemma count_status_cons (s x : Z) (status : list Z) :
  count_status s (x :: status)
  = ((if bool_decide (x = s) then 1 else 0) + count_status s status)%nat.
Proof. unfold count_status. cbn [List.filter]. by case_bool_decide. Qed.

(** The counts of a list of GOOD and BAD statuses after [pairwise]. *)
Lemma pairwise_counts (status : list Z) :
  Nat.Even (length status) →
  Forall (λ x, x = GOOD ∨ x = BAD) status →
  (count_status 3 (pairwise status) + count_status 2 (pairwise status)
   + count_status 1 (pairwise status) = length status)%nat
  ∧ Nat.Even (count_status 3 (pairwise status))
  ∧ count_status 1 (pairwise status) = count_status 1 status.
Proof.
  induction status as [|x|x y l IH] using pair_induction; intros Heven Hst.
  - split; [done|]. split; [by exists 0%nat|done].
  - destruct Heven as [m Hm]. cbn in Hm. lia.
  - assert (Hl : Nat.Even (length l)).
    { destruct Heven as [m Hm]. exists (m - 1)%nat. cbn [length] in Hm. lia. }
    apply Forall_cons in Hst as [Hx Hst]. apply Forall_cons in Hst as [Hy Hst].
    destruct (IH Hl Hst) as (Hsum & [g Hg] & Hbad).
    cbn [pairwise length]. rewrite !count_status_cons, Hbad.
    rewrite Hbad in Hsum. unfold GOOD, BAD in Hx, Hy.
    assert (Hcases : (x = 3 ∧ y = 3) ∨ (x = 3 ∧ y = 1) ∨ (x = 1 ∧ y = 3)
                     ∨ (x = 1 ∧ y = 1)) by lia.
    assert (H33 : paired 3 3 = (3, 3)) by (vm_compute; reflexivity).
    assert (H31 : paired 3 1 = (2, 1)) by (vm_compute; reflexivity).
    assert (H13 : paired 1 3 = (1, 2)) by (vm_compute; reflexivity).
    assert (H11 : paired 1 1 = (1, 1)) by (vm_compute; reflexivity).
    destruct Hcases as [[-> ->]|[[-> ->]|[[-> ->]|[-> ->]]]];
      rewrite ?H33, ?H31, ?H13, ?H11; cbn [fst snd];
      repeat (case_bool_decide; try lia);
      (split; [lia|]; split; [|lia]).
    + exists (S g). lia.
    + exists g. lia.
    + exists g. lia.
    + exists g. lia.
Qed.

(** X4: the counts that [main] prints, of the statuses [flag] returned
    after [pair_rule]: Good, Suspect and Bad add up to the number of
    channels, the number of Good channels is even, and the number of Bad
    channels is the number [flag] found. *)
Theorem printed_counts {num : Type} `{NumOps num} (np_log10 : num → num)
    (spec : list (list num)) (median_spec : list num) (chans : nat * nat)
    (status : list Z) :
  Nat.Even (length spec) →
  flag np_log10 spec median_spec chans = Ok status →
  ∃ final,
    pair_rule status = Ok final
    ∧ (count_status 3 final + count_status 2 final + count_status 1 final
       = length spec)%nat
    ∧ Nat.Even (count_status 3 final)
    ∧ count_status 1 final = count_status 1 status.
Proof.
  intros Heven Hflag. apply flag_values in Hflag as [Hlen Hvalues].
  rewrite <- Hlen in *. exists (pairwise status).
  split; [by apply pair_rule_pairwise|]. by apply pairwise_counts.
Qed.

Lemma printed_counts_witness :
  Nat.Even (length loud_spectra)
  ∧ flag xlog10 loud_spectra quiet_row default_chans
    = Ok [GOOD; GOOD; BAD; GOOD]
  ∧ ∃ final,
      pair_rule [GOOD; GOOD; BAD; GOOD] = Ok final
      ∧ (count_status 3 final + count_status 2 final + count_status 1 final
         = length loud_spectra)%nat
      ∧ Nat.Even (count_status 3 final)
      ∧ count_status 1 final = count_status 1 [GOOD; GOOD; BAD; GOOD]
      ∧ final = [GOOD; GOOD; BAD; SUSPECT]
      ∧ count_status 3 final = 2%nat
      ∧ count_status 2 final = 1%nat
      ∧ count_status 1 final = 1%nat.
Proof.
  assert (Heven : Nat.Even (length loud_spectra))
    by (exists 2%nat; reflexivity).
  split; [exact Heven|]. split; [exact flag_loud_spectra|].
  destruct (printed_counts xlog10 loud_spectra quiet_row default_chans
              [GOOD; GOOD; BAD; GOOD] Heven flag_loud_spectra)
    as (final & Hpair & Hsum & Hgood & Hbad).
  exists final. split; [exact Hpair|]. split; [exact Hsum|].
  split; [exact Hgood|]. split; [exact Hbad|].
  assert (Hfinal : pair_rule [GOOD; GOOD; BAD; GOOD]
                   = Ok [GOOD; GOOD; BAD; SUSPECT]) by reflexivity.
  rewrite Hfinal in Hpair. injection Hpair as <-. by repeat split.
Defined.

(** ** flag at the edges of its inputs *)

Section FlagEdges.
Context {num : Type} `{NumOps num}.
Variable np_log10 : num → num.

Lemma py_slice_reversed {A} (lo hi : nat) (l : list A) :
  (hi ≤ lo)%nat → py_slice lo hi l = [].
Proof. intros Hle. unfold py_slice. by replace (hi - lo)%nat with 0%nat by lia. Qed.

Lemma flag_loop_no_bins (nchan : Z) (n : nat) : ∀ (pre : list Z),
  flag_loop (num := num) nchan [] (length pre) (replicate n [])
    (pre ++ replicate n GOOD)
  = Ok (pre ++ replicate n (if exceeds_quarter 0 nchan then BAD else GOOD)).
Proof.
  induction n as [|n IH]; intros pre; [done|].
  cbn [replicate flag_loop].
  rewrite off_median_same_length by done.
  cbn [mbind result_bind zip zip_with map length forallb].
  unfold np_where. cbn [np_where_from length forallb].
  set (v := if exceeds_quarter 0 nchan then BAD else GOOD).
  assert (Hstep : (if exceeds_quarter 0 nchan
                   then <[length pre := BAD]> (pre ++ GOOD :: replicate n GOOD)
                   else pre ++ GOOD :: replicate n GOOD)
                  = (pre ++ [v]) ++ replicate n GOOD).
  { unfold v. rewrite <- app_assoc. cbn [app].
    destruct (exceeds_quarter 0 nchan); [|done].
    rewrite insert_app_r_alt by lia. by rewrite Nat.sub_diag. }
  rewrite Hstep.
  replace (S (length pre)) with (length (pre ++ [v]))
    by (rewrite length_app; cbn; lia).
  rewrite IH, <- app_assoc. reflexivity.
Qed.

(** X5: a window that is empty or reversed leaves nothing to compare: with
    [hi = lo] every channel is GOOD, with [hi < lo] every channel is BAD
    (the count 0 exceeds a quarter of the negative width), whatever the
    spectra are. *)
Theorem flag_empty_or_reversed_window (spec : list (list num))
    (median_spec : list num) (lo hi : nat) :
  (hi ≤ lo)%nat →
  flag np_log10 spec median_spec (lo, hi)
  = Ok (replicate (length spec) (if decide (hi < lo)%nat then BAD else GOOD)).
Proof.
  intros Hle. unfold flag. cbn [fst snd].
  rewrite (py_slice_reversed lo hi median_spec Hle).
  assert (Hrows : map (λ row, map (dB np_log10) (py_slice lo hi row)) spec
                  = replicate (length spec) []).
  { induction spec as [|row spec IH]; [done|].
    cbn [map length replicate]. by rewrite (py_slice_reversed lo hi row Hle), IH. }
  rewrite Hrows, length_replicate. cbn [map].
  pose proof (flag_loop_no_bins (Z.of_nat hi - Z.of_nat lo) (length spec) [])
    as Hrun.
  cbn [length app] in Hrun. rewrite Hrun. do 2 f_equal.
  pose proof (exceeds_quarter_iff 0 (Z.of_nat hi - Z.of_nat lo)) as Hq.
  destruct (decide (hi < lo)%nat) as [Hlt|Hge].
  - rewrite (proj2 Hq); [done|]. unfold Qlt. cbn. lia.
  - destruct (exceeds_quarter 0 _); [|done].
    exfalso. destruct Hq as [Hq _]. specialize (Hq eq_refl).
    unfold Qlt in Hq. cbn in Hq. lia.
Qed.

Lemma broadcast_mismatch {A} (a b : list A) :
  length a ≠ length b → length a ≠ 1%nat → length b ≠ 1%nat →
  broadcast a b = Raise ValueError.
Proof.
  intros Hab Ha Hb. unfold broadcast. rewrite decide_False by done.
  destruct a as [|x [|x' a]], b as [|y [|y' b]]; done.
Qed.

(** X6: when the window of the spectrum and the window of the median
    spectrum have different lengths, neither of them 1, [flag] raises
    numpy's ValueError on the first row and returns no status. *)
Theorem flag_window_mismatch (row : list num) (spec : list (list num))
    (median_spec : list num) (lo hi : nat) :
  length (py_slice lo hi row) ≠ length (py_slice lo hi median_spec) →
  length (py_slice lo hi row) ≠ 1%nat →
  length (py_slice lo hi median_spec) ≠ 1%nat →
  flag np_log10 (row :: spec) median_spec (lo, hi) = Raise ValueError.
Proof.
  intros Hne Hrow Hmed. unfold flag. cbn [fst snd map flag_loop].
  unfold off_median.
  rewrite broadcast_mismatch by (by rewrite !length_map).
  reflexivity.
Qed.

Lemma flag_loop_app nchan (median_spec : list num) rows1 rows2 :
  ∀ i (status : list Z),
  flag_loop nchan median_spec i (rows1 ++ rows2) status
  = flag_loop nchan median_spec i rows1 status
    ≫= flag_loop nchan median_spec (i + length rows1) rows2.
Proof.
  induction rows1 as [|row rows1 IH]; intros i status.
  { cbn. by rewrite Nat.add_0_r. }
  cbn [app flag_loop length].
  destruct (off_median row median_spec) as [bad|e]; [|done].
  cbn [mbind result_bind].
  destruct (forallb _ bad); [|done].
  rewrite IH. by replace (S i + length rows1)%nat with (i + S (length rows1))%nat by lia.
Qed.

Lemma flag_loop_frame_l nchan (median_spec : list num) rows (pre : list Z) :
  ∀ j (status : list Z),
  flag_loop nchan median_spec (length pre + j) rows (pre ++ status)
  = flag_loop nchan median_spec j rows status ≫= λ r, Ok (pre ++ r).
Proof.
  induction rows as [|row rows IH]; intros j status; [done|].
  cbn [flag_loop].
  destruct (off_median row median_spec) as [bad|e]; [|done].
  cbn [mbind result_bind].
  destruct (forallb _ bad); [|done].
  replace (S (length pre + j)) with (length pre + S j)%nat by lia.
  destruct (exceeds_quarter (length bad) nchan).
  - rewrite insert_app_r. apply IH.
  - apply IH.
Qed.

Lemma flag_loop_frame_r nchan (median_spec : list num) rows (post : list Z) :
  ∀ j (status : list Z),
  (j + length rows ≤ length status)%nat →
  flag_loop nchan median_spec j rows (status ++ post)
  = flag_loop nchan median_spec j rows status ≫= λ r, Ok (r ++ post).
Proof.
  induction rows as [|row rows IH]; intros j status Hlen; [done|].
  cbn [flag_loop]. cbn [length] in Hlen.
  destruct (off_median row median_spec) as [bad|e]; [|done].
  cbn [mbind result_bind].
  destruct (forallb _ bad); [|done].
  destruct (exceeds_quarter (length bad) nchan).
  - rewrite insert_app_l by lia. apply IH. rewrite length_insert. lia.
  - apply IH. lia.
Qed.

(** X7: the channels are classified one by one: the statuses of two
    spectra stacked on each other are the statuses of the first followed by
    those of the second, and the first error met is the one raised. *)
Theorem flag_app (spec1 spec2 : list (list num)) (median_spec : list num)
    (chans : nat * nat) :
  flag np_log10 (spec1 ++ spec2) median_spec chans
  = (status1 ← flag np_log10 spec1 median_spec chans;
     status2 ← flag np_log10 spec2 median_spec chans;
     Ok (status1 ++ status2)).
Proof.
  unfold flag. cbn zeta.
  set (nchan := Z.of_nat chans.2 - Z.of_nat chans.1).
  set (med := map (dB np_log10) (py_slice chans.1 chans.2 median_spec)).
  rewrite map_app, length_app, replicate_add, flag_loop_app.
  set (rows1 := map (λ row, map (dB np_log10) (py_slice chans.1 chans.2 row)) spec1).
  set (rows2 := map (λ row, map (dB np_log10) (py_slice chans.1 chans.2 row)) spec2).
  rewrite flag_loop_frame_r by (rewrite length_replicate; lia).
  destruct (flag_loop nchan med 0 rows1 (replicate (length rows1) GOOD))
    as [status1|e] eqn:Hrun1; [|done].
  cbn [mbind result_bind].
  apply flag_loop_values in Hrun1 as [Hlen1 _].
  rewrite length_replicate in Hlen1.
  replace (0 + length rows1)%nat with (length status1 + 0)%nat by lia.
  rewrite flag_loop_frame_l. reflexivity.
Qed.

End FlagEdges.

Lemma flag_empty_or_reversed_window_witness :
  (5 ≤ 7)%nat
  ∧ flag xlog10 [[Fin 1; Fin 2]; [Fin 3; Fin 4]] [Fin 2; Fin 3] (7, 5)%nat
    = Ok (replicate (length [[Fin 1; Fin 2]; [Fin 3; Fin 4]])
            (if decide (5 < 7)%nat then BAD else GOOD)).
Proof.
  assert (Hle : (5 ≤ 7)%nat) by lia.
  split; [exact Hle|].
  exact (flag_empty_or_reversed_window xlog10 _ _ 7 5 Hle).
Defined.

Lemma flag_window_mismatch_witness :
  length (py_slice 0 4 [Fin 1; Fin 2; Fin 3])
    ≠ length (py_slice 0 4 [Fin 2; Fin 3])
  ∧ length (py_slice 0 4 [Fin 1; Fin 2; Fin 3]) ≠ 1%nat
  ∧ length (py_slice 0 4 [Fin 2; Fin 3]) ≠ 1%nat
  ∧ flag xlog10 [[Fin 1; Fin 2; Fin 3]] [Fin 2; Fin 3] (0, 4)%nat
    = Raise ValueError.
Proof.
  assert (H1 : length (py_slice 0 4 [Fin 1; Fin 2; Fin 3])
               ≠ length (py_slice 0 4 [Fin 2; Fin 3])) by (cbn; lia).
  assert (H2 : length (py_slice 0 4 [Fin 1; Fin 2; Fin 3]) ≠ 1%nat)
    by (cbn; lia).
  assert (H3 : length (py_slice 0 4 [Fin 2; Fin 3]) ≠ 1%nat) by (cbn; lia).
  split; [exact H1|]. split; [exact H2|]. split; [exact H3|].
  exact (flag_window_mismatch xlog10 _ [] _ 0 4 H1 H2 H3).
Defined.

(** ** main as a whole *)

Section MainProperties.
Context {num : Type} `{NumOps num}.
Variable np_log10 : num → num.
Variable np_polyfit : list num → list num → result (list num).
Variable np_median : list num → num.
Variable plots : list (list num) → list num → list Z → result unit.

Lemma has_shape_shape (n_rows n_cols : nat) (a b : list (list num)) :
  has_shape n_rows n_cols a → has_shape n_rows n_cols b → shape a = shape b.
Proof.
  intros [Ha Hra] [Hb Hrb]. unfold shape. rewrite Ha, Hb. f_equal.
  destruct a as [|ra a], b as [|rb b]; cbn in *; try lia.
  apply Forall_cons in Hra as [-> _]. by apply Forall_cons in Hrb as [-> _].
Qed.

Lemma has_shape_map (f : num → num) (n_rows n_cols : nat) (m : list (list num)) :
  has_shape n_rows n_cols m → has_shape n_rows n_cols (map (map f) m).
Proof.
  intros [Hm Hrows]. split; [by rewrite length_map|].
  apply Forall_map. eapply Forall_impl; [exact Hrows|].
  intros row Hrow. cbn beta. by rewrite length_map.
Qed.

Lemma zip_rows_has_shape (n_cols : nat) (a : list (list num)) :
  ∀ b : list (list num),
  length b = length a →
  Forall (λ row, length row = n_cols) a →
  Forall (λ row, length row = n_cols) b →
  has_shape (length a) n_cols
    (zip_with (λ ra rb, zip_with np_add ra (stretch (length ra) rb)) a b).
Proof.
  induction a as [|ra a IH]; intros [|rb b] Hlen Ha Hb;
    cbn [length] in Hlen; try lia.
  - split; [reflexivity|constructor].
  - apply Forall_cons in Ha as [Hra Ha]. apply Forall_cons in Hb as [Hrb Hb].
    destruct (IH b) as [Hl Hrows]; [by injection Hlen|done|done|].
    split; [cbn [zip_with length]; by rewrite Hl|].
    cbn [zip_with]. constructor; [|exact Hrows].
    rewrite <- Hrb in Hra. rewrite Hra, stretch_same, length_zip_with. lia.
Qed.

(** Adding an array of the shape of the running sum. *)
Lemma np_iadd_has_shape (n_rows n_cols : nat) (a b : list (list num)) :
  has_shape n_rows n_cols a → has_shape n_rows n_cols b →
  ∃ m, np_iadd a b = Ok m ∧ has_shape n_rows n_cols m.
Proof.
  intros Ha Hb. unfold np_iadd.
  rewrite (has_shape_shape _ _ b a Hb Ha), broadcastable_refl.
  eexists. split; [reflexivity|].
  destruct Ha as [<- Hra], Hb as [Hb Hrb].
  rewrite <- Hb, stretch_same, Hb. by apply zip_rows_has_shape.
Qed.

Lemma load_has_shape (n_rows n_cols : nat) (args : list (capture num)) :
  ∀ (m : list (list num)) med_power,
  has_shape n_rows n_cols m →
  Forall (λ c, has_shape n_rows n_cols (spectra c)) args →
  ∃ m' med_power',
    load np_median args (Some m) med_power = Ok (Some m', med_power')
    ∧ has_shape n_rows n_cols m'.
Proof.
  induction args as [|c args IH]; intros m med_power Hm Hargs.
  { by exists m, med_power. }
  apply Forall_cons in Hargs as [Hc Hargs]. cbn [load accumulate].
  destruct (np_iadd_has_shape _ _ m (spectra c) Hm Hc) as (m1 & -> & Hm1).
  cbn [mbind result_bind]. by apply IH.
Qed.

(** A batch of captures of one shape loads, and averages to that shape. *)
Lemma load_same_shape (n_rows n_cols : nat) (args : list (capture num)) :
  args ≠ [] →
  Forall (λ c, has_shape n_rows n_cols (spectra c)) args →
  ∃ m med_power spec,
    load np_median args None [] = Ok (Some m, med_power)
    ∧ average (Some m) (length args) = Ok spec
    ∧ has_shape n_rows n_cols spec.
Proof.
  intros Hne Hargs. destruct args as [|c args]; [done|].
  apply Forall_cons in Hargs as [Hc Hargs]. cbn [load accumulate].
  cbn [mbind result_bind].
  destruct (load_has_shape n_rows n_cols args
              (map (map (λ x, np_mul x (of_int 1))) (spectra c))
              ([] ++ [(day c, np_median (concat (spectra c)))]))
    as (m & med_power & Hload & Hm); [by apply has_shape_map|done|].
  exists m, med_power. eexists. split; [exact Hload|].
  split; [reflexivity|]. by apply has_shape_map.
Qed.

(** The median spectrum of an array is as long as its rows. *)
Lemma median_axis0_rows (n_rows n_cols : nat) (spec : list (list num)) :
  has_shape n_rows n_cols spec →
  Forall (λ row, length row = length (median_axis0 np_median spec)) spec.
Proof.
  intros [Hlen Hrows]. unfold median_axis0, shape. cbn [snd].
  rewrite length_map, length_seq.
  destruct spec as [|row spec]; [constructor|].
  cbn [head default from_option]. unfold Datatypes.id.
  apply Forall_cons in Hrows as Hrow. destruct Hrow as [-> _]. exact Hrows.
Qed.

Lemma write_lines_other_files (f g : string) (args : list (capture num))
    (idx : list nat) :
  f ≠ g → ∀ fs : files, (write_lines g args idx fs).1 !! f = fs !! f.
Proof.
  intros Hfg. induction idx as [|i idx IH]; intros fs; [done|].
  cbn [write_lines]. unfold mbind, io_bind, lift, fh_write.
  destruct (getitem args i) as [c|e]; [|done].
  cbn beta iota. rewrite IH. by apply lookup_alter_ne.
Qed.

Lemma trend_loop_other_files (f : string) (args : list (capture num))
    (med_power : list (Z * num)) (days : list Z) :
  f ≠ bad_captures_txt →
  ∀ fs : files,
    (trend_loop np_polyfit days args med_power fs).1 !! f = fs !! f.
Proof.
  intros Hf. induction days as [|mjd days IH]; intros fs; [done|].
  cbn [trend_loop]. unfold mbind, io_bind, lift, open_append.
  destruct (day_bad np_polyfit med_power mjd) as [bad|e]; [|done].
  cbn beta iota.
  pose proof (write_lines_other_files f bad_captures_txt args bad Hf
                (<[bad_captures_txt := default "" (fs !! bad_captures_txt)]> fs))
    as Hw.
  destruct (write_lines bad_captures_txt args bad _) as [fs1 [[]|e]];
    cbn [fst] in *.
  - rewrite IH, Hw. by apply lookup_insert_ne.
  - rewrite Hw. by apply lookup_insert_ne.
Qed.

Lemma capture_trend_flagger_other_files (f : string)
    (args : list (capture num)) (med_power : list (Z * num)) (fs : files) :
  f ≠ bad_captures_txt →
  (capture_trend_flagger np_polyfit args med_power fs).1 !! f = fs !! f.
Proof.
  intros Hf. unfold capture_trend_flagger, mbind, io_bind, os_remove, lift.
  destruct med_power as [|p med_power]; cbn beta iota.
  - by apply lookup_delete_ne.
  - unfold mret, io_ret. rewrite trend_loop_other_files by done.
    by apply lookup_delete_ne.
Qed.

Lemma write_flags_result (status : list Z) (fs : files) :
  write_flags status fs
  = (<[antenna_flags_txt :=
         flag_text (np_where (map (λ l, bool_decide (l ≠ 3)) status))]> fs,
     Ok ()).
Proof.
  unfold write_flags, mbind, io_bind, open_write. cbn beta iota.
  by rewrite flags_loop_spec.
Qed.

(** The loop over the pairs, whatever the number of channels. *)
Lemma pair_rule_outcome (status : list Z) :
  pair_rule status
  = if Nat.even (length status) then Ok (pairwise status)
    else Raise IndexError.
Proof.
  destruct (Nat.even (length status)) eqn:Heven.
  { by apply pair_rule_pairwise, Nat.even_spec. }
  assert (Hodd : Nat.Odd (length status)).
  { apply Nat.odd_spec. by rewrite <- Nat.negb_even, Heven. }
  destruct Hodd as [m Hm].
  unfold pair_rule. rewrite Hm, range_step2_odd, pair_loop_app.
  destruct (pair_loop_spec m 0 status) as (final & -> & Hlen & _); [lia|].
  cbn [mbind result_bind pair_loop].
  destruct (lookup_lt_is_Some_2 final (2 * m + 0)%nat) as [x Hx]; [lia|].
  rewrite (getitem_Some _ _ _ Hx). cbn [mbind result_bind].
  by rewrite (getitem_None final) by lia.
Qed.

(** The trend phase of a batch that loaded, when the fit of every day
    returns: bad_captures.txt is replaced by lines that name captures of
    the batch. *)
Lemma capture_trend_flagger_runs (args : list (capture num))
    (st : option (list (list num)) * list (Z * num)) (fs : files) :
  args ≠ [] →
  load np_median args None [] = Ok st →
  fits_every_day np_polyfit (map day args) (median_powers np_median args) →
  ∃ caps : list (capture num),
    capture_trend_flagger np_polyfit args st.2 fs
    = (<[bad_captures_txt := lines caps]> fs, Ok ())
    ∧ Forall (λ c, c ∈ args) caps.
Proof.
  intros Hne Hload Hfit.
  destruct (capture_trend_flagger_spec np_polyfit np_median args st fs
              Hne Hload Hfit)
    as (written & caps & Hrun & Hcaps & _).
  exists caps. split; [exact Hrun|].
  clear Hrun. induction Hcaps as [|i c written caps Hi _ IH]; constructor.
  - by eapply list_elem_of_lookup_2.
  - exact IH.
Qed.

(** A batch of captures of one shape, when the fit of every day returns:
    everything up to the pair rule runs, and [flag] gives one status per
    channel. *)
Lemma main_same_shape (n_rows n_cols : nat) (args : list (capture num))
    (fs : files) :
  args ≠ [] →
  Forall (λ c, has_shape n_rows n_cols (spectra c)) args →
  fits_every_day np_polyfit (map day args) (median_powers np_median args) →
  ∃ spec status caps,
    spectrum_averager np_median args = Ok spec
    ∧ flag np_log10 spec (median_axis0 np_median spec) default_chans = Ok status
    ∧ length status = n_rows
    ∧ Forall (λ x, x = GOOD ∨ x = BAD) status
    ∧ Forall (λ c, c ∈ args) caps
    ∧ main np_log10 np_polyfit np_median plots args fs
      = (final ← lift (pair_rule status);
         lift (plots spec (median_axis0 np_median spec) final);;
         write_flags final)
          (<[bad_captures_txt := lines caps]> fs).
Proof.
  intros Hne Hshape Hfit.
  destruct (load_same_shape n_rows n_cols args Hne Hshape)
    as (m & med_power & spec & Hload & Havg & Hspec).
  destruct (capture_trend_flagger_runs args _ fs Hne Hload Hfit)
    as (caps & Htrend & Hcaps).
  destruct (flag_spec np_log10 spec (median_axis0 np_median spec)
              default_chans.1 default_chans.2
              (median_axis0_rows n_rows n_cols spec Hspec))
    as (status & Hflag & Hlen & _).
  change (default_chans.1, default_chans.2) with default_chans in Hflag.
  exists spec, status, caps.
  split; [unfold spectrum_averager; by rewrite Hload|].
  split; [exact Hflag|].
  split; [rewrite Hlen; apply Hspec|].
  split; [by eapply flag_values|].
  split; [exact Hcaps|].
  unfold main. unfold mbind at 1, io_bind at 1, lift at 1. rewrite Hload.
  cbn beta iota. cbn [fst snd] in *.
  unfold mbind at 1, io_bind at 1. rewrite Htrend. cbn beta iota.
  unfold mbind at 1, io_bind at 1, lift at 1. rewrite Havg. cbn beta iota zeta.
  unfold mbind at 1, io_bind at 1, lift at 1. rewrite Hflag. done.
Qed.

Lemma partner_pair (k : nat) :
  partner (2 * k) = (2 * k + 1)%nat ∧ partner (2 * k + 1) = (2 * k)%nat.
Proof.
  unfold partner. rewrite Nat.even_even, Nat.even_odd. split; lia.
Qed.

(** X8: when all the captures of a batch have the same shape, with an even
    number of channels, and [np.polyfit] returns a line for every day, main
    runs up to the plots; when these are drawn it runs to its end, and
    antenna_flags.txt lists, in ascending order, exactly the channels that
    [flag] found BAD on the averaged spectra together with the other
    polarisation of each; when a plot raises, antenna_flags.txt is not
    written. *)
Theorem main_lists_bad_channels_and_partners (n_rows n_cols : nat)
    (args : list (capture num)) (fs : files) :
  args ≠ [] →
  Forall (λ c, has_shape n_rows n_cols (spectra c)) args →
  Nat.Even n_rows →
  fits_every_day np_polyfit (map day args) (median_powers np_median args) →
  ∃ spec status final (caps : list (capture num)) listed,
    spectrum_averager np_median args = Ok spec
    ∧ flag np_log10 spec (median_axis0 np_median spec) default_chans = Ok status
    ∧ pair_rule status = Ok final
    ∧ main np_log10 np_polyfit np_median plots args fs
      = match plots spec (median_axis0 np_median spec) final with
        | Ok _ => (<[antenna_flags_txt := flag_text listed]>
                     (<[bad_captures_txt := lines caps]> fs), Ok ())
        | Raise e => (<[bad_captures_txt := lines caps]> fs, Raise e)
        end
    ∧ StronglySorted lt listed
    ∧ ∀ i, i ∈ listed
           ↔ status !! i = Some BAD ∨ status !! partner i = Some BAD.
Proof.
  intros Hne Hshape Heven Hfit.
  destruct (main_same_shape n_rows n_cols args fs Hne Hshape Hfit)
    as (spec & status & caps & Havg & Hflag & Hlen & Hvalues & _ & Hmain).
  assert (Hpair : pair_rule status = Ok (pairwise status)).
  { rewrite pair_rule_outcome, Hlen.
    apply Nat.even_spec in Heven. by rewrite Heven. }
  exists spec, status, (pairwise status), caps,
    (np_where (map (λ l, bool_decide (l ≠ 3)) (pairwise status))).
  split; [exact Havg|]. split; [exact Hflag|]. split; [exact Hpair|].
  split; [|split; [apply np_where_sorted|]].
  { rewrite Hmain, Hpair.
    unfold mbind, io_bind, lift. cbn beta iota.
    destruct (plots spec (median_axis0 np_median spec) (pairwise status))
      as [[]|e]; [|done].
    apply write_flags_result. }
  intros i. rewrite elem_of_np_where, list_lookup_fmap.
  assert (Hk : ∃ k, (i = 2 * k ∨ i = 2 * k + 1)%nat).
  { exists (i / 2)%nat. pose proof (Nat.div_mod_eq i 2).
    pose proof (Nat.mod_upper_bound i 2). lia. }
  destruct Hk as [k Hk]. destruct Heven as [m Hm].
  destruct (decide (k < m)%nat) as [Hkm|Hkm].
  - destruct (lookup_lt_is_Some_2 status (2 * k)%nat) as [x Hx]; [lia|].
    destruct (lookup_lt_is_Some_2 status (2 * k + 1)%nat) as [y Hy]; [lia|].
    destruct (pairwise_lookup k status x y Hx Hy) as [Hpx Hpy].
    destruct (partner_pair k) as [Hp0 Hp1].
    assert (Hxv : x = GOOD ∨ x = BAD).
    { eapply Forall_forall in Hvalues; [exact Hvalues|].
      by eapply list_elem_of_lookup_2. }
    assert (Hyv : y = GOOD ∨ y = BAD).
    { eapply Forall_forall in Hvalues; [exact Hvalues|].
      by eapply list_elem_of_lookup_2. }
    destruct Hk as [-> | ->].
    + rewrite Hpx, Hp0, Hx, Hy. cbn [fmap option_fmap option_map].
      destruct Hxv as [-> | ->], Hyv as [-> | ->]; vm_compute;
        split; intros Hi; try done; try (by left); try (by right);
        destruct Hi as [Hi|Hi]; done.
    + rewrite Hpy, Hp1, Hx, Hy. cbn [fmap option_fmap option_map].
      destruct Hxv as [-> | ->], Hyv as [-> | ->]; vm_compute;
        split; intros Hi; try done; try (by left); try (by right);
        destruct Hi as [Hi|Hi]; done.
  - assert (Hout : ∀ j, (2 * k ≤ j)%nat → status !! j = None).
    { intros j Hj. apply lookup_ge_None_2. lia. }
    assert (Hpout : pairwise status !! i = None).
    { apply lookup_ge_None_2. rewrite pairwise_length. lia. }
    rewrite Hpout. destruct (partner_pair k) as [Hp0 Hp1].
    destruct Hk as [-> | ->].
    + rewrite Hp0, !Hout by lia. split; [done|by intros [?|?]].
    + rewrite Hp1, !Hout by lia. split; [done|by intros [?|?]].
Qed.

(** X9: when all the captures of a batch have the same shape, with an odd
    number of channels, and [np.polyfit] returns a line for every day, main
    raises IndexError in the loop over the pairs: bad_captures.txt has been
    replaced by then, with lines that name captures of the batch, and no
    other file is touched, so antenna_flags.txt is not written. *)
Theorem main_odd_channels (n_rows n_cols : nat)
    (args : list (capture num)) (fs : files) :
  args ≠ [] →
  Forall (λ c, has_shape n_rows n_cols (spectra c)) args →
  Nat.Odd n_rows →
  fits_every_day np_polyfit (map day args) (median_powers np_median args) →
  ∃ caps,
    main np_log10 np_polyfit np_median plots args fs
    = (<[bad_captures_txt := lines caps]> fs, Raise IndexError)
    ∧ Forall (λ c, c ∈ args) caps.
Proof.
  intros Hne Hshape Hodd Hfit.
  destruct (main_same_shape n_rows n_cols args fs Hne Hshape Hfit)
    as (spec & status & caps & _ & _ & Hlen & _ & Hcaps & Hmain).
  exists caps. split; [|exact Hcaps].
  rewrite Hmain, pair_rule_outcome, Hlen.
  apply Nat.odd_spec in Hodd. rewrite <- Nat.negb_odd, Hodd. done.
Qed.

(** X10: whatever the captures and however the run ends, main changes no
    file other than bad_captures.txt and antenna_flags.txt; and a run that
    raises leaves antenna_flags.txt as it was. *)
Theorem main_touches_only_its_outputs (args : list (capture num))
    (fs : files) :
  (∀ f, f ≠ bad_captures_txt → f ≠ antenna_flags_txt →
        (main np_log10 np_polyfit np_median plots args fs).1 !! f = fs !! f)
  ∧ (∀ e, (main np_log10 np_polyfit np_median plots args fs).2 = Raise e →
          (main np_log10 np_polyfit np_median plots args fs).1
            !! antenna_flags_txt
          = fs !! antenna_flags_txt).
Proof.
  assert (Hne : antenna_flags_txt ≠ bad_captures_txt) by done.
  unfold main, mbind, io_bind, lift.
  destruct (load np_median args None []) as [st|e0]; [|done].
  cbn beta iota.
  pose proof (λ f, capture_trend_flagger_other_files f args st.2 fs)
    as Htrend.
  destruct (capture_trend_flagger np_polyfit args st.2 fs) as [fs1 [[]|e1]];
    cbn [fst snd] in *; [|split; intros; by apply Htrend].
  destruct (average st.1 (length args)) as [spec|e2];
    cbn [fst snd]; [|split; intros; by apply Htrend].
  destruct (flag np_log10 spec (median_axis0 np_median spec) default_chans)
    as [status|e3]; cbn [fst snd]; [|split; intros; by apply Htrend].
  destruct (pair_rule status) as [final|e4];
    cbn [fst snd]; [|split; intros; by apply Htrend].
  destruct (plots spec (median_axis0 np_median spec) final) as [[]|e5];
    cbn [fst snd]; [|split; intros; by apply Htrend].
  rewrite write_flags_result. cbn [fst snd]. split; [|done].
  intros f Hbad Hflags. rewrite lookup_insert_ne by done. by apply Htrend.
Qed.

End MainProperties.

(** *** A batch with a loud channel *)

Lemma median_of_loud_column :
  median_of [Fin 1; Fin 1; Fin 100; Fin 1] = Fin 1.
Proof.
  unfold median_of. cbn [foldr insert_sorted np_gt xreal_ops xgt].
  repeat (xdecide; cbn [foldr insert_sorted np_gt xreal_ops xgt]).
  cbn [length Nat.even Nat.div Nat.divmod fst Nat.sub drop take].
  xeval. xfin.
Qed.

Lemma map_seq_constant {A} (f : nat → A) (v : A) (n : nat) : ∀ o,
  (∀ b, (o ≤ b < o + n)%nat → f b = v) → map f (seq o n) = replicate n v.
Proof.
  induction n as [|n IH]; intros o Hf; [done|].
  cbn [seq map replicate]. rewrite (Hf o) by lia. f_equal.
  apply IH. intros b Hb. apply Hf. lia.
Qed.

Lemma median_axis0_loud : median_axis0 median_of loud_spectra = quiet_row.
Proof.
  unfold median_axis0.
  change (shape loud_spectra).2 with (length quiet_row).
  unfold quiet_row at 1. rewrite length_replicate.
  apply map_seq_constant. intros b Hb.
  unfold column, loud_spectra, quiet_row, loud_row.
  cbn [omap list_omap]. rewrite !lookup_replicate_2 by lia.
  apply median_of_loud_column.
Qed.

Lemma has_shape_loud : has_shape 4 3552 loud_spectra.
Proof.
  split; [reflexivity|]. unfold loud_spectra, quiet_row, loud_row.
  repeat constructor; apply length_replicate.
Qed.

(** The average of copies of finite or special values, in exact
    arithmetic. *)
Lemma spectrum_averager_copies (np_median : list xreal → xreal)
    (m : list (list xreal)) (args : list (capture xreal)) :
  args ≠ [] → Forall (λ c, spectra c = m) args →
  spectrum_averager np_median args = Ok m.
Proof.
  intros Hne Hall. rewrite (spectrum_averager_identical np_median m) by done.
  destruct args as [|c args]; [done|].
  cbn [length]. rewrite Nat.sub_succ, Nat.sub_0_r.
  by rewrite xreal_mean_of_copies_matrix.
Qed.

Lemma main_lists_bad_channels_and_partners_witness :
  [capture_loud_a; capture_loud_b] ≠ []
  ∧ Forall (λ c, has_shape 4 3552 (spectra c)) [capture_loud_a; capture_loud_b]
  ∧ Nat.Even 4
  ∧ fits_every_day lstsq_line (map day [capture_loud_a; capture_loud_b])
      (median_powers median_of [capture_loud_a; capture_loud_b])
  ∧ spectrum_averager median_of [capture_loud_a; capture_loud_b]
    = Ok loud_spectra
  ∧ flag xlog10 loud_spectra (median_axis0 median_of loud_spectra)
      default_chans
    = Ok [GOOD; GOOD; BAD; GOOD]
  ∧ pair_rule [GOOD; GOOD; BAD; GOOD] = Ok [GOOD; GOOD; BAD; SUSPECT]
  ∧ ∃ (caps : list (capture xreal)) listed,
      main xlog10 lstsq_line median_of plots_drawn
        [capture_loud_a; capture_loud_b] ∅
      = (<[antenna_flags_txt := flag_text listed]>
           (<[bad_captures_txt := lines caps]> ∅), Ok ())
      ∧ StronglySorted lt listed
      ∧ (2 ∈ listed ∧ 3 ∈ listed)%nat.
Proof.
  assert (Hne : [capture_loud_a; capture_loud_b] ≠ []) by discriminate.
  assert (Hshape : Forall (λ c, has_shape 4 3552 (spectra c))
                          [capture_loud_a; capture_loud_b])
    by (repeat constructor; exact has_shape_loud).
  assert (Heven : Nat.Even 4) by (exists 2%nat; reflexivity).
  assert (Hfit : fits_every_day lstsq_line
                   (map day [capture_loud_a; capture_loud_b])
                   (median_powers median_of [capture_loud_a; capture_loud_b])).
  { apply fits_every_day_lstsq. reflexivity. }
  assert (Havg : spectrum_averager median_of [capture_loud_a; capture_loud_b]
                 = Ok loud_spectra).
  { apply spectrum_averager_copies; [done|]. by repeat constructor. }
  assert (Hflag : flag xlog10 loud_spectra (median_axis0 median_of loud_spectra)
                    default_chans = Ok [GOOD; GOOD; BAD; GOOD]).
  { rewrite median_axis0_loud. exact flag_loud_spectra. }
  assert (Hpair : pair_rule [GOOD; GOOD; BAD; GOOD]
                  = Ok [GOOD; GOOD; BAD; SUSPECT]) by reflexivity.
  split; [exact Hne|]. split; [exact Hshape|]. split; [exact Heven|].
  split; [exact Hfit|]. split; [exact Havg|]. split; [exact Hflag|].
  split; [exact Hpair|].
  destruct (main_lists_bad_channels_and_partners xlog10 lstsq_line median_of
              plots_drawn 4 3552 [capture_loud_a; capture_loud_b] ∅
              Hne Hshape Heven Hfit)
    as (spec & status & final & caps & listed
        & Havg' & Hflag' & _ & Hmain & Hsorted & Hlisted).
  rewrite Havg in Havg'. injection Havg' as <-.
  rewrite Hflag in Hflag'. injection Hflag' as <-.
  exists caps, listed. split; [exact Hmain|]. split; [exact Hsorted|].
  split; apply Hlisted; [by left|by right].
Defined.

Lemma main_odd_channels_witness :
  [capture_1x3_a; capture_1x3_b] ≠ []
  ∧ Forall (λ c, has_shape 1 3 (spectra c)) [capture_1x3_a; capture_1x3_b]
  ∧ Nat.Odd 1
  ∧ fits_every_day lstsq_line (map day [capture_1x3_a; capture_1x3_b])
      (median_powers median_of [capture_1x3_a; capture_1x3_b])
  ∧ ∃ caps,
      main xlog10 lstsq_line median_of plots_drawn
        [capture_1x3_a; capture_1x3_b] ∅
      = (<[bad_captures_txt := lines caps]> ∅, Raise IndexError)
      ∧ Forall (λ c, c ∈ [capture_1x3_a; capture_1x3_b]) caps.
Proof.
  assert (Hne : [capture_1x3_a; capture_1x3_b] ≠ []) by discriminate.
  assert (Hshape : Forall (λ c, has_shape 1 3 (spectra c))
                          [capture_1x3_a; capture_1x3_b])
    by (repeat constructor).
  assert (Hodd : Nat.Odd 1) by (exists 0%nat; reflexivity).
  assert (Hfit : fits_every_day lstsq_line
                   (map day [capture_1x3_a; capture_1x3_b])
                   (median_powers median_of [capture_1x3_a; capture_1x3_b])).
  { apply fits_every_day_lstsq. reflexivity. }
  split; [exact Hne|]. split; [exact Hshape|]. split; [exact Hodd|].
  split; [exact Hfit|].
  exact (main_odd_channels xlog10 lstsq_line median_of plots_drawn
           1 3 [capture_1x3_a; capture_1x3_b] ∅ Hne Hshape Hodd Hfit).
Defined.

(** ** The list of files (lines 51-57) *)

Section FileList.
Context {num : Type}.

Lemma split_newline_line (p rest : string) :
  newline_free p →
  split_newline ((p +:+ newline) +:+ rest) = p :: split_newline rest.
Proof.
  induction p as [|c p IH]; intros Hp; [reflexivity|].
  destruct Hp as [Hc Hp].
  change (split_newline (String c ((p +:+ newline) +:+ rest))
          = String c p :: split_newline rest).
  cbn [split_newline]. apply Ascii.eqb_neq in Hc. rewrite Hc.
  by rewrite IH.
Qed.

Lemma split_newline_lines (caps : list (capture num)) :
  Forall (λ c, newline_free (path c)) caps →
  split_newline (lines caps) = map path caps ++ [""].
Proof.
  induction caps as [|c caps IH]; intros Hcaps; [reflexivity|].
  apply Forall_cons in Hcaps as [Hc Hcaps].
  rewrite lines_cons, split_newline_line by done.
  cbn [map app]. by rewrite IH.
Qed.

(** X12: a list of files in the format of bad_captures.txt, one path per
    line with a newline after each, is read back as exactly these paths when
    it is named as the first argument and its name ends in [.txt]; the
    arguments after it are ignored. *)
Theorem expand_args_reads_lines (read : string → string) (name : string)
    (rest : list string) (caps : list (capture num)) :
  last4 name = ".txt" →
  read name = lines caps →
  Forall (λ c, newline_free (path c)) caps →
  expand_args read (name :: rest) = Ok (map path caps).
Proof.
  intros Hname Hread Hcaps. unfold expand_args.
  cbn [getitem lookup list_lookup mbind result_bind].
  rewrite bool_decide_eq_true_2 by done.
  cbn zeta. rewrite Hread, split_newline_lines by done.
  rewrite last_snoc, bool_decide_eq_true_2 by done.
  by rewrite removelast_last.
Qed.

End FileList.

(** X11: main without a capture.  Called without arguments, main raises
    IndexError at [args[0]] and touches no file.  Given a file list that is
    empty, it has no capture to load: it removes bad_captures.txt and then
    raises IndexError on the day column of the empty array of powers, so
    nothing is written. *)
Theorem main_argv_without_captures {num : Type} `{NumOps num}
    (np_log10 : num → num)
    (np_polyfit : list num → list num → result (list num))
    (np_median : list num → num)
    (plots : list (list num) → list num → list Z → result unit)
    (read : string → string)
    (np_load : string → capture num) (fs : files) :
  main_argv np_log10 np_polyfit np_median plots read np_load [] fs
  = (fs, Raise IndexError)
  ∧ ∀ name rest,
      last4 name = ".txt" → read name = "" →
      main_argv np_log10 np_polyfit np_median plots read np_load
        (name :: rest) fs
      = (delete bad_captures_txt fs, Raise IndexError).
Proof.
  split; [reflexivity|]. intros name rest Hname Hread.
  assert (Hargs : expand_args read (name :: rest) = Ok []).
  { unfold expand_args. cbn [getitem lookup list_lookup mbind result_bind].
    rewrite bool_decide_eq_true_2 by done. cbn zeta. by rewrite Hread. }
  unfold main_argv, mbind at 1, io_bind at 1, lift at 1. by rewrite Hargs.
Qed.

Lemma expand_args_reads_lines_witness :
  last4 "bad_captures.txt" = ".txt"
  ∧ lines [capture_day_1; capture_day_0]
    = lines [capture_day_1; capture_day_0]
  ∧ Forall (λ c : capture xreal, newline_free (path c))
           [capture_day_1; capture_day_0]
  ∧ expand_args (λ _, lines [capture_day_1; capture_day_0])
                ["bad_captures.txt"; "ignored.npz"]
    = Ok (map path [capture_day_1; capture_day_0]).
Proof.
  assert (Hname : last4 "bad_captures.txt" = ".txt") by reflexivity.
  assert (Hfree : Forall (λ c : capture xreal, newline_free (path c))
                         [capture_day_1; capture_day_0]).
  { repeat constructor; discriminate. }
  split; [exact Hname|]. split; [reflexivity|]. split; [exact Hfree|].
  exact (expand_args_reads_lines
           (λ _, lines [capture_day_1; capture_day_0])
           "bad_captures.txt" ["ignored.npz"]
           [capture_day_1; capture_day_0] Hname eq_refl Hfree).
Defined.

(** ** Three standard deviations and the size of a day-group *)

Section Samuelson.
Local Open Scope R_scope.

Lemma Rsum_cons (x : R) (l : list R) : Rsum (x :: l) = x + Rsum l.
Proof. reflexivity. Qed.

Lemma Rsum_shifted_squares (t : R) (l : list R) :
  Rsum (map (λ x, (x - t) * (x - t)) l)
  = Rsum (map (λ x, x * x) l) - 2 * t * Rsum l + INR (length l) * (t * t).
Proof.
  induction l as [|x l IH].
  { cbn. lra. }
  cbn [map length]. rewrite !Rsum_cons, S_INR, IH. ring.
Qed.

Lemma Rsum_centred (c : R) (l : list R) :
  Rsum (map (λ x, x - c) l) = Rsum l - INR (length l) * c.
Proof.
  induction l as [|x l IH].
  { cbn. lra. }
  cbn [map length]. rewrite !Rsum_cons, S_INR, IH. ring.
Qed.

Lemma Rsum_nonneg (l : list R) : Forall (λ y, 0 <= y) l → 0 <= Rsum l.
Proof.
  induction 1 as [|y l Hy _ IH]; [cbn; lra|]. rewrite Rsum_cons. lra.
Qed.

Lemma Rsum_elem_le (l : list R) (x : R) :
  Forall (λ y, 0 <= y) l → x ∈ l → x <= Rsum l.
Proof.
  intros Hl Hx. induction Hl as [|y l Hy Hl IH].
  { by apply elem_of_nil in Hx. }
  rewrite Rsum_cons. apply elem_of_cons in Hx as [->|Hx].
  - pose proof (Rsum_nonneg l Hl). lra.
  - specialize (IH Hx). lra.
Qed.

(** Samuelson's inequality, for at most ten values that sum to zero: none
    is further than three root mean squares from zero. *)
Lemma samuelson_ten (d : list R) (x : R) :
  x ∈ d → Rsum d = 0 → (length d ≤ 10)%nat →
  INR (length d) * (x * x) <= 9 * Rsum (map (λ y, y * y) d).
Proof.
  intros Hx Hsum Hlen.
  assert (Hterm : (x - - x / 9) * (x - - x / 9)
                  <= Rsum (map (λ y, (y - - x / 9) * (y - - x / 9)) d)).
  { apply Rsum_elem_le.
    - apply Forall_map, Forall_forall. intros y _. cbn beta.
      apply Rle_0_sqr.
    - apply (list_elem_of_fmap_2 (λ y, (y - - x / 9) * (y - - x / 9))), Hx. }
  rewrite Rsum_shifted_squares, Hsum in Hterm.
  assert (Hn : INR (length d) <= 10).
  { apply le_INR in Hlen. cbn in Hlen. lra. }
  pose proof (Rle_0_sqr x) as Hsq. unfold Rsqr in Hsq.
  assert (Hslack : 0 <= (10 - INR (length d)) * (x * x)).
  { apply Rmult_le_pos; lra. }
  set (n := INR (length d)) in *.
  set (q := Rsum (map (λ y, y * y) d)) in *.
  assert (Hterm' : 100 * (x * x) <= 81 * q + n * (x * x)).
  { replace ((x - - x / 9) * (x - - x / 9)) with (100 * (x * x) / 81)
      in Hterm by field.
    replace (q - 2 * (- x / 9) * 0 + n * (- x / 9 * (- x / 9)))
      with (q + n * (x * x) / 81) in Hterm by field.
    lra. }
  lra.
Qed.

Lemma fold_xadd_fin (rs : list R) : ∀ a : R,
  fold_left xadd (map Fin rs) (Fin a) = Fin (a + Rsum rs).
Proof.
  induction rs as [|r rs IH]; intros a.
  { cbn. f_equal. lra. }
  cbn [map fold_left xadd]. rewrite IH, Rsum_cons. f_equal. lra.
Qed.

Lemma np_mean_fin (rs : list R) :
  rs ≠ [] → np_mean (map Fin rs) = Fin (Rsum rs / INR (length rs)).
Proof.
  intros Hne. unfold np_mean, np_sum.
  cbn [np_div np_add of_int xreal_ops]. rewrite fold_xadd_fin, length_map.
  rewrite <- INR_IZR_INZ. cbn [xdiv].
  rewrite decide_False.
  - f_equal. lra.
  - apply not_0_INR. by destruct rs.
Qed.

Lemma np_std_fin (rs : list R) :
  rs ≠ [] →
  np_std (map Fin rs)
  = Fin (R_sqrt.sqrt
           (Rsum (map (λ y, y * y)
                    (map (λ r, r - Rsum rs / INR (length rs)) rs))
            / INR (length rs))).
Proof.
  intros Hne. unfold np_std. cbn zeta. rewrite np_mean_fin by done.
  set (mu := Rsum rs / INR (length rs)).
  assert (Hsq : map (λ x : xreal, np_mul (np_sub x (Fin mu)) (np_sub x (Fin mu)))
                    (map Fin rs)
                = map Fin (map (λ y, y * y) (map (λ r, r - mu) rs))).
  { rewrite !map_map. apply map_ext. intros r. cbn. f_equal. }
  rewrite Hsq, np_mean_fin, !length_map by (by destruct rs).
  cbn [np_sqrt xreal_ops xsqrt].
  rewrite bool_decide_eq_false_2; [done|].
  apply Rle_not_lt. apply Rmult_le_pos.
  - apply Rsum_nonneg, Forall_map, Forall_forall. intros y _. cbn beta.
    apply Rle_0_sqr.
  - apply Rlt_le, Rinv_0_lt_compat, lt_0_INR. destruct rs; [done|cbn; lia].
Qed.

Lemma all_fin (e : list xreal) : Forall is_fin e → ∃ rs, e = map Fin rs.
Proof.
  induction 1 as [|x e Hx _ [rs ->]]; [by exists []|].
  destruct x as [r| | |]; try done. by exists (r :: rs).
Qed.

Lemma xadd_not_fin_r (z x : xreal) : ¬ is_fin x → ¬ is_fin (xadd z x).
Proof. by destruct z, x. Qed.

Lemma fold_xadd_absorbs (l : list xreal) :
  Exists (λ x, ¬ is_fin x) l → ∀ z, ¬ is_fin (fold_left xadd l z).
Proof.
  induction 1 as [x l Hx|x l _ IH]; intros z; cbn [fold_left].
  - by apply fold_xadd_not_fin, xadd_not_fin_r.
  - apply IH.
Qed.

Lemma np_mean_not_fin (l : list xreal) :
  Exists (λ x, ¬ is_fin x) l → ¬ is_fin (np_mean l).
Proof.
  intros Hl. unfold np_mean, np_sum.
  pose proof (fold_xadd_absorbs l Hl (of_int 0)) as Hsum.
  cbn [np_div np_add of_int xreal_ops] in *.
  destruct (fold_left xadd l (Fin 0)) as [r| | |]; cbn [xdiv is_fin] in *;
    try tauto; unfold xsigned; by repeat case_bool_decide.
Qed.

Lemma np_std_not_fin (l : list xreal) :
  Exists (λ x, ¬ is_fin x) l → ¬ is_fin (np_std l).
Proof.
  intros Hl. unfold np_std. cbn zeta.
  pose proof (np_mean_not_fin l Hl) as Hmean.
  set (m := np_mean l) in *.
  assert (Hsq : Exists (λ x, ¬ is_fin x)
                  (map (λ x : xreal, np_mul (np_sub x m) (np_sub x m)) l)).
  { apply Exists_exists in Hl as (x & Hx & _).
    apply Exists_exists. eexists. split.
    - apply (list_elem_of_fmap_2 _ _ _ Hx).
    - destruct x, m; cbn in *; tauto. }
  apply np_mean_not_fin in Hsq.
  revert Hsq.
  generalize (np_mean (map (λ x : xreal, np_mul (np_sub x m) (np_sub x m)) l)).
  intros [r| | |]; cbn; tauto.
Qed.

Lemma quotient_by_not_fin (a s : xreal) :
  ¬ is_fin s → np_gt (np_div a s) (of_int 3) = false.
Proof.
  intros Hs. destruct a, s; cbn in *; try tauto; try done;
    apply bool_decide_eq_false_2; lra.
Qed.

(** The outlier test on at most ten values: no value is more than three
    standard deviations from the mean. *)
Lemma three_sigma_needs_eleven (e : list xreal) (r : xreal) :
  (length e ≤ 10)%nat → r ∈ e →
  np_gt (np_div (np_abs (np_sub r (np_mean e))) (np_std e)) (of_int 3) = false.
Proof.
  intros Hlen Hr.
  destruct (Forall_Exists_dec is_fin (λ x, ¬ is_fin x)
              (λ x, match x with
                    | Fin _ => left I
                    | _ => right (λ H : False, H)
                    end) e) as [Hfin|Hnot].
  2: { by apply quotient_by_not_fin, np_std_not_fin. }
  destruct (all_fin e Hfin) as [rs ->].
  apply list_elem_of_fmap in Hr as (x & -> & Hx).
  rewrite length_map in Hlen.
  assert (Hne : rs ≠ []) by (intros ->; by apply elem_of_nil in Hx).
  rewrite np_mean_fin, np_std_fin by done.
  set (mu := Rsum rs / INR (length rs)).
  set (d := map (λ r, r - mu) rs).
  assert (Hpos : 0 < INR (length rs)).
  { apply lt_0_INR. destruct rs; [done|cbn; lia]. }
  assert (Hzero : Rsum d = 0).
  { unfold d, mu. rewrite Rsum_centred. field. lra. }
  assert (Hd : x - mu ∈ d).
  { apply (list_elem_of_fmap_2 (λ r, r - mu)), Hx. }
  assert (Hdlen : length d = length rs) by apply length_map.
  pose proof (samuelson_ten d (x - mu) Hd Hzero) as Hsam.
  rewrite Hdlen in Hsam. specialize (Hsam Hlen).
  set (q := Rsum (map (λ y, y * y) d)) in *.
  assert (Hq : 0 <= q).
  { apply Rsum_nonneg, Forall_map, Forall_forall. intros y _. cbn beta.
    apply Rle_0_sqr. }
  set (n := INR (length rs)) in *.
  assert (Hv : 0 <= q / n).
  { apply Rmult_le_pos; [done|]. by apply Rlt_le, Rinv_0_lt_compat. }
  assert (Hbound : (x - mu) * (x - mu) <= 9 * (q / n)).
  { apply (Rmult_le_reg_l n); [done|].
    replace (n * (9 * (q / n))) with (9 * q) by (field; lra). exact Hsam. }
  pose proof (sqrt_pos (q / n)) as Hs.
  pose proof (sqrt_sqrt (q / n) Hv) as Hss.
  set (s := R_sqrt.sqrt (q / n)) in *.
  pose proof (Rabs_pos (x - mu)) as Ha.
  assert (Haa : Rabs (x - mu) * Rabs (x - mu) = (x - mu) * (x - mu)).
  { pose proof (Rsqr_abs (x - mu)) as Hsq. unfold Rsqr in Hsq. lra. }
  cbn [np_gt np_div np_abs np_sub of_int xreal_ops xadd xneg xabs xdiv].
  replace (x + - mu) with (x - mu) by lra.
  set (a := Rabs (x - mu)) in *.
  destruct (decide (s = 0)) as [Hs0|Hs0].
  - assert (Ha0 : a = 0) by nra.
    rewrite decide_True by done. done.
  - cbn [xgt]. apply bool_decide_eq_false_2. apply Rle_not_lt.
    apply (Rmult_le_reg_r s); [lra|].
    replace (a / s * s) with a by (field; lra).
    nra.
Qed.

(** X13: in exact arithmetic, and whatever line [np.polyfit] returns, a day
    with at most ten captures has no flagged capture: a residual more than
    three population standard deviations from the mean needs eleven
    values. *)
Theorem few_captures_never_flagged (run_fit y : list xreal) :
  (length y ≤ 10)%nat → trend_bad run_fit y = [].
Proof.
  intros Hlen. unfold trend_bad, trend_quotients.
  apply np_where_none, Forall_map, Forall_map, Forall_forall.
  intros r Hr. cbn beta. unfold run_mean, run_std.
  apply three_sigma_needs_eleven; [|done].
  by rewrite length_detrend.
Qed.

End Samuelson.

Lemma few_captures_never_flagged_witness :
  (length y_example ≤ 10)%nat
  ∧ lstsq_line (arange 5) y_example = Ok [Fin 18; Fin (-8)]
  ∧ trend_bad [Fin 18; Fin (-8)] y_example = [].
Proof.
  assert (Hlen : (length y_example ≤ 10)%nat) by (cbn; lia).
  split; [exact Hlen|]. split; [exact lstsq_line_example|].
  exact (few_captures_never_flagged [Fin 18; Fin (-8)] y_example Hlen).
Defined.

Section SmallDays.
Variable np_log10 : xreal → xreal.
Variable np_polyfit : list xreal → list xreal → result (list xreal).
Variable np_median : list xreal → xreal.
Variable plots : list (list xreal) → list xreal → list Z → result unit.

(** A day with at most ten captures: when the fit returns, there is
    nothing to write. *)
Lemma day_bad_small (med_power : list (Z * xreal)) (mjd : Z) (idx : list nat) :
  (length (day_group (map fst med_power) mjd) ≤ 10)%nat →
  day_bad np_polyfit med_power mjd = Ok idx → idx = [].
Proof.
  intros Hsmall. unfold day_bad, day_outliers. cbn zeta.
  destruct (fancy_spec (map snd med_power) (day_valid med_power mjd))
    as (y & Hy & Hyall).
  { apply Forall_forall. intros i Hi. apply np_where_bound in Hi.
    by rewrite !length_map in *. }
  rewrite Hy. cbn [mbind result_bind].
  destruct (np_polyfit (arange (length y)) y) as [run_fit|e]; [|done].
  cbn [mbind result_bind].
  assert (Hnone : trend_bad run_fit y = []).
  { unfold trend_bad, trend_quotients.
    apply np_where_none, Forall_map, Forall_map, Forall_forall.
    intros r Hr. cbn beta. unfold run_mean, run_std.
    apply three_sigma_needs_eleven; [|done].
    rewrite length_detrend. apply Forall2_length in Hyall.
    by rewrite <- Hyall, day_valid_group. }
  rewrite Hnone. by intros [= <-].
Qed.

(** Over days that flag nothing the loop leaves bad_captures.txt without a
    line, wherever it stops. *)
Lemma trend_loop_small (args : list (capture xreal))
    (med_power : list (Z * xreal)) (days : list Z) :
  (∀ mjd idx, day_bad np_polyfit med_power mjd = Ok idx → idx = []) →
  ∀ fs : files,
    fs !! bad_captures_txt = None ∨ fs !! bad_captures_txt = Some "" →
    (trend_loop np_polyfit days args med_power fs).1 !! bad_captures_txt = None
    ∨ (trend_loop np_polyfit days args med_power fs).1 !! bad_captures_txt
      = Some "".
Proof.
  intros Hbad. induction days as [|mjd days IH]; intros fs Hfs; [done|].
  cbn [trend_loop]. unfold mbind, io_bind, lift, open_append.
  destruct (day_bad np_polyfit med_power mjd) as [idx|e] eqn:Hday; [|done].
  rewrite (Hbad mjd idx Hday). cbn beta iota. cbn [write_lines].
  unfold mret, io_ret. apply IH. right. rewrite lookup_insert_eq.
  by destruct Hfs as [-> | ->].
Qed.

(** What main leaves in bad_captures.txt is what the trend phase leaves. *)
Lemma main_bad_captures (args : list (capture xreal))
    (st : option (list (list xreal)) * list (Z * xreal)) (fs : files) :
  load np_median args None [] = Ok st →
  (main np_log10 np_polyfit np_median plots args fs).1 !! bad_captures_txt
  = (capture_trend_flagger np_polyfit args st.2 fs).1 !! bad_captures_txt.
Proof.
  intros Hload.
  assert (Hne : bad_captures_txt ≠ antenna_flags_txt) by done.
  unfold main, mbind, io_bind, lift. rewrite Hload. cbn beta iota.
  destruct (capture_trend_flagger np_polyfit args st.2 fs) as [fs1 [[]|e1]];
    cbn [fst snd]; [|done].
  destruct (average st.1 (length args)) as [spec|e2]; cbn [fst snd]; [|done].
  destruct (flag np_log10 spec (median_axis0 np_median spec) default_chans)
    as [status|e3]; cbn [fst snd]; [|done].
  destruct (pair_rule status) as [final|e4]; cbn [fst snd]; [|done].
  destruct (plots spec (median_axis0 np_median spec) final) as [[]|e5];
    cbn [fst snd]; [|done].
  rewrite write_flags_result. cbn [fst snd]. by rewrite lookup_insert_ne.
Qed.

(** X14: in exact arithmetic, when no day has more than ten captures, a run
    whose captures load leaves bad_captures.txt without a line, whatever it
    held before and however the run ends: the file is absent when the fit
    of the first day raises, and empty otherwise; it is there and empty
    when [np.polyfit] returns a line for every day. *)
Theorem no_bad_capture_without_eleven_a_day (args : list (capture xreal))
    (st : option (list (list xreal)) * list (Z * xreal)) (fs : files) :
  args ≠ [] →
  load np_median args None [] = Ok st →
  (∀ d, (length (day_group (map day args) d) ≤ 10)%nat) →
  ((main np_log10 np_polyfit np_median plots args fs).1 !! bad_captures_txt
   = None
   ∨ (main np_log10 np_polyfit np_median plots args fs).1 !! bad_captures_txt
     = Some "")
  ∧ (fits_every_day np_polyfit (map day args) (median_powers np_median args) →
     (main np_log10 np_polyfit np_median plots args fs).1 !! bad_captures_txt
     = Some "").
Proof.
  intros Hne Hload Hsmall.
  rewrite (main_bad_captures args st fs Hload).
  destruct (load_powers np_median args st Hload) as [Hdays _].
  assert (Hbad : ∀ mjd idx, day_bad np_polyfit st.2 mjd = Ok idx → idx = []).
  { intros mjd idx. apply day_bad_small. rewrite Hdays. apply Hsmall. }
  assert (Hlines : (capture_trend_flagger np_polyfit args st.2 fs).1
                     !! bad_captures_txt = None
                   ∨ (capture_trend_flagger np_polyfit args st.2 fs).1
                       !! bad_captures_txt = Some "").
  { unfold capture_trend_flagger, mbind, io_bind, os_remove, lift, mret, io_ret.
    destruct st as [mean_spec [|p med_power]]; cbn [snd] in *.
    { left. apply lookup_delete_eq. }
    cbn beta iota. apply trend_loop_small; [exact Hbad|].
    left. apply lookup_delete_eq. }
  split; [exact Hlines|]. intros Hfit.
  destruct (capture_trend_flagger_spec np_polyfit np_median args st fs
              Hne Hload Hfit) as (written & caps & Hrun & _).
  rewrite Hrun in Hlines. rewrite Hrun. cbn [fst] in *.
  rewrite lookup_insert_eq in Hlines. rewrite lookup_insert_eq.
  by destruct Hlines as [?|?].
Qed.

End SmallDays.

Lemma no_bad_capture_without_eleven_a_day_witness :
  [capture_1x3_a; capture_1x3_b] ≠ []
  ∧ (∃ st, load median_of [capture_1x3_a; capture_1x3_b] None [] = Ok st)
  ∧ (∀ d, (length (day_group (map day [capture_1x3_a; capture_1x3_b]) d)
           ≤ 10)%nat)
  ∧ fits_every_day lstsq_line (map day [capture_1x3_a; capture_1x3_b])
      (median_powers median_of [capture_1x3_a; capture_1x3_b])
  ∧ (main xlog10 lstsq_line median_of plots_drawn
       [capture_1x3_a; capture_1x3_b] ∅).1 !! bad_captures_txt = Some "".
Proof.
  assert (Hne : [capture_1x3_a; capture_1x3_b] ≠ []) by discriminate.
  assert (Hsmall : ∀ d, (length (day_group
                                   (map day [capture_1x3_a; capture_1x3_b]) d)
                         ≤ 10)%nat).
  { intros d. unfold day_group.
    cbn [map day capture_1x3_a capture_1x3_b length seq List.filter lookup
         list_lookup].
    repeat case_bool_decide; cbn [length]; lia. }
  assert (Hfit : fits_every_day lstsq_line
                   (map day [capture_1x3_a; capture_1x3_b])
                   (median_powers median_of [capture_1x3_a; capture_1x3_b])).
  { apply fits_every_day_lstsq. reflexivity. }
  split; [exact Hne|]. split; [eexists; reflexivity|]. split; [exact Hsmall|].
  split; [exact Hfit|].
  exact (proj2 (no_bad_capture_without_eleven_a_day xlog10 lstsq_line
                  median_of plots_drawn [capture_1x3_a; capture_1x3_b] _ ∅
                  Hne eq_refl Hsmall) Hfit).
Defined.

(** ** How averaging ends *)

Section Outcomes.
Context {num : Type} `{NumOps num}.
Variable np_median : list num → num.

Lemma forallb_true_Forall {A} (f : A → bool) (l : list A) :
  forallb f l = true → Forall (λ x, f x = true) l.
Proof.
  induction l as [|x l IH]; cbn [forallb]; [constructor|].
  intros [Hx Hl]%andb_prop. constructor; [done|by apply IH].
Qed.

Lemma forallb_false_Exists {A} (f : A → bool) (l : list A) :
  forallb f l = false → Exists (λ x, f x = false) l.
Proof.
  induction l as [|x l IH]; cbn [forallb]; [done|].
  destruct (f x) eqn:Hx; cbn [andb]; intros Hl.
  - apply Exists_cons_tl. by apply IH.
  - by apply Exists_cons_hd.
Qed.

(** Captures that broadcast to the running sum are added to it. *)
Lemma load_running (args : list (capture num)) :
  ∀ (m : list (list num)) med_power,
  Forall (λ c, broadcastable (shape (spectra c)) (shape m) = true) args →
  ∃ m' med_power',
    load np_median args (Some m) med_power = Ok (Some m', med_power')
    ∧ shape m' = shape m.
Proof.
  induction args as [|c args IH]; intros m med_power Hargs.
  { by exists m, med_power. }
  apply Forall_cons in Hargs as [Hc Hargs]. cbn [load accumulate].
  destruct (np_iadd_succeeds _ _ Hc) as [m1 Hm1]. rewrite Hm1.
  cbn [mbind result_bind].
  pose proof (np_iadd_shape _ _ _ Hm1) as Hshape.
  destruct (IH m1 (med_power ++ [(day c, np_median (concat (spectra c)))]))
    as (m' & med_power' & Hload & Hm').
  { by rewrite Hshape. }
  exists m', med_power'. split; [done|]. by rewrite Hm', Hshape.
Qed.

(** X15: how averaging ends.  When every later capture broadcasts to the
    shape of the first one, the average exists and has the shape of the
    first capture, whatever the shapes of the others; otherwise the
    addition raises ValueError. *)
Theorem spectrum_averager_outcome (first : capture num)
    (rest : list (capture num)) :
  if forallb (λ c, broadcastable (shape (spectra c)) (shape (spectra first)))
       rest
  then ∃ spec, spectrum_averager np_median (first :: rest) = Ok spec
               ∧ shape spec = shape (spectra first)
  else spectrum_averager np_median (first :: rest) = Raise ValueError.
Proof.
  destruct (forallb _ rest) eqn:Hall.
  - apply forallb_true_Forall in Hall.
    destruct (load_running rest
                (map (map (λ x, np_mul x (of_int 1))) (spectra first))
                ([] ++ [(day first, np_median (concat (spectra first)))]))
      as (m & med_power & Hload & Hshape).
    { eapply Forall_impl; [exact Hall|]. intros c Hc. cbn beta in *.
      by rewrite accumulate_first_shape. }
    eexists. unfold spectrum_averager.
    cbn [load accumulate mbind result_bind]. rewrite Hload.
    cbn [fst average]. split; [reflexivity|].
    by rewrite shape_map, Hshape, accumulate_first_shape.
  - apply forallb_false_Exists in Hall. unfold spectrum_averager.
    by rewrite load_mismatch.
Qed.

End Outcomes.


(** ** Powers without a logarithm *)

Lemma deviates_nan (s m : xreal) :
  xlog10 s = NaN ∨ xlog10 m = NaN → deviates xlog10 s m = false.
Proof.
  unfold deviates, dB. cbn [np_gt np_abs np_sub np_mul of_int xreal_ops].
  intros [-> | ->]; [done|]. by destruct (xmul _ (xlog10 s)).
Qed.

(** X17: in exact arithmetic, a channel is GOOD when each bin of the window
    has no logarithm in the channel or in the median spectrum (a negative
    or NaN power): NaN compares false with 3 dB, so no bin counts as
    deviating. *)
Theorem flag_nan_channel_is_good (spec : list (list xreal))
    (median_spec : list xreal) (lo hi : nat) (i : nat) (row : list xreal) :
  Forall (λ row, length row = length median_spec) spec →
  (lo ≤ hi)%nat →
  spec !! i = Some row →
  (∀ b s m, (lo ≤ b < hi)%nat → row !! b = Some s → median_spec !! b = Some m →
            xlog10 s = NaN ∨ xlog10 m = NaN) →
  ∃ status,
    flag xlog10 spec median_spec (lo, hi) = Ok status
    ∧ status !! i = Some GOOD.
Proof.
  intros Hshape Hle Hrow Hnan.
  destruct (flag_spec xlog10 spec median_spec lo hi Hshape)
    as (status & Hrun & _ & Hst).
  exists status. split; [exact Hrun|]. rewrite (Hst i row Hrow).
  assert (Hcount : count_deviating xlog10 row median_spec lo hi = 0%nat).
  { unfold count_deviating. rewrite filter_none; [done|].
    intros b Hb. apply elem_of_seq in Hb. unfold bin_deviates.
    destruct (row !! b) as [s|] eqn:Hs; [|done].
    destruct (median_spec !! b) as [m|] eqn:Hm; [|done].
    apply deviates_nan. apply (Hnan b s m); [lia|done|done]. }
  rewrite Hcount.
  pose proof (exceeds_quarter_iff 0 (Z.of_nat hi - Z.of_nat lo)) as Hq.
  destruct (exceeds_quarter 0 _); [|done].
  exfalso. destruct Hq as [Hq _]. specialize (Hq eq_refl).
  unfold Qlt in Hq. cbn in Hq. lia.
Qed.

Lemma flag_nan_channel_is_good_witness :
  Forall (λ row, length row = length [Fin 1; Fin 2])
         [[Fin 1; Fin 2]; [NaN; Fin (-1)]]
  ∧ (0 ≤ 2)%nat
  ∧ [[Fin 1; Fin 2]; [NaN; Fin (-1)]] !! 1%nat = Some [NaN; Fin (-1)]
  ∧ ∃ status,
      flag xlog10 [[Fin 1; Fin 2]; [NaN; Fin (-1)]] [Fin 1; Fin 2] (0, 2)%nat
      = Ok status
      ∧ status !! 1%nat = Some GOOD.
Proof.
  assert (Hshape : Forall (λ row, length row = length [Fin 1; Fin 2])
                          [[Fin 1; Fin 2]; [NaN; Fin (-1)]])
    by (repeat constructor).
  assert (Hle : (0 ≤ 2)%nat) by lia.
  split; [exact Hshape|]. split; [exact Hle|]. split; [reflexivity|].
  refine (flag_nan_channel_is_good [[Fin 1; Fin 2]; [NaN; Fin (-1)]]
            [Fin 1; Fin 2] 0 2 1 [NaN; Fin (-1)] Hshape Hle eq_refl _).
  intros [|[|b]] s m Hb Hs Hm; [| |lia]; left; cbn in Hs; simplify_eq.
  - reflexivity.
  - cbn. rewrite bool_decide_eq_false_2 by lra. by rewrite decide_False by lra.
Defined.
